(** * A shallow embedding of the streaming chat client

    The development follows the vanilla TypeScript client with bounded
    retry, src/unnamed/part_000 (src/src/index.ts holds a version of the
    same client without [sendWrapper] and the retry loop):
    [sendMessage], [sendWrapper], [handleStreamingResponseWithRetry],
    [handleStreamingResponse] and its inner [readStreamChunk], together with
    the platform functions they call ([TextDecoder.decode] in streaming
    mode, [String.prototype.split], [String.prototype.trim], [JSON.parse],
    [JSON.stringify], [Array.prototype.slice]).

    Asynchrony is sequentialised: the program has a single flow of control
    and every [await] is a plain call whose result is either a value or a
    thrown exception.  The network is an oracle indexed by the number of
    [fetch] calls made so far. *)

From Stdlib Require Import ZArith NArith List String Ascii Bool Lia.
From Stdlib.Strings Require Import Byte.
From Equations Require Import Equations.
From Equations.Prop Require Import Logic.
Import ListNotations.


(** ** JavaScript strings

    A JavaScript string is a sequence of UTF-16 code units. *)

Module JsString.
Local Open Scope N_scope.

Definition jsstring := list N.

(** Literals: every byte of the Rocq string becomes one code unit, so the
    helper is meant for ASCII text only. *)
Definition js (s : string) : jsstring :=
  map Byte.to_N (list_byte_of_string s).

(** Literals of JSON text: an apostrophe stands for a double quote
    (code unit 34). *)
Definition jq (s : string) : jsstring :=
  map (fun u => if N.eqb u 39 then 34%N else u) (js s).

Fixpoint eqb (a b : jsstring) : bool :=
  match a, b with
  | [], [] => true
  | x :: a', y :: b' => N.eqb x y && eqb a' b'
  | _, _ => false
  end.

(** [s.split("\n")]: the separator is the single code unit 10. *)
Fixpoint split (s : jsstring) : list jsstring :=
  match s with
  | [] => [[]]
  | c :: r =>
      if N.eqb c 10 then [] :: split r
      else match split r with
           | l :: ls => (c :: l) :: ls
           | [] => [[c]]
           end
  end.

(** WhiteSpace and LineTerminator code units, as stripped by [trim]. *)
Definition isWhiteSpace (u : N) : bool :=
  (N.leb 9 u && N.leb u 13) || N.eqb u 32 || N.eqb u 160
  || N.eqb u 5760 || (N.leb 8192 u && N.leb u 8202)
  || N.eqb u 8232 || N.eqb u 8233 || N.eqb u 8239 || N.eqb u 8287
  || N.eqb u 12288 || N.eqb u 65279.

Fixpoint trimStart (s : jsstring) : jsstring :=
  match s with
  | c :: r => if isWhiteSpace c then trimStart r else s
  | [] => []
  end.

Definition trim (s : jsstring) : jsstring :=
  rev (trimStart (rev (trimStart s))).

Definition isEmpty (s : jsstring) : bool :=
  match s with [] => true | _ => false end.

(** Decimal digits of a natural number, most significant first. *)
Fixpoint digitsFuel (fuel : nat) (n : N) (acc : jsstring) : jsstring :=
  match fuel with
  | O => acc
  | S f =>
      let acc' := (48 + N.modulo n 10)%N :: acc in
      if N.ltb n 10 then acc' else digitsFuel f (N.div n 10) acc'
  end.

Definition ofN (n : N) : jsstring :=
  digitsFuel (S (N.to_nat (N.log2 n))) n [].

End JsString.
Export JsString.

(** ** [TextDecoder] for UTF-8, used with [{ stream: true }]

    The decoder of the Encoding standard: a state machine over bytes that
    keeps a partial multi-byte sequence between calls, replaces ill-formed
    input by U+FFFD and drops one leading byte-order mark. *)

Module TextDecoder.
Local Open Scope N_scope.

Record t := mk {
  codePoint : N;
  bytesSeen : N;
  bytesNeeded : N;
  lowerBoundary : N;
  upperBoundary : N;
  bomSeen : bool
}.

(** [new TextDecoder()] *)
Definition create : t := mk 0 0 0 128 191 false.

Definition reset (d : t) : t := mk 0 0 0 128 191 (bomSeen d).

(** A byte read while no sequence is pending. *)
Definition lead (d : t) (b : N) : list N * t :=
  if N.leb b 127 then ([b], d)
  else if N.leb 194 b && N.leb b 223 then
    ([], mk (N.land b 31) 0 1 128 191 (bomSeen d))
  else if N.leb 224 b && N.leb b 239 then
    ([], mk (N.land b 15) 0 2
            (if N.eqb b 224 then 160 else 128)
            (if N.eqb b 237 then 159 else 191) (bomSeen d))
  else if N.leb 240 b && N.leb b 244 then
    ([], mk (N.land b 7) 0 3
            (if N.eqb b 240 then 144 else 128)
            (if N.eqb b 244 then 143 else 191) (bomSeen d))
  else ([65533], d).

(** One step of the UTF-8 decoder; yields the code points it emits. *)
Definition handler (d : t) (b : N) : list N * t :=
  if N.eqb (bytesNeeded d) 0 then lead d b
  else if N.ltb b (lowerBoundary d) || N.ltb (upperBoundary d) b then
    (* ill-formed: emit U+FFFD and process the byte again from scratch *)
    let '(out, d') := lead (reset d) b in (65533 :: out, d')
  else
    let cp := N.lor (N.shiftl (codePoint d) 6) (N.land b 63) in
    let seen := N.succ (bytesSeen d) in
    if N.eqb seen (bytesNeeded d) then ([cp], reset d)
    else ([], mk cp seen (bytesNeeded d) 128 191 (bomSeen d)).

Fixpoint run (d : t) (bytes : list byte) : list N * t :=
  match bytes with
  | [] => ([], d)
  | b :: rest =>
      let '(out, d1) := handler d (Byte.to_N b) in
      let '(out', d2) := run d1 rest in
      (out ++ out', d2)
  end.

Definition sawBOM (d : t) : t :=
  mk (codePoint d) (bytesSeen d) (bytesNeeded d)
     (lowerBoundary d) (upperBoundary d) true.

(** Serialisation of the decoded code points: the first item ever
    produced is dropped when it is U+FEFF. *)
Definition stripBOM (d : t) (cps : list N) : list N * t :=
  match cps with
  | [] => ([], d)
  | c :: rest =>
      if bomSeen d then (cps, d)
      else (if N.eqb c 65279 then rest else cps, sawBOM d)
  end.

(** A code point as UTF-16 code units. *)
Definition utf16 (cp : N) : jsstring :=
  if N.ltb cp 65536 then [cp]
  else
    let v := (cp - 65536)%N in
    [(55296 + N.shiftr v 10)%N; (56320 + N.land v 1023)%N].

(** [decoder.decode(value, { stream: true })] *)
Definition decode (d : t) (value : list byte) : jsstring * t :=
  let '(cps, d1) := run d value in
  let '(cps', d2) := stripBOM d1 cps in
  (flat_map utf16 cps', d2).

End TextDecoder.

(** ** Numbers

    A JavaScript Number is an IEEE 754 binary64 value.  [JSON.parse] never
    produces NaN, so the model has signed zeros, signed infinities and the
    finite values [m * 2^e] with [0 < m < 2^53] and [-1074 <= e <= 971]. *)

Module Number.
Local Open Scope Z_scope.

Inductive t :=
| Zero (neg : bool)
| Infinity (neg : bool)
| Finite (neg : bool) (m e : Z).

Definition eqb (a b : t) : bool :=
  match a, b with
  | Zero s, Zero s' => Bool.eqb s s'
  | Infinity s, Infinity s' => Bool.eqb s s'
  | Finite s m e, Finite s' m' e' => Bool.eqb s s' && (m =? m') && (e =? e')
  | _, _ => false
  end.

(** [p / q >= b ^ k], for [p >= 0], [q > 0]. *)
Definition geqPow (b p q k : Z) : bool :=
  if 0 <=? k then q * b ^ k <=? p else q <=? p * b ^ (- k).

Definition floorLog2 (p q : Z) : Z :=
  let lg := Z.log2 p - Z.log2 q in
  if geqPow 2 p q lg then lg else lg - 1.

Definition floorLog10 (p q : Z) : Z :=
  let g := (floorLog2 p q * 30103) / 100000 in
  if geqPow 10 p q (g + 1) then g + 1
  else if geqPow 10 p q g then g else g - 1.

(** Nearest integer to [n / d], ties to even. *)
Definition roundDiv (n d : Z) : Z :=
  let q := n / d in
  let r := n mod d in
  if (d <? 2 * r) || ((d =? 2 * r) && Z.odd q) then q + 1 else q.

(** The Number nearest to the rational [p / q] (round to nearest, ties
    to even), for [p >= 0] and [q > 0]. *)
Definition ofRatio (neg : bool) (p q : Z) : t :=
  if p =? 0 then Zero neg
  else
    let e := Z.max (floorLog2 p q - 52) (-1074) in
    let m := if 0 <=? e then roundDiv p (q * 2 ^ e)
             else roundDiv (p * 2 ^ (- e)) q in
    let '(m, e) := if m =? 2 ^ 53 then (2 ^ 52, e + 1) else (m, e) in
    if m =? 0 then Zero neg
    else if 971 <? e then Infinity neg
    else Finite neg m e.

(** The Number denoted by the decimal [m * 10^e]. *)
Definition ofDecimal (neg : bool) (m e : Z) : t :=
  if 0 <=? e then ofRatio neg (m * 10 ^ e) 1
  else ofRatio neg m (10 ^ (- e)).

Definition ofZ (z : Z) : t := ofRatio (z <? 0) (Z.abs z) 1.

Definition isZero (x : t) : bool :=
  match x with Zero _ => true | _ => false end.

(** Number::toString: the shortest decimal [s * 10^(n-k)], with [k]
    digits, that denotes the value. *)
Fixpoint shortest (fuel : nat) (k : Z) (m e p q n0 : Z) : Z * Z * Z :=
  match fuel with
  | O => (0, 1, n0)
  | S fuel' =>
      let scale := k - n0 in
      let num := if 0 <=? scale then p * 10 ^ scale else p in
      let den := if 0 <=? scale then q else q * 10 ^ (- scale) in
      let lo := num / den in
      let hi := lo + 1 in
      let okLo := eqb (ofDecimal false lo (n0 - k)) (Finite false m e) in
      let okHi := eqb (ofDecimal false hi (n0 - k)) (Finite false m e) in
      let dLo := num mod den in
      let dHi := den - dLo in
      let pick (s : Z) :=
        if s =? 10 ^ k then (1, 1, n0 + 1) else (s, k, n0) in
      if okLo && okHi then
        if dLo <? dHi then pick lo
        else if dHi <? dLo then pick hi
        else if Z.even lo then pick lo else pick hi
      else if okLo then pick lo
      else if okHi then pick hi
      else shortest fuel' (k + 1) m e p q n0
  end.

Definition digits (s : Z) : jsstring := JsString.ofN (Z.to_N s).

Definition zeros (n : Z) : jsstring := repeat 48%N (Z.to_nat n).

Definition formatPositive (s k n : Z) : jsstring :=
  let ds := digits s in
  if (k <=? n) && (n <=? 21) then ds ++ zeros (n - k)
  else if (0 <? n) && (n <=? 21) then
    firstn (Z.to_nat n) ds ++ [46%N] ++ skipn (Z.to_nat n) ds
  else if (-6 <? n) && (n <=? 0) then
    [48%N; 46%N] ++ zeros (- n) ++ ds
  else
    let ex := [101%N] ++ (if 0 <? n - 1 then [43%N] else [45%N])
                ++ digits (Z.abs (n - 1)) in
    if k =? 1 then ds ++ ex
    else firstn 1 ds ++ [46%N] ++ skipn 1 ds ++ ex.

Definition toString (x : t) : jsstring :=
  match x with
  | Zero _ => js "0"
  | Infinity neg => (if neg then [45%N] else []) ++ js "Infinity"
  | Finite neg m e =>
      let p := if 0 <=? e then m * 2 ^ e else m in
      let q := if 0 <=? e then 1 else 2 ^ (- e) in
      let n0 := floorLog10 p q + 1 in
      let '(s, k, n) := shortest 17 1 m e p q n0 in
      (if neg then [45%N] else []) ++ formatPositive s k n
  end.

End Number.

(** ** JSON values, [JSON.parse] and [JSON.stringify] *)

Module Json.
Local Open Scope N_scope.
Local Set Warnings "-register-all".

Inductive value :=
| Null
| Bool (b : bool)
| Num (n : Number.t)
| Str (s : jsstring)
| Arr (items : list value)
| Obj (fields : list (jsstring * value)).

(** *** Objects

    The fields of an object are kept in property enumeration order:
    array-index keys in ascending order, then the other keys in order of
    creation.  Defining an existing key replaces its value in place. *)

Fixpoint allDigits (s : jsstring) : bool :=
  match s with
  | [] => true
  | c :: r => (48 <=? c) && (c <=? 57) && allDigits r
  end.

Definition digitsValue (s : jsstring) : N :=
  fold_left (fun acc c => acc * 10 + (c - 48)) s 0.

Definition arrayIndex (k : jsstring) : option N :=
  match k with
  | [] => None
  | c :: r =>
      if allDigits k && (negb (c =? 48) || JsString.isEmpty r)
         && (digitsValue k <? 4294967295)
      then Some (digitsValue k) else None
  end.

Fixpoint hasKey (k : jsstring) (fields : list (jsstring * value)) : bool :=
  match fields with
  | [] => false
  | (k', _) :: r => JsString.eqb k k' || hasKey k r
  end.

Fixpoint replaceKey (k : jsstring) (v : value)
         (fields : list (jsstring * value)) : list (jsstring * value) :=
  match fields with
  | [] => []
  | (k', v') :: r =>
      if JsString.eqb k k' then (k', v) :: r
      else (k', v') :: replaceKey k v r
  end.

Fixpoint insertIndex (i : N) (k : jsstring) (v : value)
         (fields : list (jsstring * value)) : list (jsstring * value) :=
  match fields with
  | [] => [(k, v)]
  | (k', v') :: r =>
      match arrayIndex k' with
      | Some j => if i <? j then (k, v) :: fields
                  else (k', v') :: insertIndex i k v r
      | None => (k, v) :: fields
      end
  end.

Definition defineProperty (k : jsstring) (v : value)
           (fields : list (jsstring * value)) : list (jsstring * value) :=
  if hasKey k fields then replaceKey k v fields
  else match arrayIndex k with
       | Some i => insertIndex i k v fields
       | None => fields ++ [(k, v)]
       end.

Fixpoint lookup (k : jsstring) (fields : list (jsstring * value))
  : option value :=
  match fields with
  | [] => None
  | (k', v) :: r => if JsString.eqb k k' then Some v else lookup k r
  end.

(** [v.k] for a value other than [null] and a key that no built-in
    prototype defines ([Credits], [model], [message], [content]);
    [None] is [undefined]. *)
Definition get (v : value) (k : jsstring) : option value :=
  match v with
  | Obj fields => lookup k fields
  | _ => None
  end.

(** ToBoolean *)
Definition truthy (v : value) : bool :=
  match v with
  | Null => false
  | Bool b => b
  | Num n => negb (Number.isZero n)
  | Str s => negb (JsString.isEmpty s)
  | Arr _ | Obj _ => true
  end.

Fixpoint join (sep : jsstring) (parts : list jsstring) : jsstring :=
  match parts with
  | [] => []
  | [p] => p
  | p :: rest => p ++ sep ++ join sep rest
  end.

Fixpoint sequence {A} (l : list (option A)) : option (list A) :=
  match l with
  | [] => Some []
  | None :: _ => None
  | Some a :: r =>
      match sequence r with Some r' => Some (a :: r') | None => None end
  end.

(** ToString, as applied by string concatenation and by template
    literals.  [None] is a thrown TypeError: a parsed object that has an
    own, hence not callable, [toString] property cannot be converted. *)
Fixpoint toString (v : value) : option jsstring :=
  match v with
  | Null => Some (js "null")
  | Bool b => Some (if b then js "true" else js "false")
  | Num n => Some (Number.toString n)
  | Str s => Some s
  | Arr items =>
      option_map (join (js ","))
        (sequence (map (fun x => match x with
                                 | Null => Some []
                                 | _ => toString x
                                 end) items))
  | Obj fields =>
      if hasKey (js "toString") fields then None
      else Some (js "[object Object]")
  end.

(** *** [JSON.parse] *)

Definition isJsonSpace (c : N) : bool :=
  (c =? 9) || (c =? 10) || (c =? 13) || (c =? 32).

Fixpoint skipSpace (s : jsstring) : jsstring :=
  match s with
  | c :: r => if isJsonSpace c then skipSpace r else s
  | [] => []
  end.

Definition isDigit (c : N) : bool := (48 <=? c) && (c <=? 57).

Definition hexValue (c : N) : option N :=
  if (48 <=? c) && (c <=? 57) then Some (c - 48)
  else if (97 <=? c) && (c <=? 102) then Some (c - 87)
  else if (65 <=? c) && (c <=? 70) then Some (c - 55)
  else None.

Definition escapeChar (c : N) : option N :=
  if c =? 34 then Some 34
  else if c =? 92 then Some 92
  else if c =? 47 then Some 47
  else if c =? 98 then Some 8
  else if c =? 102 then Some 12
  else if c =? 110 then Some 10
  else if c =? 114 then Some 13
  else if c =? 116 then Some 9
  else None.

(** The characters of a string literal, after its opening quote. *)
Fixpoint parseChars (fuel : nat) (s : jsstring) : option (jsstring * jsstring) :=
  match fuel with
  | O => None
  | S fuel' =>
      match s with
      | [] => None
      | 34 :: r => Some ([], r)
      | 92 :: 117 :: h1 :: h2 :: h3 :: h4 :: r =>
          match hexValue h1, hexValue h2, hexValue h3, hexValue h4 with
          | Some a, Some b, Some c, Some d =>
              match parseChars fuel' r with
              | Some (cs, rest) =>
                  Some (((a * 16 + b) * 16 + c) * 16 + d :: cs, rest)
              | None => None
              end
          | _, _, _, _ => None
          end
      | 92 :: e :: r =>
          match escapeChar e with
          | Some c =>
              match parseChars fuel' r with
              | Some (cs, rest) => Some (c :: cs, rest)
              | None => None
              end
          | None => None
          end
      | c :: r =>
          if (c <? 32) || (c =? 92) then None
          else match parseChars fuel' r with
               | Some (cs, rest) => Some (c :: cs, rest)
               | None => None
               end
      end
  end.

Fixpoint spanDigits (s : jsstring) : jsstring * jsstring :=
  match s with
  | c :: r =>
      if isDigit c then let '(ds, rest) := spanDigits r in (c :: ds, rest)
      else ([], s)
  | [] => ([], [])
  end.

(** A number literal: an optional minus sign, an integer part without a
    superfluous leading zero, an optional fraction and an optional
    exponent. *)
Definition parseNumber (s : jsstring) : option (Number.t * jsstring) :=
  let '(neg, s1) := match s with 45 :: r => (true, r) | _ => (false, s) end in
  let '(int, s2) := spanDigits s1 in
  match int with
  | [] => None
  | d :: more =>
      if (d =? 48) && negb (JsString.isEmpty more) then None
      else
        let frac :=
          match s2 with
          | 46 :: r =>
              let '(fs, s3) := spanDigits r in
              match fs with [] => None | _ => Some (fs, s3) end
          | _ => Some ([], s2)
          end in
        match frac with
        | None => None
        | Some (fs, s3) =>
            let expo :=
              match s3 with
              | c :: r =>
                  if (c =? 101) || (c =? 69) then
                    let '(eneg, r1) :=
                      match r with
                      | 45 :: r' => (true, r')
                      | 43 :: r' => (false, r')
                      | _ => (false, r)
                      end in
                    let '(es, s4) := spanDigits r1 in
                    match es with
                    | [] => None
                    | _ => Some (if eneg then (- Z.of_N (digitsValue es))%Z
                                 else Z.of_N (digitsValue es), s4)
                    end
                  else Some (0%Z, s3)
              | [] => Some (0%Z, s3)
              end in
            match expo with
            | None => None
            | Some (ex, s4) =>
                Some (Number.ofDecimal neg
                        (Z.of_N (digitsValue (int ++ fs)))
                        (ex - Z.of_nat (List.length fs))%Z, s4)
            end
        end
  end.

Fixpoint stripPrefix (p s : jsstring) : option jsstring :=
  match p, s with
  | [], _ => Some s
  | a :: p', b :: s' => if a =? b then stripPrefix p' s' else None
  | _ :: _, [] => None
  end.

Fixpoint parseValue (fuel : nat) (s : jsstring) : option (value * jsstring) :=
  match fuel with
  | O => None
  | S fuel' =>
      match skipSpace s with
      | 123 :: r =>                                  (* { *)
          match skipSpace r with
          | 125 :: r' => Some (Obj [], r')
          | r' => parseMembers fuel' [] r'
          end
      | 91 :: r =>                                   (* [ *)
          match skipSpace r with
          | 93 :: r' => Some (Arr [], r')
          | r' => parseElements fuel' [] r'
          end
      | 34 :: r =>
          match parseChars (S (List.length r)) r with
          | Some (cs, rest) => Some (Str cs, rest)
          | None => None
          end
      | 116 :: r => option_map (pair (Bool true)) (stripPrefix (js "rue") r)
      | 102 :: r => option_map (pair (Bool false)) (stripPrefix (js "alse") r)
      | 110 :: r => option_map (pair Null) (stripPrefix (js "ull") r)
      | s' =>
          match parseNumber s' with
          | Some (n, rest) => Some (Num n, rest)
          | None => None
          end
      end
  end
with parseElements (fuel : nat) (acc : list value) (s : jsstring)
  : option (value * jsstring) :=
  match fuel with
  | O => None
  | S fuel' =>
      match parseValue fuel' s with
      | Some (v, rest) =>
          match skipSpace rest with
          | 44 :: r => parseElements fuel' (acc ++ [v]) r
          | 93 :: r => Some (Arr (acc ++ [v]), r)
          | _ => None
          end
      | None => None
      end
  end
with parseMembers (fuel : nat) (acc : list (jsstring * value)) (s : jsstring)
  : option (value * jsstring) :=
  match fuel with
  | O => None
  | S fuel' =>
      match skipSpace s with
      | 34 :: r =>
          match parseChars (S (List.length r)) r with
          | Some (k, rest) =>
              match skipSpace rest with
              | 58 :: r1 =>
                  match parseValue fuel' r1 with
                  | Some (v, rest1) =>
                      match skipSpace rest1 with
                      | 44 :: r2 =>
                          parseMembers fuel' (defineProperty k v acc) r2
                      | 125 :: r2 => Some (Obj (defineProperty k v acc), r2)
                      | _ => None
                      end
                  | None => None
                  end
              | _ => None
              end
          | None => None
          end
      | _ => None
      end
  end.

(** [JSON.parse(text)]; [None] is a thrown SyntaxError. *)
Definition parse (text : jsstring) : option value :=
  match parseValue (S (List.length text)) text with
  | Some (v, rest) =>
      match skipSpace rest with [] => Some v | _ => None end
  | None => None
  end.

(** *** [JSON.stringify] *)

Definition hexDigit (d : N) : N := if d <? 10 then 48 + d else 87 + d.

Definition unicodeEscape (c : N) : jsstring :=
  [92; 117; hexDigit (N.shiftr c 12); hexDigit (N.land (N.shiftr c 8) 15);
   hexDigit (N.land (N.shiftr c 4) 15); hexDigit (N.land c 15)].

Definition isLeadSurrogate (c : N) : bool := (55296 <=? c) && (c <=? 56319).
Definition isTrailSurrogate (c : N) : bool := (56320 <=? c) && (c <=? 57343).

(** The body of QuoteJSONString: short escapes, [\uXXXX] for the other
    control characters and for unpaired surrogates. *)
Fixpoint quoteChars (s : jsstring) : jsstring :=
  match s with
  | [] => []
  | c :: r =>
      if c =? 8 then [92; 98] ++ quoteChars r
      else if c =? 9 then [92; 116] ++ quoteChars r
      else if c =? 10 then [92; 110] ++ quoteChars r
      else if c =? 12 then [92; 102] ++ quoteChars r
      else if c =? 13 then [92; 114] ++ quoteChars r
      else if c =? 34 then [92; 34] ++ quoteChars r
      else if c =? 92 then [92; 92] ++ quoteChars r
      else if c <? 32 then unicodeEscape c ++ quoteChars r
      else if isLeadSurrogate c then
        match r with
        | c' :: r' =>
            if isTrailSurrogate c' then c :: c' :: quoteChars r'
            else unicodeEscape c ++ quoteChars r
        | [] => unicodeEscape c
        end
      else if isTrailSurrogate c then unicodeEscape c ++ quoteChars r
      else c :: quoteChars r
  end.

Definition quote (s : jsstring) : jsstring :=
  [34] ++ quoteChars s ++ [34].

Fixpoint stringify (v : value) : jsstring :=
  match v with
  | Null => js "null"
  | Bool b => if b then js "true" else js "false"
  | Num n => match n with
             | Number.Infinity _ => js "null"
             | _ => Number.toString n
             end
  | Str s => quote s
  | Arr items => [91] ++ join [44] (map stringify items) ++ [93]
  | Obj fields =>
      [123] ++ join [44]
                 (map (fun kv => quote (fst kv) ++ [58] ++ stringify (snd kv))
                      fields)
      ++ [125]
  end.

End Json.

(** ** Control flow: mutable state and exceptions

    A computation over a state [S] ends normally with a value or abruptly
    with a thrown exception; either way the state changes made so far
    persist. *)

Inductive exn :=
| NetworkError        (* a rejected [fetch] or a rejected read of the body *)
| NullDereference     (* TypeError: property access on null or undefined *)
| SyntaxError         (* [JSON.parse] *)
| ConversionError     (* TypeError: cannot convert object to primitive *)
| QuotaExceededError  (* [localStorage.setItem] *)
| NotCallable.        (* TypeError: the value called is not a function *)

Inductive completion (A : Type) :=
| Normal (a : A)
| Throw (e : exn).
Arguments Normal {A} a.
Arguments Throw {A} e.

Definition M (S A : Type) : Type := S -> completion A * S.

Definition ret {S A} (a : A) : M S A := fun s => (Normal a, s).

Definition throw {S A} (e : exn) : M S A := fun s => (Throw e, s).

Definition bind {S A B} (m : M S A) (k : A -> M S B) : M S B :=
  fun s => match m s with
           | (Normal a, s') => k a s'
           | (Throw e, s') => (Throw e, s')
           end.

Definition modify {S} (f : S -> S) : M S unit := fun s => (Normal tt, f s).

Definition gets {S A} (f : S -> A) : M S A := fun s => (Normal (f s), s).

(** [try { m } catch (e) { h e }] *)
Definition tryCatch {S A} (m : M S A) (h : exn -> M S A) : M S A :=
  fun s => match m s with
           | (Throw e, s') => h e s'
           | r => r
           end.

(** [try { m } finally { fin }] *)
Definition tryFinally {S A} (m : M S A) (fin : M S unit) : M S A :=
  fun s => let '(r, s') := m s in
           match fin s' with
           | (Normal _, s'') => (r, s'')
           | (Throw e, s'') => (Throw e, s'')
           end.

Notation "x <- c1 ;; c2" := (bind c1 (fun x => c2))
  (at level 61, c1 at next level, right associativity).
Notation "c1 ;; c2" := (bind c1 (fun _ => c2))
  (at level 61, right associativity).

(** [for (const x of l) { body x }] *)
Fixpoint forOf {S A} (l : list A) (body : A -> M S unit) : M S unit :=
  match l with
  | [] => ret tt
  | x :: rest => body x ;; forOf rest body
  end.

(** ** The page and its environment *)

(** An entry of [conversationHistory]; [model] is optional. *)
Record message := {
  role : jsstring;
  content : jsstring;
  model : option Json.value
}.

(** A child of the [#messages] container, as built by [addMessage]. *)
Record element := {
  className : jsstring;
  textContent : jsstring;
  modelIndicator : option jsstring
}.

Record request := {
  req_url : jsstring;
  req_method : jsstring;
  req_headers : list (jsstring * jsstring);
  req_body : jsstring
}.

(** The body of a response: the chunks its reader yields, after which the
    reader either reports the end of the data or rejects. *)
Record bodyStream := {
  chunks : list (list byte);
  readFails : bool
}.

Record response := {
  ok : bool;
  location : option jsstring;       (* [headers.get("Location")] *)
  body : option bodyStream          (* [response.body], possibly null *)
}.

Inductive fetchResult :=
| Rejected
| Responded (r : response).

Record World := {
  conversationHistory : list message;
  accessToken : option jsstring;
  localStorage : option jsstring;   (* the item under [STORAGE_KEY] *)
  storageFull : bool;               (* [setItem] throws *)
  pathname : jsstring;              (* [window.location.pathname] *)
  href : option jsstring;           (* assigned [window.location.href] *)
  inputValue : jsstring;            (* [messageInput.value] *)
  inputDisabled : bool;
  typingIndicator : bool;
  messagesContainer : list element;
  statusLog : list jsstring;        (* every [updateStatus] text *)
  consoleWarnings : list (list jsstring * exn);  (* [console.warn] *)
  sleeps : list Z;                  (* every [sleep] duration, in ms *)
  requests : list request           (* every [fetch] call *)
}.

Definition setHistory (h : list message) (w : World) : World :=
  {| conversationHistory := h; accessToken := accessToken w;
     localStorage := localStorage w; storageFull := storageFull w;
     pathname := pathname w; href := href w; inputValue := inputValue w;
     inputDisabled := inputDisabled w; typingIndicator := typingIndicator w;
     messagesContainer := messagesContainer w; statusLog := statusLog w;
     consoleWarnings := consoleWarnings w; sleeps := sleeps w;
     requests := requests w |}.

Definition setLocalStorage (v : option jsstring) (w : World) : World :=
  {| conversationHistory := conversationHistory w; accessToken := accessToken w;
     localStorage := v; storageFull := storageFull w;
     pathname := pathname w; href := href w; inputValue := inputValue w;
     inputDisabled := inputDisabled w; typingIndicator := typingIndicator w;
     messagesContainer := messagesContainer w; statusLog := statusLog w;
     consoleWarnings := consoleWarnings w; sleeps := sleeps w;
     requests := requests w |}.

Definition setHref (v : option jsstring) (w : World) : World :=
  {| conversationHistory := conversationHistory w; accessToken := accessToken w;
     localStorage := localStorage w; storageFull := storageFull w;
     pathname := pathname w; href := v; inputValue := inputValue w;
     inputDisabled := inputDisabled w; typingIndicator := typingIndicator w;
     messagesContainer := messagesContainer w; statusLog := statusLog w;
     consoleWarnings := consoleWarnings w; sleeps := sleeps w;
     requests := requests w |}.

Definition setInput (v : jsstring) (disabled : bool) (w : World) : World :=
  {| conversationHistory := conversationHistory w; accessToken := accessToken w;
     localStorage := localStorage w; storageFull := storageFull w;
     pathname := pathname w; href := href w; inputValue := v;
     inputDisabled := disabled; typingIndicator := typingIndicator w;
     messagesContainer := messagesContainer w; statusLog := statusLog w;
     consoleWarnings := consoleWarnings w; sleeps := sleeps w;
     requests := requests w |}.

Definition setTypingIndicator (v : bool) (w : World) : World :=
  {| conversationHistory := conversationHistory w; accessToken := accessToken w;
     localStorage := localStorage w; storageFull := storageFull w;
     pathname := pathname w; href := href w; inputValue := inputValue w;
     inputDisabled := inputDisabled w; typingIndicator := v;
     messagesContainer := messagesContainer w; statusLog := statusLog w;
     consoleWarnings := consoleWarnings w; sleeps := sleeps w;
     requests := requests w |}.

Definition setMessagesContainer (v : list element) (w : World) : World :=
  {| conversationHistory := conversationHistory w; accessToken := accessToken w;
     localStorage := localStorage w; storageFull := storageFull w;
     pathname := pathname w; href := href w; inputValue := inputValue w;
     inputDisabled := inputDisabled w; typingIndicator := typingIndicator w;
     messagesContainer := v; statusLog := statusLog w;
     consoleWarnings := consoleWarnings w; sleeps := sleeps w;
     requests := requests w |}.

Definition setStatusLog (v : list jsstring) (w : World) : World :=
  {| conversationHistory := conversationHistory w; accessToken := accessToken w;
     localStorage := localStorage w; storageFull := storageFull w;
     pathname := pathname w; href := href w; inputValue := inputValue w;
     inputDisabled := inputDisabled w; typingIndicator := typingIndicator w;
     messagesContainer := messagesContainer w; statusLog := v;
     consoleWarnings := consoleWarnings w; sleeps := sleeps w;
     requests := requests w |}.

Definition setConsoleWarnings (v : list (list jsstring * exn)) (w : World)
  : World :=
  {| conversationHistory := conversationHistory w; accessToken := accessToken w;
     localStorage := localStorage w; storageFull := storageFull w;
     pathname := pathname w; href := href w; inputValue := inputValue w;
     inputDisabled := inputDisabled w; typingIndicator := typingIndicator w;
     messagesContainer := messagesContainer w; statusLog := statusLog w;
     consoleWarnings := v; sleeps := sleeps w;
     requests := requests w |}.

Definition setSleeps (v : list Z) (w : World) : World :=
  {| conversationHistory := conversationHistory w; accessToken := accessToken w;
     localStorage := localStorage w; storageFull := storageFull w;
     pathname := pathname w; href := href w; inputValue := inputValue w;
     inputDisabled := inputDisabled w; typingIndicator := typingIndicator w;
     messagesContainer := messagesContainer w; statusLog := statusLog w;
     consoleWarnings := consoleWarnings w; sleeps := v;
     requests := requests w |}.

Definition setRequests (v : list request) (w : World) : World :=
  {| conversationHistory := conversationHistory w; accessToken := accessToken w;
     localStorage := localStorage w; storageFull := storageFull w;
     pathname := pathname w; href := href w; inputValue := inputValue w;
     inputDisabled := inputDisabled w; typingIndicator := typingIndicator w;
     messagesContainer := messagesContainer w; statusLog := statusLog w;
     consoleWarnings := consoleWarnings w; sleeps := sleeps w;
     requests := v |}.

(** ** The program *)

Definition API_URL : jsstring := js "https://local.api.peerwave.ai:8080".
Definition STORAGE_KEY : jsstring := js "peerwave_conversation".
Definition MAX_RETRY_ATTEMPTS : positive := 3.
Definition RETRY_DELAY : Z := 1000.

(** [array.slice(-n)] *)
Definition sliceLast {A} (n : nat) (l : list A) : list A :=
  skipn (List.length l - n) l.

(** The object that [JSON.stringify] sees for a history entry: [role],
    [content] and, unless it is undefined, [model]. *)
Definition messageJson (m : message) : Json.value :=
  Json.Obj ([(js "role", Json.Str (role m));
             (js "content", Json.Str (content m))]
            ++ match model m with
               | Some v => [(js "model", v)]
               | None => []
               end)%list.

Definition consoleWarn (args : list jsstring) (error : exn) : M World unit :=
  modify (fun w => setConsoleWarnings (consoleWarnings w ++ [(args, error)]) w).

Definition updateStatus (message : jsstring) : M World unit :=
  modify (fun w => setStatusLog (statusLog w ++ [message]) w).

Definition showTypingIndicator (show : bool) : M World unit :=
  modify (setTypingIndicator show).

Definition sleep (ms : Z) : M World unit :=
  modify (fun w => setSleeps (sleeps w ++ [ms]) w).

(** [addMessage(role, content, returnElement, model)]: the element is its
    index in the container. *)
Definition addMessage (role content : jsstring) (returnElement : bool)
           (model : option Json.value) : M World (option nat) :=
  indicator <-
    match model with
    | Some v =>
        if JsString.eqb role (js "assistant") && Json.truthy v then
          match Json.toString v with
          | Some text => ret (Some text)
          | None => throw ConversionError
          end
        else ret None
    | None => ret None
    end ;;
  index <- gets (fun w => List.length (messagesContainer w)) ;;
  modify (fun w =>
            setMessagesContainer
              (messagesContainer w
                 ++ [{| className := (js "message " ++ role)%list;
                        textContent := content;
                        modelIndicator := indicator |}])%list w) ;;
  ret (if returnElement then Some index else None).

Fixpoint setTextContent (l : list element) (i : nat) (text : jsstring)
  : list element :=
  match l, i with
  | [], _ => []
  | e :: r, O => {| className := className e; textContent := text;
                    modelIndicator := modelIndicator e |} :: r
  | e :: r, S i' => e :: setTextContent r i' text
  end.

Definition updateMessageContent (messageElement : nat) (newContent : jsstring)
  : M World unit :=
  modify (fun w =>
            setMessagesContainer
              (setTextContent (messagesContainer w) messageElement newContent) w).

Definition setItem (v : jsstring) : M World unit :=
  fun w => if storageFull w then (Throw QuotaExceededError, w)
           else (Normal tt, setLocalStorage (Some v) w).

Definition saveConversationToStorage : M World unit :=
  tryCatch
    (history <- gets conversationHistory ;;
     setItem (Json.stringify (Json.Arr (map messageJson history))))
    (fun error =>
       consoleWarn [js "Failed to save conversation to localStorage:"] error).

(** *** Variables captured by [readStreamChunk]

    [assistantMessage], [messageElement] and [handledModel] are assigned by
    the loop body.  The decoder is an object that only [decode] changes, so
    its state is handed from one read to the next. *)

Record locals := {
  assistantMessage : jsstring;
  messageElement : option nat;
  handledModel : Json.value
}.

Definition setAssistantMessage (v : jsstring) (l : locals) : locals :=
  {| assistantMessage := v; messageElement := messageElement l;
     handledModel := handledModel l |}.

Definition setMessageElement (v : option nat) (l : locals) : locals :=
  {| assistantMessage := assistantMessage l; messageElement := v;
     handledModel := handledModel l |}.

Definition setHandledModel (v : Json.value) (l : locals) : locals :=
  {| assistantMessage := assistantMessage l; messageElement := messageElement l;
     handledModel := v |}.

(** A page operation, run inside the closure. *)
Definition page {A} (m : M World A) : M (World * locals) A :=
  fun s => let '(r, w') := m (fst s) in (r, (w', snd s)).

Definition assign (f : locals -> locals) : M (World * locals) unit :=
  modify (fun s => (fst s, f (snd s))).

Definition var {A} (f : locals -> A) : M (World * locals) A :=
  gets (fun s => f (snd s)).

(** Runs a closure body over fresh locals and hands back their final
    values. *)
Definition withLocals {A} (init : locals) (m : M (World * locals) A)
  : M World locals :=
  fun w => let '(r, s) := m (w, init) in
           match r with
           | Normal _ => (Normal (snd s), fst s)
           | Throw e => (Throw e, fst s)
           end.

Definition JSON_parse {S} (text : jsstring) : M S Json.value :=
  match Json.parse text with
  | Some v => ret v
  | None => throw SyntaxError
  end.

(** [data.key], which throws when [data] is [null]. *)
Definition property {S} (data : Json.value) (key : jsstring)
  : M S (option Json.value) :=
  match data with
  | Json.Null => throw NullDereference
  | _ => ret (Json.get data key)
  end.

Definition ToString {S} (v : Json.value) : M S jsstring :=
  match Json.toString v with
  | Some text => ret text
  | None => throw ConversionError
  end.

(** [v && v.key], as a condition. *)
Definition truthyProperty (v : option Json.value) (key : jsstring)
  : option Json.value :=
  match v with
  | Some o =>
      if Json.truthy o then
        match Json.get o key with
        | Some c => if Json.truthy c then Some c else None
        | None => None
        end
      else None
  | None => None
  end.

(** The body of the loop over the lines of one decoded chunk. *)
Definition handleLine (line : jsstring) : M (World * locals) unit :=
  if negb (JsString.isEmpty (JsString.trim line)) then
    tryCatch
      (data <- JSON_parse line ;;
       credits <- property data (js "Credits") ;;
       match credits with
       | Some c =>
           (* a credits record *)
           creditInfo <- ToString c ;;
           page (updateStatus (js "Credits used: " ++ creditInfo)%list)
       | None =>
           match Json.get data (js "model") with
           | Some m => if Json.truthy m then assign (setHandledModel m)
                       else ret tt
           | None => ret tt
           end ;;
           match truthyProperty (Json.get data (js "message")) (js "content") with
           | Some c =>
               delta <- ToString c ;;
               assign (fun l =>
                         setAssistantMessage (assistantMessage l ++ delta)%list l) ;;
               text <- var assistantMessage ;;
               el <- var messageElement ;;
               match el with
               | None =>
                   page (showTypingIndicator false) ;;
                   m <- var handledModel ;;
                   created <- page (addMessage (js "assistant") text true (Some m)) ;;
                   assign (setMessageElement created)
               | Some e => page (updateMessageContent e text)
               end
           | None => ret tt
           end
       end)
      (fun error =>
         page (consoleWarn [js "Error parsing streaming response:"; line] error))
  else ret tt.

(** [readStreamChunk], over what the reader still holds and the state of
    the decoder.  Each call reads once; at the end of the data it returns,
    otherwise it decodes the chunk, handles its lines and calls itself. *)
Fixpoint readStreamChunk (pending : list (list byte)) (fails : bool)
         (decoder : TextDecoder.t) : M (World * locals) bool :=
  match pending with
  | [] => if fails then throw NetworkError else ret true
  | value :: rest =>
      let '(decoded, decoder') := TextDecoder.decode decoder value in
      forOf (JsString.split decoded) handleLine ;;
      readStreamChunk rest fails decoder'
  end.

Definition truthyString (s : option jsstring) : bool :=
  match s with
  | Some (_ :: _) => true
  | _ => false
  end.

Section Network.

(** The outcome of the [i]-th call of [fetch]. *)
Variable network : nat -> fetchResult.

Definition fetch (req : request) : M World response :=
  fun w =>
    let w' := setRequests (requests w ++ [req]) w in
    match network (List.length (requests w)) with
    | Rejected => (Throw NetworkError, w')
    | Responded r => (Normal r, w')
    end.

Definition handleStreamingResponse : M World bool :=
  history <- gets conversationHistory ;;
  let recentHistory := sliceLast 20 history in
  let requestBody :=
    Json.Obj [(js "model", Json.Str (js "cheapest"));
              (js "messages", Json.Arr (map messageJson recentHistory))] in
  path <- gets pathname ;;
  token <- gets accessToken ;;
  let headers :=
    ([(js "Content-Type", js "application/json");
      (js "Redirect", if JsString.isEmpty path then js "/" else path)]
     ++ match token with
        | Some t => if truthyString token then [(js "Authorization", t)] else []
        | None => []
        end)%list in
  response <- fetch {| req_url := (API_URL ++ js "/api/chat/stream")%list;
                       req_method := js "POST";
                       req_headers := headers;
                       req_body := Json.stringify requestBody |} ;;
  if negb (ok response) then
    match location response with
    | Some target =>
        if truthyString (location response) then
          addMessage (js "system") (js "Redirecting to authenticate...")
                     false None ;;
          modify (setHref (Some target)) ;;
          ret true
        else ret false
    | None => ret false
    end
  else
    final <-
      withLocals {| assistantMessage := []; messageElement := None;
                    handledModel := Json.Str [] |}
        match body response with
        | Some stream =>
            readStreamChunk (chunks stream) (readFails stream)
                            TextDecoder.create
        | None => throw NullDereference   (* [reader!.read()] *)
        end ;;
    (if negb (JsString.isEmpty (assistantMessage final)) then
       modify (fun w =>
                 setHistory
                   (conversationHistory w
                      ++ [{| role := js "assistant";
                             content := assistantMessage final;
                             model := Some (handledModel final) |}])%list w) ;;
       saveConversationToStorage
     else ret tt) ;;
    ret true.

(** The delay before the next attempt, in milliseconds. *)
Definition retryDelay (attemptNumber : positive) : Z :=
  (RETRY_DELAY * 2 ^ (Z.pos attemptNumber - 1))%Z.

Equations? handleStreamingResponseWithRetry (attemptNumber : positive)
  (w : World) : completion bool * World
  by wf (Pos.to_nat MAX_RETRY_ATTEMPTS - Pos.to_nat attemptNumber) lt :=
  handleStreamingResponseWithRetry attemptNumber w
    with handleStreamingResponse w := {
    | (Throw e, w1) => (Throw e, w1)
    | (Normal true, w1) => (Normal true, w1)
    | (Normal false, w1) with inspect (Pos.ltb attemptNumber MAX_RETRY_ATTEMPTS) := {
        | exist _ true continue =>
            let delay := retryDelay attemptNumber in
            handleStreamingResponseWithRetry (attemptNumber + 1)
              (snd ((updateStatus
                       (js "Request failed, retrying in "
                        ++ Number.toString (Number.ofDecimal false delay (-3))
                        ++ js "s... (" ++ JsString.ofN (Npos attemptNumber)
                        ++ js "/" ++ JsString.ofN (Npos MAX_RETRY_ATTEMPTS)
                        ++ js ")")%list ;;
                     sleep delay) w1))
        | exist _ false _ =>
            (updateStatus (js "Request failed after maximum retries") ;;
             ret false) w1 } }.
Proof.
  apply Pos.ltb_lt, Pos2Nat.inj_lt in continue.
  rewrite Pos2Nat.inj_add.
  change (Pos.to_nat MAX_RETRY_ATTEMPTS) with 3%nat in continue.
  change (Pos.to_nat 1) with 1%nat.
  destruct (Pos.to_nat attemptNumber) as [|[|[|n]]]; simpl; lia.
Qed.

Definition sendWrapper : M World unit :=
  modify (fun w => setInput [] true w) ;;
  showTypingIndicator true ;;
  tryFinally
    (success <- handleStreamingResponseWithRetry 1 ;;
     if negb success then
       history <- gets conversationHistory ;;
       if (0 <? List.length history)%nat
          && match nth_error history (List.length history - 1) with
             | Some last => JsString.eqb (role last) (js "user")
             | None => false
             end
       then
         modify (fun w => setHistory (removelast (conversationHistory w)) w) ;;
         saveConversationToStorage
       else ret tt
     else ret tt)
    (showTypingIndicator false ;;
     modify (fun w => setInput (inputValue w) false w)).

(** The submit handler. *)
Definition sendMessage : M World unit :=
  value <- gets inputValue ;;
  let message := JsString.trim value in
  if JsString.isEmpty message then ret tt
  else
    addMessage (js "user") message false None ;;
    modify (fun w =>
              setHistory
                (conversationHistory w
                   ++ [{| role := js "user"; content := message;
                          model := None |}])%list w) ;;
    saveConversationToStorage ;;
    sendWrapper.

End Network.

(** * Vocabulary of the statements *)

Definition core (w : World) :=
  (conversationHistory w, localStorage w, storageFull w, requests w, sleeps w,
   href w, accessToken w, pathname w, inputValue w, inputDisabled w).

Definition initialLocals : locals :=
  {| assistantMessage := []; messageElement := None;
     handledModel := Json.Str [] |}.

(** The request that [handleStreamingResponse] builds in a given state. *)
Definition requestOf (w : World) : request :=
  {| req_url := (API_URL ++ js "/api/chat/stream")%list;
     req_method := js "POST";
     req_headers :=
       ([(js "Content-Type", js "application/json");
         (js "Redirect",
          if JsString.isEmpty (pathname w) then js "/" else pathname w)]
        ++ match accessToken w with
           | Some t => if truthyString (accessToken w)
                       then [(js "Authorization", t)] else []
           | None => []
           end)%list;
     req_body :=
       Json.stringify
         (Json.Obj
            [(js "model", Json.Str (js "cheapest"));
             (js "messages",
              Json.Arr (map messageJson
                            (sliceLast 20 (conversationHistory w))))]) |}.

Definition sent (w : World) : World :=
  setRequests (requests w ++ [requestOf w]) w.

(** A failed attempt: a response that is not ok and carries no usable
    [Location]. *)
Definition serverFailure (r : response) : Prop :=
  ok r = false /\ truthyString (location r) = false.

(** A redirect signal: a response that is not ok and whose [Location] has a
    non-empty value, which is what the code tests. *)
Definition redirectSignal (r : response) (target : jsstring) : Prop :=
  ok r = false /\ location r = Some target /\ target <> [].

Definition appendAssistant (final : locals) (w : World) : World :=
  setHistory (conversationHistory w
                ++ [{| role := js "assistant";
                       content := assistantMessage final;
                       model := Some (handledModel final) |}]) w.

Definition retryNotice (attemptNumber : positive) : jsstring :=
  (js "Request failed, retrying in "
   ++ Number.toString (Number.ofDecimal false (retryDelay attemptNumber) (-3))
   ++ js "s... (" ++ JsString.ofN (Npos attemptNumber)
   ++ js "/" ++ JsString.ofN (Npos MAX_RETRY_ATTEMPTS) ++ js ")")%list.

(** The state in which the next attempt starts. *)
Definition backedOff (attemptNumber : positive) (w : World) : World :=
  setSleeps (sleeps (setStatusLog (statusLog w ++ [retryNotice attemptNumber]) w)
               ++ [retryDelay attemptNumber])
            (setStatusLog (statusLog w ++ [retryNotice attemptNumber]) w).

Definition exhausted (w : World) : World :=
  setStatusLog (statusLog w ++ [js "Request failed after maximum retries"]) w.

Definition absorb (line : jsstring) (acc : jsstring * Json.value)
  : jsstring * Json.value :=
  if JsString.isEmpty (JsString.trim line) then acc
  else
    match Json.parse line with
    | None | Some Json.Null => acc
    | Some data =>
        match Json.get data (js "Credits") with
        | Some _ => acc
        | None =>
            let m := match Json.get data (js "model") with
                     | Some m => if Json.truthy m then m else snd acc
                     | None => snd acc
                     end in
            match truthyProperty (Json.get data (js "message")) (js "content") with
            | Some c =>
                match Json.toString c with
                | Some delta => ((fst acc ++ delta)%list, m)
                | None => (fst acc, m)
                end
            | None => (fst acc, m)
            end
        end
    end.

Fixpoint reconstruct (pending : list (list byte)) (decoder : TextDecoder.t)
         (acc : jsstring * Json.value) : jsstring * Json.value :=
  match pending with
  | [] => acc
  | value :: rest =>
      let '(decoded, decoder') := TextDecoder.decode decoder value in
      reconstruct rest decoder'
        (fold_left (fun a line => absorb line a) (JsString.split decoded) acc)
  end.

(** The text and the model that a whole stream leaves in the locals. *)
Definition streamText (pending : list (list byte)) : jsstring :=
  fst (reconstruct pending TextDecoder.create ([], Json.Str [])).

Definition streamModel (pending : list (list byte)) : Json.value :=
  snd (reconstruct pending TextDecoder.create ([], Json.Str [])).

Definition textAndModel (l : locals) : jsstring * Json.value :=
  (assistantMessage l, handledModel l).

Definition saved (w : World) : World :=
  if storageFull w then
    setConsoleWarnings
      (consoleWarnings w
         ++ [([js "Failed to save conversation to localStorage:"],
              QuotaExceededError)]) w
  else
    setLocalStorage
      (Some (Json.stringify (Json.Arr (map messageJson (conversationHistory w)))))
      w.

(** The assistant message that a completed stream appends. *)
Definition assistantOf (pending : list (list byte)) : message :=
  {| role := js "assistant";
     content := streamText pending;
     model := Some (streamModel pending) |}.

Definition completedWith (pending : list (list byte)) (w : World) : World :=
  if JsString.isEmpty (streamText pending) then w
  else saved (setHistory (conversationHistory w ++ [assistantOf pending]) w).

Definition begun (w : World) : World :=
  setTypingIndicator true (setInput [] true w).

Definition finished (w : World) : World :=
  setInput (inputValue w) false (setTypingIndicator false w).

Definition lastIsUser (history : list message) : bool :=
  (0 <? List.length history)%nat
  && match nth_error history (List.length history - 1) with
     | Some last => JsString.eqb (role last) (js "user")
     | None => false
     end.

Definition rolledBack (w : World) : World :=
  if lastIsUser (conversationHistory w)
  then saved (setHistory (removelast (conversationHistory w)) w)
  else w.

Definition userMessage (w : World) : message :=
  {| role := js "user"; content := JsString.trim (inputValue w);
     model := None |}.

(** The state in which [sendMessage] calls [sendWrapper]. *)
Definition userTurn (w : World) : World :=
  let shown :=
    setMessagesContainer
      (messagesContainer w
         ++ [{| className := js "message user";
                textContent := JsString.trim (inputValue w);
                modelIndicator := None |}]) w in
  saved (setHistory (conversationHistory shown ++ [userMessage w]) shown).

(** The [i]-th call of [fetch] gets a failure response. *)
Definition failsAt (network : nat -> fetchResult) (i : nat) : Prop :=
  exists r, network i = Responded r /\ serverFailure r.

(** The attempt number and the state reached after [k] failed attempts
    that each had attempts remaining. *)
Fixpoint afterFailures (k : nat) (attemptNumber : positive) (w : World)
  : positive * World :=
  match k with
  | O => (attemptNumber, w)
  | S k' => afterFailures k' (attemptNumber + 1)
              (backedOff attemptNumber (sent w))
  end.

(** * Concrete scenarios *)

(** Bytes of a literal; an apostrophe stands for a double quote. *)
Definition bytesOf (s : string) : list byte :=
  map (fun b => if Byte.eqb b x27 then x22 else b) (list_byte_of_string s).

(** A literal followed by a newline. *)
Definition lineOf (s : string) : list byte := (bytesOf s ++ [x0a])%list.

(** A freshly loaded page with an empty conversation and some text typed
    into the input. *)
Definition freshPage (input : string) : World :=
  {| conversationHistory := []; accessToken := None; localStorage := None;
     storageFull := false; pathname := js "/"; href := None;
     inputValue := js input; inputDisabled := false; typingIndicator := false;
     messagesContainer := []; statusLog := []; consoleWarnings := [];
     sleeps := []; requests := [] |}.

Definition okResponse (pending : list (list byte)) : fetchResult :=
  Responded {| ok := true; location := None;
               body := Some {| chunks := pending; readFails := false |} |}.

Definition failureResponse : fetchResult :=
  Responded {| ok := false; location := None; body := None |}.

Definition redirectResponse (target : string) : fetchResult :=
  Responded {| ok := false; location := Some (js target); body := None |}.

Definition bodilessResponse : fetchResult :=
  Responded {| ok := true; location := None; body := None |}.

(** Following the spec's words: a message of the request body carries its
    role and its content, and nothing else. *)
Definition roleAndContent (m : message) : Json.value :=
  Json.Obj [(js "role", Json.Str (role m));
            (js "content", Json.Str (content m))].

(** Following the spec's words: the request body over a history window. *)
Definition specRequestBody (window : list message) : Json.value :=
  Json.Obj [(js "model", Json.Str (js "cheapest"));
            (js "messages", Json.Arr (map roleAndContent window))].

(** A stream of two content records, the second naming a model, and a
    credits record, in one chunk. *)
Definition modelStream : list (list byte) :=
  [(lineOf "{'message':{'content':'Hel'}}"
    ++ lineOf "{'message':{'content':'lo'},'model':'m1'}"
    ++ lineOf "{'Credits':3}")%list].

(** The page after a first exchange answered by [modelStream], with a
    second text typed into the input. *)
Definition secondTurn : World :=
  setInput (js "again") false
           (snd (sendMessage (fun _ => okResponse modelStream) (freshPage "hi"))).

(** * Streams as sequences of lines *)

(** The lines that the loop body sees, chunk after chunk. *)
Fixpoint linesOf (pending : list (list byte)) (decoder : TextDecoder.t)
  : list jsstring :=
  match pending with
  | [] => []
  | value :: rest =>
      let '(decoded, decoder') := TextDecoder.decode decoder value in
      (JsString.split decoded ++ linesOf rest decoder')%list
  end.

(** The lines that the loop body does not skip. *)
Definition significant (lines : list jsstring) : list jsstring :=
  filter (fun line => negb (JsString.isEmpty (JsString.trim line))) lines.

(** How a read ends: at the end of the data, or by a rejection. *)
Definition finish (fails : bool) : M (World * locals) bool :=
  if fails then throw NetworkError else ret true.

(** A decoder state as [decode] leaves it: continuation bytes are expected
    in a range that starts at 128 or above. *)
Definition validDecoder (d : TextDecoder.t) : Prop :=
  (128 <= TextDecoder.lowerBoundary d)%N.

(** A chunk that ends where a line ends: it is empty or its last byte is a
    newline. *)
Definition alignedChunk (chunk : list byte) : Prop :=
  chunk = [] \/ exists init, chunk = (init ++ [x0a])%list.

(** The status notice that a line gives rise to. *)
Definition creditNotice (line : jsstring) : list jsstring :=
  if JsString.isEmpty (JsString.trim line) then []
  else
    match Json.parse line with
    | None | Some Json.Null => []
    | Some data =>
        match Json.get data (js "Credits") with
        | Some c =>
            match Json.toString c with
            | Some text => [(js "Credits used: " ++ text)%list]
            | None => []
            end
        | None => []
        end
    end.

(** * The three records of the example stream, and the malformed line *)

Inductive streamLine :=
| ContentHel
| ContentLo
| CreditsRecord
| NotJson.

Definition lineText (l : streamLine) : string :=
  match l with
  | ContentHel => "{'message':{'content':'Hel'}}"
  | ContentLo => "{'message':{'content':'lo'}}"
  | CreditsRecord => "{'Credits':3}"
  | NotJson => "not json"
  end.

Definition isRecord (l : streamLine) : bool :=
  match l with
  | NotJson => false
  | _ => true
  end.

(** A chunk made of whole lines, each followed by a newline. *)
Definition chunkOfLines (ls : list streamLine) : list byte :=
  List.concat (map (fun l => lineOf (lineText l)) ls).

Definition isAscii (b : byte) : Prop := (Byte.to_N b <= 127)%N.

(** * Lines across a chunk boundary *)

(** The lines of a text but the last one, the last one, the first one, and
    the lines after the first one. *)
Definition earlierLines (text : jsstring) : list jsstring :=
  removelast (JsString.split text).

Definition lastLine (text : jsstring) : jsstring :=
  last (JsString.split text) [].

Definition firstLine (text : jsstring) : jsstring :=
  hd [] (JsString.split text).

Definition laterLines (text : jsstring) : list jsstring :=
  tl (JsString.split text).

(** A line that the loop body reports as malformed: it is not blank and
    [JSON.parse] rejects it. *)
Definition malformed (line : jsstring) : bool :=
  negb (JsString.isEmpty (JsString.trim line))
  && match Json.parse line with
     | None => true
     | Some _ => false
     end.

(** The report of a malformed line. *)
Definition warnMalformed (line : jsstring) : M (World * locals) unit :=
  page (consoleWarn [js "Error parsing streaming response:"; line]
                    SyntaxError).

(** The two fragments of a line of the example stream cut after its first
    [n] code units. *)
Definition fragmentBefore (n : nat) (l : streamLine) : jsstring :=
  firstn n (jq (lineText l)).

Definition fragmentAfter (n : nat) (l : streamLine) : jsstring :=
  skipn n (jq (lineText l)).

(** A stream of whole lines in two chunks, with the boundary after the
    first [n] bytes of the line [l]: the lines [before] and the head of
    [l], then the rest of [l], its newline and the lines [after]. *)
Definition cutInside (before : list streamLine) (n : nat) (l : streamLine)
           (after : list streamLine) : list (list byte) :=
  [(chunkOfLines before ++ firstn n (lineOf (lineText l)))%list;
   (skipn n (lineOf (lineText l)) ++ chunkOfLines after)%list].

(** The texts of lines of the example stream. *)
Definition textsOf (ls : list streamLine) : list jsstring :=
  map (fun l => jq (lineText l)) ls.

(** The boundaries strictly inside a line: after its first byte at the
    earliest, before its last byte at the latest. *)
Definition inside (n : nat) (l : streamLine) : Prop :=
  (0 < n < List.length (bytesOf (lineText l)))%nat.

(** Both fragments are malformed at every boundary inside the line. *)
Definition fragmentsMalformed (l : streamLine) : bool :=
  forallb (fun n => malformed (fragmentBefore n l)
                    && malformed (fragmentAfter n l))
          (seq 1 (List.length (bytesOf (lineText l)) - 1)).


(** * The rest of the page script *)

Definition setAccessToken (v : option jsstring) (w : World) : World :=
  {| conversationHistory := conversationHistory w; accessToken := v;
     localStorage := localStorage w; storageFull := storageFull w;
     pathname := pathname w; href := href w; inputValue := inputValue w;
     inputDisabled := inputDisabled w; typingIndicator := typingIndicator w;
     messagesContainer := messagesContainer w; statusLog := statusLog w;
     consoleWarnings := consoleWarnings w; sleeps := sleeps w;
     requests := requests w |}.

Definition welcomeText : jsstring :=
  js ("Welcome! Start chatting with AI models on the Peerwave network. "
      ++ "Your first few messages are free!").

(** [addSystemWelcomeMessage()] *)
Definition addSystemWelcomeMessage : M World unit :=
  modify (fun w =>
            setMessagesContainer
              (messagesContainer w
                 ++ [{| className := js "message system";
                        textContent := welcomeText;
                        modelIndicator := None |}])%list w).

(** [clearConversation()]: [removeItem] never throws. *)
Definition clearConversation : M World unit :=
  modify (setHistory []) ;;
  modify (setLocalStorage None) ;;
  modify (setMessagesContainer []) ;;
  addSystemWelcomeMessage ;;
  updateStatus (js "Conversation cleared").

(** [checkForAuthToken()], given what [hashParams.get("token")] returns.
    The result tells whether the timer that calls [sendWrapper] was set. *)
Definition checkForAuthToken (token : option jsstring) : M World bool :=
  if truthyString token then
    modify (setAccessToken token) ;;
    updateStatus (js "Authenticated successfully!") ;;
    history <- gets conversationHistory ;;
    match history with
    | [] => ret false
    | _ :: _ =>
        match nth_error history (List.length history - 1) with
        | Some lastMessage =>
            if JsString.eqb (role lastMessage) (js "user") then
              updateStatus (js "Retrying last message after authentication...") ;;
              ret true
            else ret false
        | None => ret false
        end
    end
  else ret false.

(** The return from authentication: [checkForAuthToken] at page load and,
    when it set the timer, the call of [sendWrapper] that the timer makes,
    with nothing happening on the page in between. *)
Definition authReturn (network : nat -> fetchResult) (token : option jsstring)
  : M World unit :=
  scheduled <- checkForAuthToken token ;;
  if scheduled then sendWrapper network else ret tt.

(** * More vocabulary *)

(** The ways in which one attempt ends, from the state [w] it starts in. *)
Inductive attemptResult (w : World) : completion bool -> World -> Prop :=
| AttemptRejected :
    attemptResult w (Throw NetworkError) (sent w)
| AttemptFailed :
    attemptResult w (Normal false) (sent w)
| AttemptRedirected (target : jsstring) :
    target <> [] ->
    attemptResult w (Normal true)
      (setHref (Some target)
         (setMessagesContainer
            (messagesContainer w
               ++ [{| className := js "message system";
                      textContent := js "Redirecting to authenticate...";
                      modelIndicator := None |}]) (sent w)))
| AttemptWithoutBody :
    attemptResult w (Throw NullDereference) (sent w)
| AttemptReadRejected (w1 : World) :
    core w1 = core (sent w) ->
    attemptResult w (Throw NetworkError) w1
| AttemptCompleted (pending : list (list byte)) (w1 : World) :
    core w1 = core (sent w) ->
    attemptResult w (Normal true) (completedWith pending w1).

(** The waits before attempts [attemptNumber + 1], ..., [attemptNumber + k]. *)
Fixpoint delaysFrom (attemptNumber : positive) (k : nat) : list Z :=
  match k with
  | O => []
  | S k' => retryDelay attemptNumber :: delaysFrom (attemptNumber + 1) k'
  end.

(** The stored item is the JSON text of the history. *)
Definition mirrored (w : World) : Prop :=
  localStorage w
  = Some (Json.stringify (Json.Arr (map messageJson (conversationHistory w)))).

(** The conversation and its store. *)
Definition conversation (w : World) :=
  (conversationHistory w, localStorage w, storageFull w).

(** The ways in which a run of the coordinator ends, as far as the
    conversation goes: it is left as it was, or an attempt read a stream
    with a non-empty text to its end. *)
Inductive exchangeResult (w : World) : completion bool -> World -> Prop :=
| ExchangeKept (res : completion bool) (w' : World) :
    conversation w' = conversation w ->
    exchangeResult w res w'
| ExchangeAnswered (pending : list (list byte)) (w1 : World) :
    conversation w1 = conversation w ->
    JsString.isEmpty (streamText pending) = false ->
    exchangeResult w (Normal true) (completedWith pending w1).

(** The user types [text] into the input. *)
Definition typed (text : jsstring) (w : World) : World :=
  setInput text (inputDisabled w) w.

(** The state in which the timer set by [checkForAuthToken] fires. *)
Definition authenticated (token : jsstring) (w : World) : World :=
  setStatusLog
    (statusLog w ++ [js "Authenticated successfully!";
                     js "Retrying last message after authentication..."])%list
    (setAccessToken (Some token) w).

(** What the page shows of the answer while its stream is read: nothing
    yet, or one element, placed after the [shown] ones, that holds the text
    received so far. *)
Definition displays (shown : list element) (s : World * locals) : Prop :=
  match messageElement (snd s) with
  | None => messagesContainer (fst s) = shown
  | Some e =>
      e = List.length shown
      /\ exists indicator,
           messagesContainer (fst s)
           = (shown ++ [{| className := js "message assistant";
                           textContent := assistantMessage (snd s);
                           modelIndicator := indicator |}])%list
  end.

(** The elements that [addMessage] builds for the user's text, for the
    notice of a redirect and for the answer. *)
Definition userElement (w : World) : element :=
  {| className := js "message user";
     textContent := JsString.trim (inputValue w);
     modelIndicator := None |}.

Definition redirectNotice : element :=
  {| className := js "message system";
     textContent := js "Redirecting to authenticate...";
     modelIndicator := None |}.

Definition answerElement (text : jsstring) (indicator : option jsstring)
  : element :=
  {| className := js "message assistant"; textContent := text;
     modelIndicator := indicator |}.

(** What a run that starts in [w] and ends with [res] in [w'] has added to
    the page: nothing, the notice of a redirect, or the answer read from a
    stream, which a run that ends well has also appended to the history
    unless it is empty. *)
Inductive shownBy (w : World) (res : completion bool) (w' : World) : Prop :=
| ShownNothing :
    messagesContainer w' = messagesContainer w ->
    shownBy w res w'
| ShownRedirect :
    res = Normal true ->
    messagesContainer w' = (messagesContainer w ++ [redirectNotice])%list ->
    shownBy w res w'
| ShownAnswer (pending : list (list byte)) (indicator : option jsstring) :
    res <> Normal false ->
    messagesContainer w'
    = (messagesContainer w
       ++ [answerElement (streamText pending) indicator])%list ->
    (res = Normal true ->
     conversationHistory w'
     = (conversationHistory w
        ++ if JsString.isEmpty (streamText pending) then []
           else [assistantOf pending])%list) ->
    shownBy w res w'.

(** A string all of whose elements are UTF-16 code units. *)
Definition codeUnits (s : jsstring) : bool :=
  forallb (fun c => (c <? 65536)%N) s.

(** A history entry made of code units whose model, when it has one, is a
    string. *)
Definition plainMessage (m : message) : bool :=
  codeUnits (role m) && codeUnits (content m)
  && match model m with
     | None => true
     | Some (Json.Str s) => codeUnits s
     | Some _ => false
     end.

(** The texts of the entries of a stored history. *)
Definition storedEntries (history : list message) : list jsstring :=
  map Json.stringify (map messageJson history).

(** ** Restoring the conversation *)

(** The history entry that a parsed value stands for: an object with a
    string [role], a string [content] and possibly a [model], in the order
    in which [JSON.stringify] writes an entry. *)
Definition asMessage (v : Json.value) : option message :=
  match v with
  | Json.Obj [(k1, Json.Str r); (k2, Json.Str c)] =>
      if JsString.eqb k1 (js "role") && JsString.eqb k2 (js "content")
      then Some {| role := r; content := c; model := None |}
      else None
  | Json.Obj [(k1, Json.Str r); (k2, Json.Str c); (k3, m)] =>
      if JsString.eqb k1 (js "role") && JsString.eqb k2 (js "content")
         && JsString.eqb k3 (js "model")
      then Some {| role := r; content := c; model := Some m |}
      else None
  | _ => None
  end.

Fixpoint asHistory (items : list Json.value) : option (list message) :=
  match items with
  | [] => Some []
  | v :: rest =>
      match asMessage v, asHistory rest with
      | Some m, Some history => Some (m :: history)
      | _, _ => None
      end
  end.

(** The history that a parsed value stands for, when it is an array of
    such entries. *)
Definition historyOf (v : Json.value) : option (list message) :=
  match v with
  | Json.Arr items => asHistory items
  | _ => None
  end.

(** The page while the conversation is restored.  The assignment
    [conversationHistory = JSON.parse(stored)] stores whatever value the
    text holds: a history of the declared type goes to the page; any other
    value is held beside it, and the history of the page is then not what
    the variable holds. *)
Definition restoring : Type := World * option Json.value.

Definition onPage {A} (m : M World A) : M restoring A :=
  fun s => let '(r, w') := m (fst s) in (r, (w', snd s)).

(** [conversationHistory = v] *)
Definition assignHistory (v : Json.value) : M restoring unit :=
  modify (fun s => match historyOf v with
                   | Some history => (setHistory history (fst s), None)
                   | None => (fst s, Some v)
                   end).

(** [v.length === 0]: arrays and strings have a length, an object has the
    one it was given, reading it from [null] throws. *)
Definition lengthIsZero {S} (v : Json.value) : M S bool :=
  match v with
  | Json.Null => throw NullDereference
  | Json.Arr items => ret (List.length items =? 0)%nat
  | Json.Str s => ret (JsString.isEmpty s)
  | Json.Obj fields =>
      ret match Json.lookup (js "length") fields with
          | Some (Json.Num n) => Number.isZero n
          | _ => false
          end
  | _ => ret false
  end.

(** [v.forEach(callback)]: only an array has the method; a parsed value
    holds no function. *)
Definition forEach {S} (v : Json.value) (callback : Json.value -> M S unit)
  : M S unit :=
  match v with
  | Json.Arr items => forOf items callback
  | Json.Null => throw NullDereference
  | _ => throw NotCallable
  end.

(** ToString in a template literal; [None] is [undefined]. *)
Definition templateText {S} (v : option Json.value) : M S jsstring :=
  match v with
  | None => ret (js "undefined")
  | Some x => ToString x
  end.

(** [addMessage(role, content, false, model)] on values of any type: the
    class name is built by a template literal, the text goes through the
    [textContent] setter, which takes [null] and [undefined] for the empty
    text, and the model is shown when [role === "assistant" && model]. *)
Definition addMessageOf (role content model : option Json.value)
  : M World unit :=
  roleText <- templateText role ;;
  text <- match content with
          | None | Some Json.Null => ret []
          | Some x => ToString x
          end ;;
  indicator <-
    match role, model with
    | Some (Json.Str r), Some v =>
        if JsString.eqb r (js "assistant") && Json.truthy v then
          shown <- ToString v ;; ret (Some shown)
        else ret None
    | _, _ => ret None
    end ;;
  modify (fun w =>
            setMessagesContainer
              (messagesContainer w
                 ++ [{| className := (js "message " ++ roleText)%list;
                        textContent := text;
                        modelIndicator := indicator |}])%list w).

(** The callback of [forEach]:
    [(msg) => addMessage(msg.role, msg.content, false, msg.model)]. *)
Definition showEntry (msg : Json.value) : M World unit :=
  role <- property msg (js "role") ;;
  content <- property msg (js "content") ;;
  model <- property msg (js "model") ;;
  addMessageOf role content model.

(** [loadConversationFromStorage()] *)
Definition loadConversationFromStorage : M restoring unit :=
  tryCatch
    (stored <- gets (fun s => localStorage (fst s)) ;;
     match stored with
     | Some text =>
         if truthyString stored then
           parsed <- JSON_parse text ;;
           assignHistory parsed ;;
           onPage (modify (setMessagesContainer [])) ;;
           empty <- lengthIsZero parsed ;;
           if empty then onPage addSystemWelcomeMessage
           else forEach parsed (fun msg => onPage (showEntry msg))
         else onPage addSystemWelcomeMessage
     | None => onPage addSystemWelcomeMessage
     end)
    (fun error =>
       onPage (consoleWarn
                 [js "Failed to load conversation from localStorage:"] error) ;;
       assignHistory (Json.Arr []) ;;
       onPage addSystemWelcomeMessage).

(** The element that [addMessage] builds for an entry whose model, if any,
    is a string. *)
Definition elementOf (m : message) : element :=
  {| className := (js "message " ++ role m)%list;
     textContent := content m;
     modelIndicator :=
       match model m with
       | Some (Json.Str s) =>
           if JsString.eqb (role m) (js "assistant")
              && negb (JsString.isEmpty s)
           then Some s else None
       | _ => None
       end |}.

Definition welcomeElement : element :=
  {| className := js "message system"; textContent := welcomeText;
     modelIndicator := None |}.

(** A freshly loaded page with nothing typed into the input. *)
Definition blankPage : World := freshPage EmptyString.

(** The [i]-th call of [fetch] makes the attempt end in the exception [e]:
    the call is rejected, or its response is ok but has no body, or the
    read of its body is rejected. *)
Definition throwsAt (network : nat -> fetchResult) (i : nat) (e : exn)
  : Prop :=
  match network i with
  | Rejected => e = NetworkError
  | Responded r =>
      ok r = true
      /\ match body r with
         | None => e = NullDereference
         | Some stream => readFails stream = true /\ e = NetworkError
         end
  end.

(** Loading a page whose store holds a given text; an apostrophe stands
    for a double quote. *)
Definition loadOf (stored : string) : completion unit * restoring :=
  loadConversationFromStorage
    (setLocalStorage (Some (jq stored)) blankPage, None).

(** ** Projections of the states an exchange goes through *)

Lemma sent_conversationHistory w : conversationHistory (sent w) = conversationHistory w.
Proof. reflexivity. Qed.

Lemma sent_localStorage w : localStorage (sent w) = localStorage w.
Proof. reflexivity. Qed.

Lemma sent_requests w : requests (sent w) = (requests w ++ [requestOf w])%list.
Proof. reflexivity. Qed.

Lemma sent_sleeps w : sleeps (sent w) = sleeps w.
Proof. reflexivity. Qed.

Lemma sent_statusLog w : statusLog (sent w) = statusLog w.
Proof. reflexivity. Qed.

Lemma sent_href w : href (sent w) = href w.
Proof. reflexivity. Qed.

Lemma backedOff_conversationHistory n w : conversationHistory (backedOff n w) = conversationHistory w.
Proof. reflexivity. Qed.

Lemma backedOff_localStorage n w : localStorage (backedOff n w) = localStorage w.
Proof. reflexivity. Qed.

Lemma backedOff_requests n w : requests (backedOff n w) = requests w.
Proof. reflexivity. Qed.

Lemma backedOff_sleeps n w : sleeps (backedOff n w) = (sleeps w ++ [retryDelay n])%list.
Proof. reflexivity. Qed.

Lemma backedOff_statusLog n w : statusLog (backedOff n w) = (statusLog w ++ [retryNotice n])%list.
Proof. reflexivity. Qed.

Lemma backedOff_href n w : href (backedOff n w) = href w.
Proof. reflexivity. Qed.

Lemma exhausted_conversationHistory w : conversationHistory (exhausted w) = conversationHistory w.
Proof. reflexivity. Qed.

Lemma exhausted_localStorage w : localStorage (exhausted w) = localStorage w.
Proof. reflexivity. Qed.

Lemma exhausted_requests w : requests (exhausted w) = requests w.
Proof. reflexivity. Qed.

Lemma exhausted_sleeps w : sleeps (exhausted w) = sleeps w.
Proof. reflexivity. Qed.

Lemma exhausted_statusLog w : statusLog (exhausted w) = (statusLog w ++ [js "Request failed after maximum retries"])%list.
Proof. reflexivity. Qed.

Lemma exhausted_href w : href (exhausted w) = href w.
Proof. reflexivity. Qed.

Lemma begun_conversationHistory w : conversationHistory (begun w) = conversationHistory w.
Proof. reflexivity. Qed.

Lemma begun_localStorage w : localStorage (begun w) = localStorage w.
Proof. reflexivity. Qed.

Lemma begun_requests w : requests (begun w) = requests w.
Proof. reflexivity. Qed.

Lemma begun_sleeps w : sleeps (begun w) = sleeps w.
Proof. reflexivity. Qed.

Lemma begun_statusLog w : statusLog (begun w) = statusLog w.
Proof. reflexivity. Qed.

Lemma begun_href w : href (begun w) = href w.
Proof. reflexivity. Qed.

Lemma finished_conversationHistory w : conversationHistory (finished w) = conversationHistory w.
Proof. reflexivity. Qed.

Lemma finished_localStorage w : localStorage (finished w) = localStorage w.
Proof. reflexivity. Qed.

Lemma finished_requests w : requests (finished w) = requests w.
Proof. reflexivity. Qed.

Lemma finished_sleeps w : sleeps (finished w) = sleeps w.
Proof. reflexivity. Qed.

Lemma finished_statusLog w : statusLog (finished w) = statusLog w.
Proof. reflexivity. Qed.

Lemma finished_href w : href (finished w) = href w.
Proof. reflexivity. Qed.

Create Rewrite HintDb page.

#[export] Hint Rewrite
  sent_conversationHistory sent_localStorage sent_requests
  sent_sleeps sent_statusLog sent_href
  backedOff_conversationHistory backedOff_localStorage backedOff_requests
  backedOff_sleeps backedOff_statusLog backedOff_href
  exhausted_conversationHistory exhausted_localStorage exhausted_requests
  exhausted_sleeps exhausted_statusLog exhausted_href
  begun_conversationHistory begun_localStorage begun_requests
  begun_sleeps begun_statusLog begun_href
  finished_conversationHistory finished_localStorage finished_requests
  finished_sleeps finished_statusLog finished_href
  : page.
(** * Proofs *)

Lemma jsstring_eqb_spec a b : reflect (a = b) (JsString.eqb a b).
Proof.
  revert b; induction a as [|x a IH]; intros [|y b]; simpl;
    try (constructor; congruence).
  destruct (N.eqb_spec x y) as [->|Hxy]; simpl.
  - destruct (IH b) as [->|Hab]; constructor; congruence.
  - constructor; congruence.
Qed.

Lemma jsstring_eqb_refl a : JsString.eqb a a = true.
Proof. destruct (jsstring_eqb_spec a a); congruence. Qed.

(** ** What reading a stream leaves alone

    The loop body touches the status line, the console, the message
    container and the typing indicator; everything else in the page is
    left as it was for it. *)

Ltac break_match :=
  match goal with
  | |- context [match ?x with _ => _ end] =>
      lazymatch x with
      | context [match _ with _ => _ end] => fail
      | _ => destruct x eqn:?
      end
  end.

Ltac run_monad :=
  unfold tryCatch, tryFinally, bind, JSON_parse, property, ToString, page,
    assign, var, modify, gets, ret, throw, updateStatus, showTypingIndicator,
    addMessage, updateMessageContent, consoleWarn, sleep, setItem in *.

Lemma handleLine_frame line s :
  exists s', handleLine line s = (Normal tt, s') /\ core (fst s') = core (fst s).
Proof.
  destruct s as [w l]. unfold handleLine. run_monad.
  repeat (cbn; try break_match);
    try (eexists; split; [reflexivity | reflexivity]); try discriminate.
Qed.

Lemma forOf_handleLine_frame lines s :
  exists s', forOf lines handleLine s = (Normal tt, s')
             /\ core (fst s') = core (fst s).
Proof.
  revert s; induction lines as [|line lines IH]; intros s; simpl.
  - exists s. split; reflexivity.
  - destruct (handleLine_frame line s) as (s1 & Hrun & Hcore).
    destruct (IH s1) as (s2 & Hrest & Hcore').
    exists s2. unfold bind. rewrite Hrun, Hrest. split; congruence.
Qed.

(** A read either reaches the end of the data or is rejected; nothing
    thrown while handling a line escapes the loop body. *)
Lemma readStreamChunk_frame pending fails d s :
  exists s',
    readStreamChunk pending fails d s
    = (if fails then Throw NetworkError else Normal true, s')
    /\ core (fst s') = core (fst s).
Proof.
  revert d s; induction pending as [|value rest IH]; intros d s; simpl.
  - exists s. destruct fails; split; reflexivity.
  - destruct (TextDecoder.decode d value) as [decoded d'].
    destruct (forOf_handleLine_frame (JsString.split decoded) s)
      as (s1 & Hlines & Hcore).
    destruct (IH d' s1) as (s2 & Hrest & Hcore').
    exists s2. unfold bind. rewrite Hlines, Hrest. split; congruence.
Qed.

Ltac run_attempt Hnet :=
  unfold handleStreamingResponse, fetch, withLocals, sent, requestOf,
    initialLocals, bind, gets, ret, modify, throw;
  cbv beta iota zeta; rewrite Hnet; cbv beta iota zeta.

Section Attempts.

Variable network : nat -> fetchResult.

Lemma attempt_rejected w :
  network (List.length (requests w)) = Rejected ->
  handleStreamingResponse network w = (Throw NetworkError, sent w).
Proof. intros Hnet. run_attempt Hnet. reflexivity. Qed.

Lemma attempt_failed w r :
  network (List.length (requests w)) = Responded r ->
  serverFailure r ->
  handleStreamingResponse network w = (Normal false, sent w).
Proof.
  intros Hnet [Hok Hloc]. run_attempt Hnet. rewrite Hok. cbv beta iota zeta delta [negb].
  destruct (location r) as [target|]; [|reflexivity].
  rewrite Hloc. reflexivity.
Qed.

Lemma attempt_redirect w r target :
  network (List.length (requests w)) = Responded r ->
  redirectSignal r target ->
  handleStreamingResponse network w
  = (Normal true,
     setHref (Some target)
       (setMessagesContainer
          (messagesContainer w
             ++ [{| className := js "message system";
                    textContent := js "Redirecting to authenticate...";
                    modelIndicator := None |}]) (sent w))).
Proof.
  intros Hnet (Hok & Hloc & Hne). run_attempt Hnet. rewrite Hok, Hloc.
  destruct target as [|c target]; [congruence|]. reflexivity.
Qed.

Lemma attempt_no_body w r :
  network (List.length (requests w)) = Responded r ->
  ok r = true -> body r = None ->
  handleStreamingResponse network w = (Throw NullDereference, sent w).
Proof.
  intros Hnet Hok Hbody. run_attempt Hnet. rewrite Hok, Hbody. reflexivity.
Qed.

(** An ok response with a body: the stream is read over fresh locals; a
    non-empty text is then appended to the history and saved. *)
Lemma attempt_stream w r stream :
  network (List.length (requests w)) = Responded r ->
  ok r = true -> body r = Some stream ->
  handleStreamingResponse network w
  = let '(res, s) := readStreamChunk (chunks stream) (readFails stream)
                       TextDecoder.create (sent w, initialLocals) in
    match res with
    | Throw e => (Throw e, fst s)
    | Normal _ =>
        if JsString.isEmpty (assistantMessage (snd s)) then (Normal true, fst s)
        else (Normal true,
              snd (saveConversationToStorage (appendAssistant (snd s) (fst s))))
    end.
Proof.
  intros Hnet Hok Hbody. run_attempt Hnet. rewrite Hok, Hbody.
  cbv beta iota zeta delta [negb].
  destruct (readStreamChunk _ _ _ _) as [[b|e] [w1 l1]];
    cbv beta iota zeta delta [fst snd]; [|reflexivity].
  destruct (JsString.isEmpty (assistantMessage l1));
    cbv beta iota zeta delta [negb]; [reflexivity|].
  unfold saveConversationToStorage, appendAssistant, setItem. run_monad.
  cbv beta iota zeta.
  match goal with |- context [storageFull ?x] => destruct (storageFull x) end;
    reflexivity.
Qed.

End Attempts.

(** ** The retry coordinator *)

Section Retry.

Variable network : nat -> fetchResult.

Lemma retry_unfold attemptNumber w :
  handleStreamingResponseWithRetry network attemptNumber w
  = match handleStreamingResponse network w with
    | (Throw e, w1) => (Throw e, w1)
    | (Normal true, w1) => (Normal true, w1)
    | (Normal false, w1) =>
        if Pos.ltb attemptNumber MAX_RETRY_ATTEMPTS
        then handleStreamingResponseWithRetry network (attemptNumber + 1)
               (backedOff attemptNumber w1)
        else (Normal false, exhausted w1)
    end.
Proof.
  simp handleStreamingResponseWithRetry.
  destruct (handleStreamingResponse network w) as [[[|]|e] w1];
    simp handleStreamingResponseWithRetry; try reflexivity.
  destruct (inspect (Pos.ltb attemptNumber MAX_RETRY_ATTEMPTS)) as [b Hb].
  assert (Hif : forall X Y : completion bool * World,
             (if Pos.ltb attemptNumber MAX_RETRY_ATTEMPTS then X else Y)
             = if b then X else Y) by (intros; rewrite Hb; reflexivity).
  rewrite Hif.
  destruct b; simp handleStreamingResponseWithRetry; reflexivity.
Qed.

End Retry.

(** ** The reconstructed text

    What the loop body does to [assistantMessage] and [handledModel]
    depends on the line alone, not on the page. *)

Lemma handleLine_absorb line s :
  textAndModel (snd (snd (handleLine line s)))
  = absorb line (textAndModel (snd s)).
Proof.
  destruct s as [w l]. unfold handleLine, absorb, textAndModel. run_monad.
  repeat (cbn; try break_match); try reflexivity;
    try (cbn in *; congruence).
Qed.

Lemma forOf_absorb lines s :
  textAndModel (snd (snd (forOf lines handleLine s)))
  = fold_left (fun a line => absorb line a) lines (textAndModel (snd s)).
Proof.
  revert s; induction lines as [|line lines IH]; intros s; simpl.
  - reflexivity.
  - destruct (handleLine_frame line s) as (s1 & Hrun & _).
    unfold bind. rewrite Hrun, IH, <- handleLine_absorb, Hrun. reflexivity.
Qed.

Lemma readStreamChunk_reconstruct pending fails d s :
  textAndModel (snd (snd (readStreamChunk pending fails d s)))
  = reconstruct pending d (textAndModel (snd s)).
Proof.
  revert d s; induction pending as [|value rest IH]; intros d s; simpl.
  - destruct fails; reflexivity.
  - destruct (TextDecoder.decode d value) as [decoded d'].
    destruct (forOf_handleLine_frame (JsString.split decoded) s)
      as (s1 & Hlines & _).
    unfold bind. rewrite Hlines, IH, <- forOf_absorb, Hlines. reflexivity.
Qed.

(** *** Saving *)

Lemma saveConversationToStorage_saved w :
  saveConversationToStorage w = (Normal tt, saved w).
Proof.
  unfold saveConversationToStorage, saved, setItem. run_monad.
  cbv beta iota zeta. destruct (storageFull w); reflexivity.
Qed.

Section Completion.

Variable network : nat -> fetchResult.

(** A stream read to its end: the attempt succeeds, and the history
    grows by the assistant message exactly when the text is not empty. *)
Lemma attempt_completed w r stream :
  network (List.length (requests w)) = Responded r ->
  ok r = true -> body r = Some stream -> readFails stream = false ->
  exists w1,
    core w1 = core (sent w)
    /\ handleStreamingResponse network w
       = (Normal true, completedWith (chunks stream) w1).
Proof.
  intros Hnet Hok Hbody Hfails.
  rewrite (attempt_stream network w r stream Hnet Hok Hbody).
  pose proof (readStreamChunk_reconstruct (chunks stream) (readFails stream)
                TextDecoder.create (sent w, initialLocals)) as Hrec.
  destruct (readStreamChunk_frame (chunks stream) (readFails stream)
              TextDecoder.create (sent w, initialLocals))
    as ([w1 l1] & Hrun & Hcore).
  rewrite Hrun in *. rewrite Hfails. cbn [fst snd] in *.
  unfold textAndModel in Hrec. cbn [assistantMessage handledModel initialLocals] in Hrec.
  exists w1. split; [exact Hcore|].
  assert (Htext : streamText (chunks stream) = assistantMessage l1)
    by (symmetry; exact (f_equal fst Hrec)).
  assert (Hmodel : streamModel (chunks stream) = handledModel l1)
    by (symmetry; exact (f_equal snd Hrec)).
  unfold completedWith, assistantOf. rewrite Htext, Hmodel.
  destruct (JsString.isEmpty (assistantMessage l1)); [reflexivity|].
  rewrite saveConversationToStorage_saved. reflexivity.
Qed.

(** A body whose reader rejects: the rejection escapes the attempt. *)
Lemma attempt_read_rejected w r stream :
  network (List.length (requests w)) = Responded r ->
  ok r = true -> body r = Some stream -> readFails stream = true ->
  exists w1,
    core w1 = core (sent w)
    /\ handleStreamingResponse network w = (Throw NetworkError, w1).
Proof.
  intros Hnet Hok Hbody Hfails.
  rewrite (attempt_stream network w r stream Hnet Hok Hbody).
  destruct (readStreamChunk_frame (chunks stream) (readFails stream)
              TextDecoder.create (sent w, initialLocals))
    as ([w1 l1] & Hrun & Hcore).
  rewrite Hrun, Hfails. exists w1. split; [exact Hcore | reflexivity].
Qed.

End Completion.

(** *** The wrapper *)

Section Wrapper.

Variable network : nat -> fetchResult.

Lemma sendWrapper_unfold w :
  sendWrapper network w
  = match handleStreamingResponseWithRetry network 1 (begun w) with
    | (Normal true, w1) => (Normal tt, finished w1)
    | (Normal false, w1) => (Normal tt, finished (rolledBack w1))
    | (Throw e, w1) => (Throw e, finished w1)
    end.
Proof.
  unfold sendWrapper, tryFinally, showTypingIndicator, bind, modify, gets, ret.
  cbv beta iota zeta. fold (begun w).
  destruct (handleStreamingResponseWithRetry network 1 (begun w))
    as [[[|]|e] w1]; cbv beta iota zeta delta [negb]; try reflexivity.
  unfold rolledBack, lastIsUser.
  match goal with |- context [if ?c then _ else _] => destruct c end;
    [rewrite saveConversationToStorage_saved|]; reflexivity.
Qed.

Lemma sendMessage_unfold w :
  JsString.trim (inputValue w) <> [] ->
  sendMessage network w = sendWrapper network (userTurn w).
Proof.
  intros Hne. unfold sendMessage, addMessage, bind, gets, ret, modify.
  cbv beta iota zeta.
  destruct (JsString.trim (inputValue w)) as [|c message] eqn:Htrim;
    [congruence|].
  cbv beta iota zeta delta [JsString.isEmpty].
  rewrite saveConversationToStorage_saved. cbv beta iota zeta.
  unfold userTurn, userMessage. rewrite Htrim. reflexivity.
Qed.

Lemma sendMessage_blank w :
  JsString.trim (inputValue w) = [] ->
  sendMessage network w = (Normal tt, w).
Proof.
  intros Hblank. unfold sendMessage, bind, gets, ret.
  cbv beta iota zeta. rewrite Hblank. reflexivity.
Qed.

End Wrapper.

(** ** Failed attempts *)

Section Failures.

Variable network : nat -> fetchResult.

(** A failed attempt with attempts remaining: notice, wait, next attempt. *)
Lemma retry_failed_step attemptNumber w :
  failsAt network (List.length (requests w)) ->
  Pos.ltb attemptNumber MAX_RETRY_ATTEMPTS = true ->
  handleStreamingResponseWithRetry network attemptNumber w
  = handleStreamingResponseWithRetry network (attemptNumber + 1)
      (backedOff attemptNumber (sent w)).
Proof.
  intros (r & Hnet & Hfail) Hlt.
  rewrite retry_unfold, (attempt_failed network w r Hnet Hfail), Hlt.
  reflexivity.
Qed.

(** A failed last attempt: the failure is reported and nothing follows. *)
Lemma retry_failed_last attemptNumber w :
  failsAt network (List.length (requests w)) ->
  Pos.ltb attemptNumber MAX_RETRY_ATTEMPTS = false ->
  handleStreamingResponseWithRetry network attemptNumber w
  = (Normal false, exhausted (sent w)).
Proof.
  intros (r & Hnet & Hfail) Hlt.
  rewrite retry_unfold, (attempt_failed network w r Hnet Hfail), Hlt.
  reflexivity.
Qed.

(** Three failed attempts in a row, from the first one. *)
Lemma retry_exhausted w :
  (forall i, i < 3 -> failsAt network (List.length (requests w) + i)) ->
  handleStreamingResponseWithRetry network 1 w
  = (Normal false,
     exhausted (sent (backedOff 2 (sent (backedOff 1 (sent w)))))).
Proof.
  intros Hfail.
  rewrite retry_failed_step; [| |reflexivity].
  2:{ specialize (Hfail 0). rewrite Nat.add_0_r in Hfail. apply Hfail. lia. }
  rewrite retry_failed_step; [| |reflexivity].
  2:{ cbn [requests backedOff sent setRequests setSleeps setStatusLog].
      rewrite length_app. cbn [List.length]. apply Hfail. lia. }
  rewrite retry_failed_last; [reflexivity| |reflexivity].
  cbn [requests backedOff sent setRequests setSleeps setStatusLog].
  rewrite !length_app. cbn [List.length]. rewrite <- Nat.add_assoc.
  apply Hfail. lia.
Qed.

End Failures.

Lemma core_history w w' :
  core w = core w' -> conversationHistory w = conversationHistory w'.
Proof. unfold core; congruence. Qed.

Lemma core_localStorage w w' :
  core w = core w' -> localStorage w = localStorage w'.
Proof. unfold core; congruence. Qed.

Lemma core_requests w w' : core w = core w' -> requests w = requests w'.
Proof. unfold core; congruence. Qed.

Lemma core_sleeps w w' : core w = core w' -> sleeps w = sleeps w'.
Proof. unfold core; congruence. Qed.

Lemma core_href w w' : core w = core w' -> href w = href w'.
Proof. unfold core; congruence. Qed.

Lemma saved_history w : conversationHistory (saved w) = conversationHistory w.
Proof. unfold saved. destruct (storageFull w); reflexivity. Qed.

Lemma saved_requests w : requests (saved w) = requests w.
Proof. unfold saved. destruct (storageFull w); reflexivity. Qed.

Lemma saved_sleeps w : sleeps (saved w) = sleeps w.
Proof. unfold saved. destruct (storageFull w); reflexivity. Qed.

Lemma saved_href w : href (saved w) = href w.
Proof. unfold saved. destruct (storageFull w); reflexivity. Qed.

Lemma saved_statusLog w : statusLog (saved w) = statusLog w.
Proof. unfold saved. destruct (storageFull w); reflexivity. Qed.

Lemma completedWith_history pending w :
  conversationHistory (completedWith pending w)
  = (conversationHistory w
     ++ if JsString.isEmpty (streamText pending) then []
        else [assistantOf pending])%list.
Proof.
  unfold completedWith. destruct (JsString.isEmpty (streamText pending)).
  - rewrite app_nil_r. reflexivity.
  - rewrite saved_history. reflexivity.
Qed.

Lemma completedWith_requests pending w :
  requests (completedWith pending w) = requests w.
Proof.
  unfold completedWith. destruct (JsString.isEmpty (streamText pending));
    [|rewrite saved_requests]; reflexivity.
Qed.

Lemma completedWith_sleeps pending w :
  sleeps (completedWith pending w) = sleeps w.
Proof.
  unfold completedWith. destruct (JsString.isEmpty (streamText pending));
    [|rewrite saved_sleeps]; reflexivity.
Qed.

Lemma lastIsUser_snoc history m :
  lastIsUser (history ++ [m]) = JsString.eqb (role m) (js "user").
Proof.
  unfold lastIsUser. rewrite length_app. cbn [List.length].
  replace (List.length history + 1 - 1) with (List.length history) by lia.
  rewrite nth_error_app2, Nat.sub_diag by lia. cbn [nth_error].
  destruct (List.length history + 1) eqn:Hlen; [lia|reflexivity].
Qed.

Lemma userTurn_history w :
  conversationHistory (userTurn w)
  = (conversationHistory w ++ [userMessage w])%list.
Proof. unfold userTurn. rewrite saved_history. reflexivity. Qed.

Lemma userTurn_requests w : requests (userTurn w) = requests w.
Proof. unfold userTurn. rewrite saved_requests. reflexivity. Qed.

Lemma userTurn_sleeps w : sleeps (userTurn w) = sleeps w.
Proof. unfold userTurn. rewrite saved_sleeps. reflexivity. Qed.

(** Rolling back right after the user turn restores the history. *)
Lemma rolledBack_userTurn w1 history m :
  conversationHistory w1 = (history ++ [m])%list ->
  role m = js "user" ->
  conversationHistory (rolledBack w1) = history.
Proof.
  intros Hh Hrole. unfold rolledBack.
  rewrite Hh, lastIsUser_snoc, Hrole, jsstring_eqb_refl, saved_history.
  cbn [conversationHistory setHistory]. apply removelast_last.
Qed.

Lemma rolledBack_requests w : requests (rolledBack w) = requests w.
Proof.
  unfold rolledBack. destruct (lastIsUser (conversationHistory w));
    [rewrite saved_requests|]; reflexivity.
Qed.

Section AfterFailures.

Variable network : nat -> fetchResult.

Lemma afterFailures_frame k attemptNumber w :
  let w' := snd (afterFailures k attemptNumber w) in
  conversationHistory w' = conversationHistory w
  /\ localStorage w' = localStorage w
  /\ List.length (requests w') = List.length (requests w) + k
  /\ href w' = href w.
Proof.
  revert attemptNumber w; induction k as [|k IH]; intros n w; cbn [afterFailures].
  - cbn. repeat split; lia.
  - destruct (IH (n + 1)%positive (backedOff n (sent w))) as (Hh & Hs & Hr & Hhref).
    cbv zeta. rewrite Hh, Hs, Hr, Hhref.
    cbn [requests conversationHistory localStorage href backedOff sent
           setRequests setSleeps setStatusLog].
    rewrite length_app. cbn [List.length]. repeat split; lia.
Qed.

(** [k] failed attempts, each with attempts remaining, lead to the attempt
    numbered [attemptNumber + k]. *)
Lemma retry_after_failures k attemptNumber w :
  Pos.to_nat attemptNumber + k <= 3 ->
  (forall i, i < k -> failsAt network (List.length (requests w) + i)) ->
  handleStreamingResponseWithRetry network attemptNumber w
  = handleStreamingResponseWithRetry network
      (fst (afterFailures k attemptNumber w))
      (snd (afterFailures k attemptNumber w)).
Proof.
  revert attemptNumber w; induction k as [|k IH]; intros n w Hle Hfail;
    cbn [afterFailures]; [reflexivity|].
  rewrite retry_failed_step.
  - apply IH.
    + rewrite Pos2Nat.inj_add. change (Pos.to_nat 1) with 1. lia.
    + intros i Hi.
      cbn [requests backedOff sent setRequests setSleeps setStatusLog].
      rewrite length_app. cbn [List.length].
      replace (List.length (requests w) + 1 + i)
        with (List.length (requests w) + S i) by lia.
      apply Hfail. lia.
  - specialize (Hfail 0). rewrite Nat.add_0_r in Hfail. apply Hfail. lia.
  - apply Pos.ltb_lt, Pos2Nat.inj_lt.
    change (Pos.to_nat MAX_RETRY_ATTEMPTS) with 3. lia.
Qed.

End AfterFailures.

(** ** The streaming decoder *)

Lemma handler_sawBOM d b :
  TextDecoder.handler (TextDecoder.sawBOM d) b
  = (fst (TextDecoder.handler d b),
     TextDecoder.sawBOM (snd (TextDecoder.handler d b))).
Proof.
  unfold TextDecoder.handler, TextDecoder.lead, TextDecoder.reset,
    TextDecoder.sawBOM.
  cbn [TextDecoder.bytesNeeded TextDecoder.lowerBoundary
         TextDecoder.upperBoundary TextDecoder.codePoint TextDecoder.bytesSeen
         TextDecoder.bomSeen].
  repeat break_match; reflexivity.
Qed.

Lemma run_sawBOM bytes d :
  TextDecoder.run (TextDecoder.sawBOM d) bytes
  = (fst (TextDecoder.run d bytes),
     TextDecoder.sawBOM (snd (TextDecoder.run d bytes))).
Proof.
  revert d; induction bytes as [|b bytes IH]; intros d; cbn [TextDecoder.run].
  - reflexivity.
  - rewrite handler_sawBOM.
    destruct (TextDecoder.handler d (Byte.to_N b)) as [out d1]. cbn [fst snd].
    rewrite IH. destruct (TextDecoder.run d1 bytes) as [out' d2]. reflexivity.
Qed.

Lemma handler_bomSeen d b :
  TextDecoder.bomSeen (snd (TextDecoder.handler d b)) = TextDecoder.bomSeen d.
Proof.
  unfold TextDecoder.handler, TextDecoder.lead, TextDecoder.reset.
  repeat break_match; reflexivity.
Qed.

Lemma run_bomSeen bytes d :
  TextDecoder.bomSeen (snd (TextDecoder.run d bytes)) = TextDecoder.bomSeen d.
Proof.
  revert d; induction bytes as [|b bytes IH]; intros d; cbn [TextDecoder.run].
  - reflexivity.
  - pose proof (handler_bomSeen d (Byte.to_N b)) as Hb.
    destruct (TextDecoder.handler d (Byte.to_N b)) as [out d1].
    specialize (IH d1).
    destruct (TextDecoder.run d1 bytes) as [out' d2]. cbn [snd] in *. congruence.
Qed.

Lemma run_app c1 c2 d :
  TextDecoder.run d (c1 ++ c2)
  = (fst (TextDecoder.run d c1)
       ++ fst (TextDecoder.run (snd (TextDecoder.run d c1)) c2),
     snd (TextDecoder.run (snd (TextDecoder.run d c1)) c2))%list.
Proof.
  revert d; induction c1 as [|b c1 IH]; intros d; cbn [TextDecoder.run app].
  - cbn [fst snd]. destruct (TextDecoder.run d c2); reflexivity.
  - destruct (TextDecoder.handler d (Byte.to_N b)) as [out d1].
    rewrite IH. destruct (TextDecoder.run d1 c1) as [out1 d2]. cbn [fst snd].
    destruct (TextDecoder.run d2 c2) as [out2 d3]. cbn [fst snd].
    rewrite app_assoc. reflexivity.
Qed.

Lemma stripBOM_seen d cps :
  TextDecoder.bomSeen d = true -> TextDecoder.stripBOM d cps = (cps, d).
Proof.
  intros Hb. unfold TextDecoder.stripBOM. rewrite Hb. destruct cps; reflexivity.
Qed.

(** Decoding is indifferent to where the bytes are cut, also when the cut
    falls inside a multi-byte character: the texts of two consecutive
    chunks concatenate to the text of the two chunks taken as one, and the
    decoder ends in the same state. *)
Lemma decode_unfold d value :
  TextDecoder.decode d value
  = (flat_map TextDecoder.utf16
       (fst (TextDecoder.stripBOM (snd (TextDecoder.run d value))
                                  (fst (TextDecoder.run d value)))),
     snd (TextDecoder.stripBOM (snd (TextDecoder.run d value))
                               (fst (TextDecoder.run d value)))).
Proof.
  unfold TextDecoder.decode. destruct (TextDecoder.run d value) as [cps d1].
  cbn [fst snd]. destruct (TextDecoder.stripBOM d1 cps); reflexivity.
Qed.

Lemma decode_app c1 c2 d :
  TextDecoder.decode d (c1 ++ c2)
  = (fst (TextDecoder.decode d c1)
       ++ fst (TextDecoder.decode (snd (TextDecoder.decode d c1)) c2),
     snd (TextDecoder.decode (snd (TextDecoder.decode d c1)) c2))%list.
Proof.
  rewrite (decode_unfold d (c1 ++ c2)), run_app.
  rewrite (decode_unfold d c1).
  pose proof (run_bomSeen c1 d) as Hb1.
  destruct (TextDecoder.run d c1) as [o1 d1]. cbn [fst snd] in *.
  destruct o1 as [|c o1].
  - (* nothing decoded yet: the second chunk is serialised as a first one *)
    cbn [TextDecoder.stripBOM app flat_map fst snd].
    rewrite (decode_unfold d1 c2). reflexivity.
  - pose proof (run_bomSeen c2 d1) as Hb2.
    destruct (TextDecoder.bomSeen d1) eqn:Hseen.
    + rewrite (stripBOM_seen d1 (c :: o1) Hseen). cbn [fst snd].
      rewrite (decode_unfold d1 c2).
      rewrite !stripBOM_seen by congruence. cbn [fst snd].
      rewrite flat_map_app. reflexivity.
    + assert (Hfirst : TextDecoder.stripBOM d1 (c :: o1)
                       = (if N.eqb c 65279 then o1 else c :: o1,
                          TextDecoder.sawBOM d1)).
      { unfold TextDecoder.stripBOM. rewrite Hseen. reflexivity. }
      rewrite Hfirst. cbn [fst snd].
      rewrite (decode_unfold (TextDecoder.sawBOM d1) c2), run_sawBOM.
      cbn [fst snd].
      rewrite (stripBOM_seen (TextDecoder.sawBOM _) _) by reflexivity.
      cbn [fst snd].
      unfold TextDecoder.stripBOM. cbn [app]. rewrite Hb2.
      destruct (N.eqb c 65279); cbn [fst snd]; rewrite <- flat_map_app;
        reflexivity.
Qed.

Lemma handler_valid d b :
  validDecoder d -> validDecoder (snd (TextDecoder.handler d b)).
Proof.
  unfold validDecoder, TextDecoder.handler, TextDecoder.lead, TextDecoder.reset.
  intros Hd. repeat break_match; cbn; lia.
Qed.

Lemma run_valid bytes d :
  validDecoder d -> validDecoder (snd (TextDecoder.run d bytes)).
Proof.
  revert d; induction bytes as [|b bytes IH]; intros d Hd; cbn [TextDecoder.run].
  - exact Hd.
  - pose proof (handler_valid d (Byte.to_N b) Hd) as Hd1.
    destruct (TextDecoder.handler d (Byte.to_N b)) as [out d1].
    specialize (IH d1 Hd1).
    destruct (TextDecoder.run d1 bytes) as [out' d2]. exact IH.
Qed.

Lemma decode_valid value d :
  validDecoder d -> validDecoder (snd (TextDecoder.decode d value)).
Proof.
  intros Hd. rewrite decode_unfold. cbn [snd].
  pose proof (run_valid value d Hd) as Hrun.
  destruct (TextDecoder.run d value) as [cps d1]. cbn [fst snd] in *.
  unfold TextDecoder.stripBOM. destruct cps as [|c cps]; [exact Hrun|].
  destruct (TextDecoder.bomSeen d1); exact Hrun.
Qed.

Lemma create_valid : validDecoder TextDecoder.create.
Proof. unfold validDecoder. cbn. lia. Qed.

(** A newline byte always decodes to a text that ends in a newline: a
    pending partial character is replaced by U+FFFD first. *)
Lemma decode_newline d :
  validDecoder d ->
  exists text, fst (TextDecoder.decode d [x0a]) = (text ++ [10%N])%list.
Proof.
  unfold validDecoder. intros Hd.
  unfold TextDecoder.decode, TextDecoder.run, TextDecoder.handler.
  change (Byte.to_N x0a) with 10%N.
  destruct (N.eqb (TextDecoder.bytesNeeded d) 0).
  - exists []. unfold TextDecoder.lead, TextDecoder.stripBOM. cbn.
    destruct (TextDecoder.bomSeen d); reflexivity.
  - assert (Hlow : N.ltb 10 (TextDecoder.lowerBoundary d) = true)
      by (apply N.ltb_lt; lia).
    rewrite Hlow. exists [65533%N].
    unfold TextDecoder.lead, TextDecoder.stripBOM, TextDecoder.reset. cbn.
    destruct (TextDecoder.bomSeen d); reflexivity.
Qed.

(** The text of an aligned chunk is empty or ends in a newline. *)
Lemma decode_aligned chunk d :
  validDecoder d -> alignedChunk chunk ->
  fst (TextDecoder.decode d chunk) = []
  \/ exists text, fst (TextDecoder.decode d chunk) = (text ++ [10%N])%list.
Proof.
  intros Hd [->|(init & ->)].
  - left. reflexivity.
  - right. rewrite decode_app. cbn [fst].
    destruct (decode_newline (snd (TextDecoder.decode d init)))
      as (text & Htext); [apply decode_valid; exact Hd|].
    rewrite Htext. eexists. apply app_assoc.
Qed.

(** ** Lines *)

Lemma split_not_nil s : JsString.split s <> [].
Proof.
  destruct s as [|c s]; cbn [JsString.split]; [discriminate|].
  destruct (N.eqb c 10); [discriminate|].
  destruct (JsString.split s); discriminate.
Qed.

(** A newline ends the line in progress: the lines of a text cut at a
    newline are those of the two parts. *)
Lemma split_newline s1 s2 :
  JsString.split (s1 ++ 10%N :: s2)
  = (JsString.split s1 ++ JsString.split s2)%list.
Proof.
  induction s1 as [|c s1 IH]; cbn [app JsString.split].
  - reflexivity.
  - rewrite IH. destruct (N.eqb c 10); [reflexivity|].
    pose proof (split_not_nil s1) as Hne.
    destruct (JsString.split s1) as [|l ls]; [congruence|reflexivity].
Qed.

Lemma significant_app l1 l2 :
  significant (l1 ++ l2) = (significant l1 ++ significant l2)%list.
Proof. apply filter_app. Qed.

Lemma significant_split_newline text rest :
  significant (JsString.split ((text ++ [10%N]) ++ rest))
  = (significant (JsString.split (text ++ [10%N]))
       ++ significant (JsString.split rest))%list.
Proof.
  rewrite <- app_assoc. cbn [app].
  rewrite !split_newline, !significant_app. cbn [JsString.split].
  rewrite app_nil_r. reflexivity.
Qed.

(** Cutting a stream right after newlines changes nothing in the lines
    that count: they are those of the stream taken as one chunk. *)
Lemma significant_linesOf_aligned pending d :
  validDecoder d -> Forall alignedChunk pending ->
  significant (linesOf pending d)
  = significant (JsString.split (fst (TextDecoder.decode d (List.concat pending)))).
Proof.
  intros Hd Hall. revert d Hd.
  induction Hall as [|chunk rest Hchunk Hrest IH]; intros d Hd;
    cbn [linesOf List.concat].
  - reflexivity.
  - rewrite decode_app. cbn [fst].
    specialize (IH (snd (TextDecoder.decode d chunk)) (decode_valid chunk d Hd)).
    destruct (decode_aligned chunk d Hd Hchunk) as [Hnil|(text & Htext)].
    + destruct (TextDecoder.decode d chunk) as [decoded d1]. cbn [fst snd] in *.
      subst decoded. cbn [app]. rewrite significant_app, IH. reflexivity.
    + destruct (TextDecoder.decode d chunk) as [decoded d1]. cbn [fst snd] in *.
      subst decoded. rewrite significant_app, IH, significant_split_newline.
      reflexivity.
Qed.

(** ** Reading as a loop over lines *)

Lemma forOf_app {S A} (l1 l2 : list A) (body : A -> M S unit) (s : S) :
  forOf (l1 ++ l2) body s = (forOf l1 body ;; forOf l2 body) s.
Proof.
  revert s; induction l1 as [|x l1 IH]; intros s; cbn [app forOf].
  - reflexivity.
  - unfold bind. destruct (body x s) as [[u|e] s1]; [|reflexivity].
    rewrite IH. reflexivity.
Qed.

Lemma handleLine_blank line s :
  JsString.isEmpty (JsString.trim line) = true ->
  handleLine line s = (Normal tt, s).
Proof. intros Hblank. unfold handleLine. rewrite Hblank. reflexivity. Qed.

Lemma forOf_significant lines s :
  forOf lines handleLine s = forOf (significant lines) handleLine s.
Proof.
  revert s; induction lines as [|line lines IH]; intros s;
    cbn [forOf significant filter].
  - reflexivity.
  - fold (significant lines).
    destruct (JsString.isEmpty (JsString.trim line)) eqn:Hblank; cbn [negb].
    + unfold bind. rewrite (handleLine_blank line s Hblank). apply IH.
    + cbn [forOf]. unfold bind.
      destruct (handleLine line s) as [[u|e] s1]; [apply IH|reflexivity].
Qed.

(** Reading a stream is handling its lines in order and then ending the
    way the reader ends. *)
Lemma readStreamChunk_lines pending fails d s :
  readStreamChunk pending fails d s
  = (forOf (linesOf pending d) handleLine ;; finish fails) s.
Proof.
  revert d s; induction pending as [|value rest IH]; intros d s;
    cbn [readStreamChunk linesOf].
  - reflexivity.
  - destruct (TextDecoder.decode d value) as [decoded d'].
    unfold bind. rewrite forOf_app. unfold bind.
    destruct (forOf (JsString.split decoded) handleLine s) as [[u|e] s1];
      [|reflexivity].
    rewrite IH. reflexivity.
Qed.

Lemma readStreamChunk_significant pending pending' fails d d' s :
  significant (linesOf pending d) = significant (linesOf pending' d') ->
  readStreamChunk pending fails d s = readStreamChunk pending' fails d' s.
Proof.
  intros Hlines. rewrite !readStreamChunk_lines. unfold bind.
  rewrite (forOf_significant (linesOf pending d)),
    (forOf_significant (linesOf pending' d')), Hlines.
  reflexivity.
Qed.

Lemma linesOf_single value d :
  linesOf [value] d = JsString.split (fst (TextDecoder.decode d value)).
Proof.
  cbn [linesOf]. destruct (TextDecoder.decode d value) as [decoded d'].
  cbn [fst]. apply app_nil_r.
Qed.

(** A stream cut right after newlines is read as the stream in one chunk. *)
Lemma readStreamChunk_aligned pending fails d s :
  validDecoder d -> Forall alignedChunk pending ->
  readStreamChunk pending fails d s
  = readStreamChunk [List.concat pending] fails d s.
Proof.
  intros Hd Hall. apply readStreamChunk_significant.
  rewrite linesOf_single. apply significant_linesOf_aligned; assumption.
Qed.

Lemma streamText_read pending w :
  (streamText pending, streamModel pending)
  = textAndModel
      (snd (snd (readStreamChunk pending false TextDecoder.create
                                 (w, initialLocals)))).
Proof.
  rewrite readStreamChunk_reconstruct. unfold streamText, streamModel.
  change (textAndModel (snd (w, initialLocals)))
    with (@pair jsstring Json.value [] (Json.Str [])).
  symmetry. apply surjective_pairing.
Qed.

(** ** Streams of ASCII lines *)

Lemma run_ascii bytes d :
  TextDecoder.bytesNeeded d = 0%N -> Forall isAscii bytes ->
  TextDecoder.run d bytes = (map Byte.to_N bytes, d).
Proof.
  intros Hd Hall. induction Hall as [|b bytes Hb Hrest IH];
    cbn [TextDecoder.run map]; [reflexivity|].
  unfold TextDecoder.handler, TextDecoder.lead. rewrite Hd. cbn [N.eqb].
  apply N.leb_le in Hb. rewrite Hb, IH. reflexivity.
Qed.

Lemma decode_ascii bytes d :
  TextDecoder.bytesNeeded d = 0%N -> Forall isAscii bytes ->
  fst (TextDecoder.decode d bytes) = map Byte.to_N bytes.
Proof.
  intros Hd Hall. unfold TextDecoder.decode. rewrite (run_ascii bytes d Hd Hall).
  assert (Hunits : forall l, Forall isAscii l ->
                             flat_map TextDecoder.utf16 (map Byte.to_N l)
                             = map Byte.to_N l).
  { intros l Hl. induction Hl as [|b l Hb Hl IH]; cbn [map flat_map];
      [reflexivity|].
    rewrite IH. unfold TextDecoder.utf16.
    replace (N.ltb (Byte.to_N b) 65536) with true; [reflexivity|].
    symmetry. apply N.ltb_lt. unfold isAscii in Hb. lia. }
  destruct Hall as [|b bytes Hb Hrest]; [reflexivity|].
  unfold TextDecoder.stripBOM. cbn [map].
  destruct (TextDecoder.bomSeen d); cbn [fst].
  - apply (Hunits (b :: bytes)). constructor; assumption.
  - replace (N.eqb (Byte.to_N b) 65279) with false.
    + apply (Hunits (b :: bytes)). constructor; assumption.
    + symmetry. apply N.eqb_neq. unfold isAscii in Hb. lia.
Qed.

Lemma lineOf_ascii l : Forall isAscii (lineOf (lineText l)).
Proof.
  destruct l; unfold isAscii; repeat constructor; vm_compute; discriminate.
Qed.

Lemma chunkOfLines_ascii ls : Forall isAscii (chunkOfLines ls).
Proof.
  unfold chunkOfLines. induction ls as [|l ls IH]; cbn [map List.concat].
  - constructor.
  - apply Forall_app. split; [apply lineOf_ascii | exact IH].
Qed.

Lemma chunkOfLines_aligned ls : alignedChunk (chunkOfLines ls).
Proof.
  unfold chunkOfLines. induction ls as [|l ls _] using rev_ind.
  - left. reflexivity.
  - right. rewrite map_app, concat_app. cbn [map List.concat].
    rewrite app_nil_r. unfold lineOf at 2. rewrite app_assoc.
    eexists. reflexivity.
Qed.

Lemma chunkOfLines_concat groups :
  List.concat (map chunkOfLines groups) = chunkOfLines (List.concat groups).
Proof.
  unfold chunkOfLines. induction groups as [|g groups IH];
    cbn [map List.concat]; [reflexivity|].
  rewrite IH, map_app, concat_app. reflexivity.
Qed.

(** The code units of a line. *)
Lemma lineOf_units l :
  map Byte.to_N (lineOf (lineText l)) = (jq (lineText l) ++ [10%N])%list.
Proof. destruct l; reflexivity. Qed.

Lemma split_line l :
  JsString.split (jq (lineText l)) = [jq (lineText l)].
Proof. destruct l; reflexivity. Qed.

Lemma line_significant l :
  JsString.isEmpty (JsString.trim (jq (lineText l))) = false.
Proof. destruct l; reflexivity. Qed.

(** The lines that count in a stream of whole lines, however they are
    grouped into chunks. *)
Lemma significant_lines_of_groups groups :
  significant (linesOf (map chunkOfLines groups) TextDecoder.create)
  = map (fun l => jq (lineText l)) (List.concat groups).
Proof.
  rewrite significant_linesOf_aligned.
  2: apply create_valid.
  2:{ apply Forall_forall. intros chunk Hin. apply in_map_iff in Hin.
      destruct Hin as (g & <- & _). apply chunkOfLines_aligned. }
  rewrite chunkOfLines_concat, decode_ascii;
    [|reflexivity|apply chunkOfLines_ascii].
  unfold chunkOfLines.
  induction (List.concat groups) as [|l ls IH]; cbn [map List.concat].
  - reflexivity.
  - rewrite map_app, lineOf_units, <- app_assoc. cbn [app].
    rewrite split_newline, split_line, significant_app, IH.
    unfold significant at 1. cbn [filter]. rewrite line_significant.
    reflexivity.
Qed.

(** ** Text and notices, line by line *)

Lemma reconstruct_lines pending d acc :
  reconstruct pending d acc
  = fold_left (fun a line => absorb line a) (linesOf pending d) acc.
Proof.
  revert d acc; induction pending as [|value rest IH]; intros d acc;
    cbn [reconstruct linesOf]; [reflexivity|].
  destruct (TextDecoder.decode d value) as [decoded d'].
  rewrite fold_left_app. apply IH.
Qed.

Lemma fold_absorb_significant lines acc :
  fold_left (fun a line => absorb line a) lines acc
  = fold_left (fun a line => absorb line a) (significant lines) acc.
Proof.
  revert acc; induction lines as [|line lines IH]; intros acc;
    cbn [fold_left significant filter]; [reflexivity|].
  fold (significant lines).
  destruct (JsString.isEmpty (JsString.trim line)) eqn:Hblank; cbn [negb].
  - unfold absorb at 2. rewrite Hblank. apply IH.
  - cbn [fold_left]. apply IH.
Qed.

Lemma fold_absorb_records ls acc :
  fold_left (fun a line => absorb line a)
            (map (fun l => jq (lineText l)) ls) acc
  = fold_left (fun a line => absorb line a)
              (map (fun l => jq (lineText l)) (filter isRecord ls)) acc.
Proof.
  revert acc; induction ls as [|l ls IH]; intros acc; [reflexivity|].
  (* a record is absorbed on both sides; the malformed line leaves the
     accumulator alone *)
  destruct l; cbn [map filter isRecord fold_left]; apply IH.
Qed.

Lemma handleLine_status line s :
  statusLog (fst (snd (handleLine line s)))
  = (statusLog (fst s) ++ creditNotice line)%list.
Proof.
  destruct s as [w l]. unfold handleLine, creditNotice. run_monad.
  repeat (cbn; try break_match); rewrite ?app_nil_r; try reflexivity;
    try (cbn in *; congruence).
Qed.

Lemma forOf_status lines s :
  statusLog (fst (snd (forOf lines handleLine s)))
  = (statusLog (fst s) ++ flat_map creditNotice lines)%list.
Proof.
  revert s; induction lines as [|line lines IH]; intros s;
    cbn [forOf flat_map].
  - cbn. rewrite app_nil_r. reflexivity.
  - pose proof (handleLine_status line s) as Hline.
    destruct (handleLine_frame line s) as (s1 & Hrun & _).
    unfold bind. rewrite Hrun in *. cbn [fst snd] in Hline.
    rewrite IH, Hline, app_assoc. reflexivity.
Qed.

Lemma readStreamChunk_status pending fails d s :
  statusLog (fst (snd (readStreamChunk pending fails d s)))
  = (statusLog (fst s)
       ++ flat_map creditNotice (significant (linesOf pending d)))%list.
Proof.
  rewrite readStreamChunk_lines. unfold bind.
  rewrite forOf_significant.
  pose proof (forOf_status (significant (linesOf pending d)) s) as Hstatus.
  destruct (forOf_handleLine_frame (significant (linesOf pending d)) s)
    as (s1 & Hrun & _).
  rewrite Hrun in *. cbn [fst snd] in Hstatus.
  unfold finish. destruct fails; exact Hstatus.
Qed.

Lemma notices_of_records ls :
  flat_map creditNotice (map (fun l => jq (lineText l)) ls)
  = flat_map creditNotice (map (fun l => jq (lineText l)) (filter isRecord ls)).
Proof.
  induction ls as [|l ls IH]; [reflexivity|].
  destruct l; cbn [map filter isRecord flat_map]; rewrite IH; reflexivity.
Qed.

(** The notices of an attempt that reads its stream to the end. *)
Lemma attempt_completed_status (network : nat -> fetchResult) w r stream :
  network (List.length (requests w)) = Responded r ->
  ok r = true -> body r = Some stream -> readFails stream = false ->
  statusLog (snd (handleStreamingResponse network w))
  = (statusLog w
       ++ flat_map creditNotice
            (significant (linesOf (chunks stream) TextDecoder.create)))%list.
Proof.
  intros Hnet Hok Hbody Hfails.
  rewrite (attempt_stream network w r stream Hnet Hok Hbody).
  pose proof (readStreamChunk_status (chunks stream) (readFails stream)
                TextDecoder.create (sent w, initialLocals)) as Hstatus.
  destruct (readStreamChunk_frame (chunks stream) (readFails stream)
              TextDecoder.create (sent w, initialLocals))
    as ([w1 l1] & Hrun & _).
  rewrite Hrun in *. rewrite Hfails. cbn [fst snd] in *.
  destruct (JsString.isEmpty (assistantMessage l1)); cbn [snd];
    [exact Hstatus|].
  rewrite saveConversationToStorage_saved. cbn [snd].
  rewrite saved_statusLog. exact Hstatus.
Qed.
(** * [JSON.parse] after [JSON.stringify] on stored histories *)

Section JsonRoundTrip.
Local Open Scope N_scope.

(** A character that is neither a quote nor a backslash is taken as it
    is, unless it is a control character. *)
Lemma parseChars_plain (fuel : nat) (c : N) (r : jsstring) :
  c <> 34 -> c <> 92 ->
  Json.parseChars (S fuel) (c :: r)
  = if (c <? 32) || (c =? 92) then None
    else match Json.parseChars fuel r with
         | Some (cs, rest) => Some (c :: cs, rest)
         | None => None
         end.
Proof.
  intros H34 H92.
  destruct c as [|p]; [reflexivity|].
  do 7 (try (destruct p as [p|p|]; try reflexivity; try congruence)).
Qed.

(** The four hexadecimal digits of an escape give the code unit back. *)
Lemma hexValue_hexDigit (d : N) :
  d < 16 -> Json.hexValue (Json.hexDigit d) = Some d.
Proof.
  intros Hd.
  assert (H : d = 0 \/ d = 1 \/ d = 2 \/ d = 3 \/ d = 4 \/ d = 5 \/ d = 6
              \/ d = 7 \/ d = 8 \/ d = 9 \/ d = 10 \/ d = 11 \/ d = 12
              \/ d = 13 \/ d = 14 \/ d = 15) by lia.
  repeat (destruct H as [->|H]; [reflexivity|]). subst. reflexivity.
Qed.

Lemma nibbles (c : N) :
  c < 65536 ->
  N.shiftr c 12 < 16 /\ N.land (N.shiftr c 8) 15 < 16
  /\ N.land (N.shiftr c 4) 15 < 16 /\ N.land c 15 < 16
  /\ ((N.shiftr c 12 * 16 + N.land (N.shiftr c 8) 15) * 16
      + N.land (N.shiftr c 4) 15) * 16 + N.land c 15 = c.
Proof.
  intros Hc.
  change 15 with (N.ones 4). rewrite !N.land_ones, !N.shiftr_div_pow2.
  change (2 ^ 12) with 4096. change (2 ^ 8) with 256. change (2 ^ 4) with 16.
  zify. Z.to_euclidean_division_equations. lia.
Qed.

Lemma parseChars_unicodeEscape (fuel : nat) (c : N) (r : jsstring) :
  c < 65536 ->
  Json.parseChars (S fuel) (Json.unicodeEscape c ++ r)
  = match Json.parseChars fuel r with
    | Some (cs, rest) => Some (c :: cs, rest)
    | None => None
    end.
Proof.
  intros Hc. destruct (nibbles c Hc) as (H1 & H2 & H3 & H4 & Heq).
  unfold Json.unicodeEscape. cbn [app Json.parseChars].
  rewrite !hexValue_hexDigit by assumption. rewrite Heq. reflexivity.
Qed.

Lemma parseChars_closing (fuel : nat) (rest : jsstring) :
  Json.parseChars (S fuel) (34 :: rest) = Some ([], rest).
Proof. reflexivity. Qed.

Lemma length_unicodeEscape (c : N) (r : jsstring) :
  List.length (Json.unicodeEscape c ++ r) = (6 + List.length r)%nat.
Proof. reflexivity. Qed.

Lemma parseChars_short (fuel : nat) (e c : N) (r : jsstring) :
  Json.escapeChar e = Some c -> e <> 117 ->
  Json.parseChars (S fuel) (92 :: e :: r)
  = match Json.parseChars fuel r with
    | Some (cs, rest) => Some (c :: cs, rest)
    | None => None
    end.
Proof.
  intros He H117.
  destruct e as [|p]; [discriminate He|].
  do 7 (try (destruct p as [p|p|];
             try (cbn [Json.parseChars]; rewrite He; reflexivity);
             try congruence)).
Qed.

Ltac escaped IH fuel Hfuel :=
  destruct fuel as [|fuel]; [cbn in Hfuel; lia|];
  cbn [app List.length] in Hfuel |- *;
  first [ erewrite parseChars_short by (first [reflexivity | discriminate])
        | rewrite <- app_assoc, parseChars_unicodeEscape by assumption ];
  rewrite IH;
    [ reflexivity | lia | assumption
    | try rewrite length_unicodeEscape in Hfuel; lia ].

(** The characters written by [QuoteJSONString] are read back as the
    string, with fuel to spare: by induction on a bound of the length,
    since a surrogate pair is written in one step. *)
Lemma parseChars_quoteChars (n : nat) :
  forall (s : jsstring) (fuel : nat) (rest : jsstring),
    (List.length s <= n)%nat -> codeUnits s = true ->
    (List.length (Json.quoteChars s) < fuel)%nat ->
    Json.parseChars fuel (Json.quoteChars s ++ 34 :: rest) = Some (s, rest).
Proof.
  induction n as [|n IH]; intros s fuel rest Hn Hs Hfuel.
  - destruct s; [|simpl in Hn; lia].
    destruct fuel; [simpl in Hfuel; lia|]. reflexivity.
  - destruct s as [|c r].
    + destruct fuel; [simpl in Hfuel; lia|]. reflexivity.
    + cbn [codeUnits forallb] in Hs. apply andb_prop in Hs.
      destruct Hs as [Hc Hr]. apply N.ltb_lt in Hc.
      cbn [List.length] in Hn.
      cbn [Json.quoteChars] in *.
      destruct (c =? 8) eqn:E8;
        [apply N.eqb_eq in E8; subst c; escaped IH fuel Hfuel|].
      destruct (c =? 9) eqn:E9;
        [apply N.eqb_eq in E9; subst c; escaped IH fuel Hfuel|].
      destruct (c =? 10) eqn:E10;
        [apply N.eqb_eq in E10; subst c; escaped IH fuel Hfuel|].
      destruct (c =? 12) eqn:E12;
        [apply N.eqb_eq in E12; subst c; escaped IH fuel Hfuel|].
      destruct (c =? 13) eqn:E13;
        [apply N.eqb_eq in E13; subst c; escaped IH fuel Hfuel|].
      destruct (c =? 34) eqn:E34;
        [apply N.eqb_eq in E34; subst c; escaped IH fuel Hfuel|].
      destruct (c =? 92) eqn:E92;
        [apply N.eqb_eq in E92; subst c; escaped IH fuel Hfuel|].
      apply N.eqb_neq in E34, E92.
      destruct (c <? 32) eqn:E32.
      { escaped IH fuel Hfuel. }
      assert (P92 : (c =? 92) = false) by (apply N.eqb_neq; exact E92).
      destruct (Json.isLeadSurrogate c) eqn:Elead.
      { destruct r as [|c' r'].
        - destruct fuel as [|fuel]; [cbn in Hfuel; lia|].
          rewrite parseChars_unicodeEscape by assumption.
          destruct fuel as [|fuel]; [cbn in Hfuel; lia|]. reflexivity.
        - destruct (Json.isTrailSurrogate c') eqn:Etrail.
          + cbn [forallb] in Hr. apply andb_prop in Hr. destruct Hr as [Hc' Hr'].
            unfold Json.isTrailSurrogate in Etrail.
            apply andb_prop in Etrail. destruct Etrail as [Hlo Hhi].
            apply N.leb_le in Hlo.
            assert (Q34 : c' <> 34) by lia.
            assert (Q92 : c' <> 92) by lia.
            assert (Q32 : (c' <? 32) = false) by (apply N.ltb_ge; lia).
            assert (R92 : (c' =? 92) = false) by (apply N.eqb_neq; exact Q92).
            cbn [app List.length] in Hfuel |- *. cbn [List.length] in Hn.
            destruct fuel as [|fuel]; [lia|].
            rewrite parseChars_plain, E32, P92 by assumption. cbn [orb].
            destruct fuel as [|fuel]; [lia|].
            rewrite parseChars_plain, Q32, R92 by assumption. cbn [orb].
            rewrite IH; [reflexivity | lia | exact Hr' | lia].
          + escaped IH fuel Hfuel. }
      destruct (Json.isTrailSurrogate c) eqn:Etrail.
      { escaped IH fuel Hfuel. }
      cbn [app List.length] in Hfuel |- *.
      destruct fuel as [|fuel]; [lia|].
      rewrite parseChars_plain, E32, P92 by assumption. cbn [orb].
      rewrite IH; [reflexivity | lia | exact Hr | lia].
Qed.

Lemma parseChars_string (s rest : jsstring) :
  codeUnits s = true ->
  Json.parseChars (S (List.length (Json.quoteChars s ++ 34 :: rest)))
                  (Json.quoteChars s ++ 34 :: rest)
  = Some (s, rest).
Proof.
  intros Hs. apply (parseChars_quoteChars (List.length s)); [lia | exact Hs |].
  rewrite length_app. cbn [List.length]. lia.
Qed.

Lemma parseValue_string_step (fuel : nat) (r : jsstring) :
  Json.parseValue (S fuel) (34 :: r)
  = match Json.parseChars (S (List.length r)) r with
    | Some (cs, rest) => Some (Json.Str cs, rest)
    | None => None
    end.
Proof. simpl Json.parseValue. reflexivity. Qed.

Lemma parseValue_object_step (fuel : nat) (r : jsstring) :
  Json.parseValue (S fuel) (123 :: 34 :: r)
  = Json.parseMembers fuel [] (34 :: r).
Proof. simpl Json.parseValue. reflexivity. Qed.

Lemma parseValue_array_step (fuel : nat) (r : jsstring) :
  Json.parseValue (S fuel) (91 :: 123 :: r)
  = Json.parseElements fuel [] (123 :: r).
Proof. simpl Json.parseValue. reflexivity. Qed.

Lemma parseElements_step (fuel : nat) (acc : list Json.value) (s : jsstring) :
  Json.parseElements (S fuel) acc s
  = match Json.parseValue fuel s with
    | Some (v, rest) =>
        match Json.skipSpace rest with
        | 44 :: r => Json.parseElements fuel (acc ++ [v]) r
        | 93 :: r => Some (Json.Arr (acc ++ [v]), r)
        | _ => None
        end
    | None => None
    end.
Proof. reflexivity. Qed.

Lemma parseValue_string (fuel : nat) (s rest : jsstring) :
  codeUnits s = true ->
  Json.parseValue (S fuel) (34 :: Json.quoteChars s ++ 34 :: rest)
  = Some (Json.Str s, rest).
Proof.
  intros Hs.
  rewrite parseValue_string_step, (parseChars_string s rest Hs). reflexivity.
Qed.

Lemma parseMembers_step (fuel : nat) (acc : list (jsstring * Json.value))
      (r : jsstring) :
  Json.parseMembers (S fuel) acc (34 :: r)
  = match Json.parseChars (S (List.length r)) r with
    | Some (k, rest) =>
        match Json.skipSpace rest with
        | 58 :: r1 =>
            match Json.parseValue fuel r1 with
            | Some (v, rest1) =>
                match Json.skipSpace rest1 with
                | 44 :: r2 =>
                    Json.parseMembers fuel (Json.defineProperty k v acc) r2
                | 125 :: r2 =>
                    Some (Json.Obj (Json.defineProperty k v acc), r2)
                | _ => None
                end
            | None => None
            end
        | _ => None
        end
    | None => None
    end.
Proof. reflexivity. Qed.

Lemma skipSpace_colon (r : jsstring) : Json.skipSpace (58 :: r) = 58 :: r.
Proof. reflexivity. Qed.

Lemma skipSpace_comma (r : jsstring) : Json.skipSpace (44 :: r) = 44 :: r.
Proof. reflexivity. Qed.

Lemma skipSpace_brace (r : jsstring) : Json.skipSpace (125 :: r) = 125 :: r.
Proof. reflexivity. Qed.

Lemma skipSpace_bracket (r : jsstring) : Json.skipSpace (93 :: r) = 93 :: r.
Proof. reflexivity. Qed.

(** One member whose value is a string, followed by a comma or by the
    closing brace. *)
Lemma parseMembers_string (fuel : nat) (acc : list (jsstring * Json.value))
      (k v rest : jsstring) (last : bool) :
  codeUnits k = true -> codeUnits v = true ->
  Json.parseMembers (S (S fuel)) acc
    (34 :: Json.quoteChars k ++ 34 :: 58 :: 34 :: Json.quoteChars v
        ++ 34 :: (if last then 125 else 44) :: rest)
  = if last then Some (Json.Obj (Json.defineProperty k (Json.Str v) acc), rest)
    else Json.parseMembers (S fuel)
           (Json.defineProperty k (Json.Str v) acc) rest.
Proof.
  intros Hk Hv.
  rewrite parseMembers_step, (parseChars_string k _ Hk), skipSpace_colon,
    (parseValue_string fuel v _ Hv).
  destruct last.
  - rewrite skipSpace_brace. reflexivity.
  - rewrite skipSpace_comma. reflexivity.
Qed.

Lemma parseMembers_string_more (fuel : nat)
      (acc : list (jsstring * Json.value)) (k v rest : jsstring) :
  codeUnits k = true -> codeUnits v = true ->
  Json.parseMembers (S (S fuel)) acc
    (34 :: Json.quoteChars k ++ 34 :: 58 :: 34 :: Json.quoteChars v
        ++ 34 :: 44 :: rest)
  = Json.parseMembers (S fuel) (Json.defineProperty k (Json.Str v) acc) rest.
Proof. intros Hk Hv. exact (parseMembers_string fuel acc k v rest false Hk Hv). Qed.

Lemma parseMembers_string_last (fuel : nat)
      (acc : list (jsstring * Json.value)) (k v rest : jsstring) :
  codeUnits k = true -> codeUnits v = true ->
  Json.parseMembers (S (S fuel)) acc
    (34 :: Json.quoteChars k ++ 34 :: 58 :: 34 :: Json.quoteChars v
        ++ 34 :: 125 :: rest)
  = Some (Json.Obj (Json.defineProperty k (Json.Str v) acc), rest).
Proof. intros Hk Hv. exact (parseMembers_string fuel acc k v rest true Hk Hv). Qed.

(** The texts of objects with two and with three members. *)
Lemma stringify_two_members (k1 v1 k2 v2 rest : jsstring) :
  (Json.stringify (Json.Obj [(k1, Json.Str v1); (k2, Json.Str v2)]) ++ rest)%list
  = 123 :: 34 :: Json.quoteChars k1 ++ 34 :: 58
        :: 34 :: Json.quoteChars v1 ++ 34 :: 44
        :: 34 :: Json.quoteChars k2 ++ 34 :: 58
        :: 34 :: Json.quoteChars v2 ++ 34 :: 125 :: rest.
Proof.
  cbn [Json.stringify map Json.join app fst snd]. unfold Json.quote.
  repeat (rewrite <- app_assoc; cbn [app]). reflexivity.
Qed.

Lemma stringify_three_members (k1 v1 k2 v2 k3 : jsstring) (v3 : Json.value)
      (rest : jsstring) :
  (Json.stringify (Json.Obj [(k1, Json.Str v1); (k2, Json.Str v2); (k3, v3)])
     ++ rest)%list
  = 123 :: 34 :: Json.quoteChars k1 ++ 34 :: 58
        :: 34 :: Json.quoteChars v1 ++ 34 :: 44
        :: 34 :: Json.quoteChars k2 ++ 34 :: 58
        :: 34 :: Json.quoteChars v2 ++ 34 :: 44
        :: 34 :: Json.quoteChars k3 ++ 34 :: 58
        :: Json.stringify v3 ++ 125 :: rest.
Proof.
  cbn [Json.stringify map Json.join app fst snd]. unfold Json.quote.
  repeat (rewrite <- app_assoc; cbn [app]). reflexivity.
Qed.

Lemma stringify_messageJson (m : message) (rest : jsstring) :
  (Json.stringify (messageJson m) ++ rest)%list
  = 123 :: 34 :: Json.quoteChars (js "role") ++ 34 :: 58
        :: 34 :: Json.quoteChars (role m) ++ 34 :: 44
        :: 34 :: Json.quoteChars (js "content") ++ 34 :: 58
        :: 34 :: Json.quoteChars (content m) ++ 34
        :: match model m with
           | None => 125 :: rest
           | Some v =>
               44 :: 34 :: Json.quoteChars (js "model") ++ 34 :: 58
                  :: Json.stringify v ++ 125 :: rest
           end.
Proof.
  unfold messageJson. destruct (model m) as [v|]; cbn [app].
  - apply stringify_three_members.
  - apply stringify_two_members.
Qed.

(** The text of a history entry is read back as the entry. *)
Lemma parseValue_messageJson (fuel : nat) (m : message) (rest : jsstring) :
  plainMessage m = true ->
  Json.parseValue (5 + fuel) (Json.stringify (messageJson m) ++ rest)
  = Some (messageJson m, rest).
Proof.
  unfold plainMessage. intros Hm.
  apply andb_prop in Hm. destruct Hm as [Hm Hmodel].
  apply andb_prop in Hm. destruct Hm as [Hrole Hcontent].
  rewrite stringify_messageJson.
  change (5 + fuel)%nat with (S (S (S (S (S fuel))))).
  rewrite parseValue_object_step.
  rewrite (parseMembers_string_more _ _ (js "role") (role m) _ eq_refl Hrole).
  unfold messageJson.
  destruct (model m) as [[| | |s| |]|]; try discriminate Hmodel.
  - rewrite (parseMembers_string_more _ _ (js "content") (content m) _
               eq_refl Hcontent).
    cbn [Json.stringify]. unfold Json.quote.
    repeat (rewrite <- app_assoc; cbn [app]).
    rewrite (parseMembers_string_last _ _ (js "model") s _ eq_refl Hmodel).
    reflexivity.
  - rewrite (parseMembers_string_last _ _ (js "content") (content m) _
               eq_refl Hcontent).
    reflexivity.
Qed.

Lemma stringify_messageJson_head (m : message) :
  exists tail, Json.stringify (messageJson m) = 123 :: 34 :: tail.
Proof.
  pose proof (stringify_messageJson m []) as H. rewrite app_nil_r in H.
  rewrite H. eexists. reflexivity.
Qed.

Lemma length_two_members (k1 v1 k2 v2 : jsstring) :
  (8 <= List.length
          (Json.stringify (Json.Obj [(k1, Json.Str v1); (k2, Json.Str v2)])))%nat.
Proof.
  pose proof (stringify_two_members k1 v1 k2 v2 []) as H.
  rewrite app_nil_r in H. rewrite H.
  cbn [List.length]. rewrite length_app. cbn [List.length].
  rewrite length_app. cbn [List.length]. lia.
Qed.

Lemma length_three_members (k1 v1 k2 v2 k3 : jsstring) (v3 : Json.value) :
  (8 <= List.length
          (Json.stringify
             (Json.Obj [(k1, Json.Str v1); (k2, Json.Str v2); (k3, v3)])))%nat.
Proof.
  pose proof (stringify_three_members k1 v1 k2 v2 k3 v3 []) as H.
  rewrite app_nil_r in H. rewrite H.
  cbn [List.length]. rewrite length_app. cbn [List.length].
  rewrite length_app. cbn [List.length]. lia.
Qed.

Lemma length_stringify_messageJson (m : message) :
  (8 <= List.length (Json.stringify (messageJson m)))%nat.
Proof.
  unfold messageJson. destruct (model m) as [v|]; cbn [app].
  - apply length_three_members.
  - apply length_two_members.
Qed.

Lemma length_join_stored (history : list message) :
  (8 * List.length history
   <= List.length (Json.join [44%N] (storedEntries history)))%nat.
Proof.
  induction history as [|m history IH]; [apply Nat.le_0_l|].
  pose proof (length_stringify_messageJson m) as Hm.
  unfold storedEntries in *. cbn [map Json.join List.length].
  destruct (map Json.stringify (map messageJson history)) as [|p ps] eqn:Hps.
  - destruct history; [cbn [List.length]; lia | discriminate Hps].
  - rewrite !length_app. cbn [List.length] in *. lia.
Qed.

Lemma join_stored_head (m : message) (history : list message) :
  exists tail,
    Json.join [44] (storedEntries (m :: history)) = 123 :: 34 :: tail.
Proof.
  destruct (stringify_messageJson_head m) as (tail & Hm).
  unfold storedEntries. cbn [map Json.join]. rewrite Hm.
  destruct (map Json.stringify (map messageJson history));
    eexists; cbn [app]; reflexivity.
Qed.

Lemma join_stored_cons (m m' : message) (history : list message) :
  Json.join [44] (storedEntries (m :: m' :: history))
  = (Json.stringify (messageJson m)
     ++ 44 :: Json.join [44] (storedEntries (m' :: history)))%list.
Proof. reflexivity. Qed.

Lemma join_stored_one (m : message) :
  Json.join [44] (storedEntries [m]) = Json.stringify (messageJson m).
Proof. reflexivity. Qed.

(** The entries of a stored history, separated by commas, up to the
    closing bracket. *)
Lemma parseElements_stored (history : list message) :
  forall (m : message) (acc : list Json.value) (fuel : nat) (rest : jsstring),
    forallb plainMessage (m :: history) = true ->
    Json.parseElements (6 + List.length history + fuel) acc
      (Json.join [44] (storedEntries (m :: history)) ++ 93 :: rest)
    = Some (Json.Arr (acc ++ map messageJson (m :: history)), rest).
Proof.
  induction history as [|m' history IH]; intros m acc fuel rest Hplain;
    cbn [forallb] in Hplain; apply andb_prop in Hplain;
    destruct Hplain as [Hm Hrest].
  - rewrite join_stored_one. cbn [List.length].
    change (6 + 0 + fuel)%nat with (S (5 + fuel)).
    rewrite parseElements_step, (parseValue_messageJson fuel m _ Hm),
      skipSpace_bracket.
    reflexivity.
  - rewrite join_stored_cons. cbn [List.length].
    replace (6 + S (List.length history) + fuel)%nat
      with (S (5 + (1 + List.length history + fuel)))%nat by lia.
    rewrite <- app_assoc.
    rewrite parseElements_step, (parseValue_messageJson _ m _ Hm).
    cbn [app]. rewrite skipSpace_comma.
    replace (5 + (1 + List.length history + fuel))%nat
      with (6 + List.length history + fuel)%nat by lia.
    rewrite (IH m' (acc ++ [messageJson m])%list fuel rest Hrest).
    rewrite <- app_assoc. reflexivity.
Qed.

(** What [saveConversationToStorage] writes is read back by [JSON.parse]
    as the array that was written. *)
Lemma parse_stored_history (history : list message) :
  forallb plainMessage history = true ->
  Json.parse (Json.stringify (Json.Arr (map messageJson history)))
  = Some (Json.Arr (map messageJson history)).
Proof.
  intros Hplain. destruct history as [|m history]; [reflexivity|].
  unfold Json.parse. cbn [Json.stringify].
  fold (storedEntries (m :: history)).
  pose proof (length_join_stored (m :: history)) as Hlen.
  destruct (join_stored_head m history) as (tail & Hhead).
  cbn [app List.length]. rewrite length_app. cbn [List.length] in *.
  remember (List.length (Json.join [44] (storedEntries (m :: history)))) as n eqn:Hn.
  replace (S (S (n + 1)))
    with (S (6 + List.length history
             + (n - 4 - List.length history)))%nat by lia.
  rewrite Hhead. cbn [app]. rewrite parseValue_array_step.
  change (123 :: 34 :: (tail ++ [93]))%list
    with ((123 :: 34 :: tail) ++ 93 :: [])%list.
  rewrite <- Hhead.
  rewrite (parseElements_stored history m [] _ [] Hplain). reflexivity.
Qed.

End JsonRoundTrip.

(** ** Lines across a chunk boundary *)

Lemma split_parts (text : jsstring) :
  JsString.split text = (earlierLines text ++ [lastLine text])%list
  /\ JsString.split text = firstLine text :: laterLines text.
Proof.
  unfold earlierLines, lastLine, firstLine, laterLines.
  pose proof (split_not_nil text) as Hne.
  split.
  - apply app_removelast_last. exact Hne.
  - destruct (JsString.split text); [congruence | reflexivity].
Qed.

Lemma split_cons_line (c : N) (text : jsstring) :
  N.eqb c 10 = false ->
  JsString.split (c :: text) = (c :: firstLine text) :: laterLines text.
Proof.
  intros Hc. cbn [JsString.split]. rewrite Hc.
  destruct (proj2 (split_parts text)). unfold firstLine, laterLines.
  destruct (JsString.split text) as [|l ls] eqn:Hs;
    [exfalso; exact (split_not_nil text Hs) | reflexivity].
Qed.

(** The lines of two texts put together: the last line of the first and
    the first line of the second are one line. *)
Lemma split_app (a b : jsstring) :
  JsString.split (a ++ b)
  = (earlierLines a ++ (lastLine a ++ firstLine b) :: laterLines b)%list.
Proof.
  induction a as [|c a IH].
  - cbn [app]. unfold earlierLines, lastLine. cbn [JsString.split removelast last app].
    exact (proj2 (split_parts b)).
  - cbn [app]. destruct (N.eqb c 10) eqn:Hc.
    + cbn [JsString.split]. rewrite Hc, IH.
      unfold earlierLines, lastLine. cbn [JsString.split]. rewrite Hc.
      pose proof (split_not_nil a) as Hne.
      destruct (JsString.split a) as [|l ls] eqn:Hs; [congruence|].
      reflexivity.
    + rewrite (split_cons_line c (a ++ b) Hc).
      unfold firstLine at 1, laterLines at 1. rewrite IH.
      unfold earlierLines, lastLine.
      rewrite (split_cons_line c a Hc).
      unfold firstLine, laterLines.
      pose proof (split_not_nil a) as Hne.
      destruct (JsString.split a) as [|l [|l' ls]] eqn:Hs; [congruence| |];
        reflexivity.
Qed.

Lemma malformed_spec (line : jsstring) :
  malformed line = true
  <-> JsString.isEmpty (JsString.trim line) = false /\ Json.parse line = None.
Proof.
  unfold malformed. destruct (JsString.isEmpty (JsString.trim line));
    destruct (Json.parse line); cbn; split; try tauto; try discriminate;
    intros [? ?]; discriminate.
Qed.

Lemma handleLine_malformed (line : jsstring) (s : World * locals) :
  malformed line = true -> handleLine line s = warnMalformed line s.
Proof.
  intros H. apply malformed_spec in H. destruct H as [Hblank Hparse].
  destruct s as [w l].
  unfold handleLine, warnMalformed, tryCatch, bind, JSON_parse, throw.
  rewrite Hblank, Hparse. reflexivity.
Qed.

Lemma absorb_malformed (line : jsstring) acc :
  malformed line = true -> absorb line acc = acc.
Proof.
  intros H. apply malformed_spec in H. destruct H as [Hblank Hparse].
  unfold absorb. rewrite Hblank, Hparse. reflexivity.
Qed.

Lemma creditNotice_malformed (line : jsstring) :
  malformed line = true -> creditNotice line = [].
Proof.
  intros H. apply malformed_spec in H. destruct H as [Hblank Hparse].
  unfold creditNotice. rewrite Hblank, Hparse. reflexivity.
Qed.

(** The lines of two consecutive chunks, and those of the two chunks taken
    as one. *)
Lemma linesOf_boundary d c1 c2 rest :
  let t1 := fst (TextDecoder.decode d c1) in
  let d1 := snd (TextDecoder.decode d c1) in
  let t2 := fst (TextDecoder.decode d1 c2) in
  let d2 := snd (TextDecoder.decode d1 c2) in
  linesOf (c1 :: c2 :: rest) d
  = (earlierLines t1
       ++ lastLine t1 :: firstLine t2 :: laterLines t2 ++ linesOf rest d2)%list
  /\ linesOf ((c1 ++ c2) :: rest) d
     = (earlierLines t1
          ++ (lastLine t1 ++ firstLine t2) :: laterLines t2
          ++ linesOf rest d2)%list.
Proof.
  cbv zeta. split.
  - cbn [linesOf].
    destruct (TextDecoder.decode d c1) as [t1 d1]. cbn [fst snd].
    destruct (TextDecoder.decode d1 c2) as [t2 d2]. cbn [fst snd].
    rewrite (proj1 (split_parts t1)) at 1.
    rewrite (proj2 (split_parts t2)) at 1.
    rewrite <- app_assoc. reflexivity.
  - cbn [linesOf]. rewrite decode_app.
    destruct (TextDecoder.decode d c1) as [t1 d1]. cbn [fst snd].
    destruct (TextDecoder.decode d1 c2) as [t2 d2]. cbn [fst snd].
    rewrite split_app, <- app_assoc. reflexivity.
Qed.

Lemma forOf_cons {S A} (x : A) (l : list A) (body : A -> M S unit) :
  forOf (x :: l) body = (body x ;; forOf l body).
Proof. reflexivity. Qed.

(** Handling lines of which two in a row are malformed. *)
Lemma forOf_malformed l1 line1 line2 l2 (after : M (World * locals) bool) s :
  malformed line1 = true -> malformed line2 = true ->
  (forOf (l1 ++ line1 :: line2 :: l2) handleLine ;; after) s
  = (forOf l1 handleLine ;; warnMalformed line1 ;; warnMalformed line2 ;;
     forOf l2 handleLine ;; after) s.
Proof.
  intros H1 H2. unfold bind at 1. rewrite forOf_app. unfold bind.
  destruct (forOf l1 handleLine s) as [[u|e] s1]; [|reflexivity].
  cbn [forOf]. unfold bind.
  rewrite (handleLine_malformed line1 s1 H1).
  destruct (warnMalformed line1 s1) as [[u1|e1] s2]; [|reflexivity].
  rewrite (handleLine_malformed line2 s2 H2).
  destruct (warnMalformed line2 s2) as [[u2|e2] s3]; reflexivity.
Qed.

(** A boundary with a malformed fragment on either side: the two
    fragments are reported, and the line that they make is not handled. *)
Lemma readStreamChunk_boundary d c1 c2 rest fails s :
  let t1 := fst (TextDecoder.decode d c1) in
  let d1 := snd (TextDecoder.decode d c1) in
  let t2 := fst (TextDecoder.decode d1 c2) in
  let d2 := snd (TextDecoder.decode d1 c2) in
  malformed (lastLine t1) = true -> malformed (firstLine t2) = true ->
  readStreamChunk (c1 :: c2 :: rest) fails d s
  = (forOf (earlierLines t1) handleLine ;;
     warnMalformed (lastLine t1) ;;
     warnMalformed (firstLine t2) ;;
     forOf (laterLines t2 ++ linesOf rest d2) handleLine ;;
     finish fails) s.
Proof.
  cbv zeta. intros H1 H2.
  rewrite readStreamChunk_lines, (proj1 (linesOf_boundary d c1 c2 rest)).
  apply forOf_malformed; assumption.
Qed.

Lemma reconstruct_boundary d c1 c2 rest acc :
  let t1 := fst (TextDecoder.decode d c1) in
  let d1 := snd (TextDecoder.decode d c1) in
  let t2 := fst (TextDecoder.decode d1 c2) in
  let d2 := snd (TextDecoder.decode d1 c2) in
  malformed (lastLine t1) = true -> malformed (firstLine t2) = true ->
  reconstruct (c1 :: c2 :: rest) d acc
  = fold_left (fun a line => absorb line a)
              (earlierLines t1 ++ laterLines t2 ++ linesOf rest d2) acc.
Proof.
  cbv zeta. intros H1 H2.
  rewrite reconstruct_lines, (proj1 (linesOf_boundary d c1 c2 rest)).
  rewrite !fold_left_app. cbn [fold_left].
  rewrite (absorb_malformed _ _ H1), (absorb_malformed _ _ H2).
  rewrite fold_left_app. reflexivity.
Qed.

(** ** Boundaries inside the example records *)

Lemma decode_ascii_needed bytes d :
  TextDecoder.bytesNeeded d = 0%N -> Forall isAscii bytes ->
  TextDecoder.bytesNeeded (snd (TextDecoder.decode d bytes)) = 0%N.
Proof.
  intros Hd Hall. unfold TextDecoder.decode.
  rewrite (run_ascii bytes d Hd Hall). unfold TextDecoder.stripBOM.
  destruct (map Byte.to_N bytes); [exact Hd|].
  destruct (TextDecoder.bomSeen d); exact Hd.
Qed.

Lemma units_chunkOfLines ls :
  map Byte.to_N (chunkOfLines ls)
  = List.concat (map (fun line => line ++ [10%N])%list (textsOf ls)).
Proof.
  unfold chunkOfLines, textsOf. induction ls as [|l ls IH];
    cbn [map List.concat]; [reflexivity|].
  rewrite map_app, lineOf_units, IH. reflexivity.
Qed.

Lemma split_texts ls tail :
  JsString.split
    (List.concat (map (fun line => line ++ [10%N])%list (textsOf ls)) ++ tail)
  = (textsOf ls ++ JsString.split tail)%list.
Proof.
  unfold textsOf. induction ls as [|l ls IH]; cbn [map List.concat app];
    [reflexivity|].
  rewrite <- !app_assoc. cbn [app].
  rewrite split_newline, split_line, IH. reflexivity.
Qed.

Lemma split_plain s :
  Forall (fun c => c <> 10%N) s -> JsString.split s = [s].
Proof.
  induction 1 as [|c s Hc Hs IH]; cbn [JsString.split]; [reflexivity|].
  apply N.eqb_neq in Hc. rewrite Hc, IH. reflexivity.
Qed.

Lemma line_plain l : Forall (fun c => c <> 10%N) (jq (lineText l)).
Proof. destruct l; repeat constructor; discriminate. Qed.

Lemma Forall_firstn {A} (P : A -> Prop) n (l : list A) :
  Forall P l -> Forall P (firstn n l).
Proof.
  intros H. rewrite <- (firstn_skipn n l) in H.
  apply Forall_app in H. tauto.
Qed.

Lemma Forall_skipn {A} (P : A -> Prop) n (l : list A) :
  Forall P l -> Forall P (skipn n l).
Proof.
  intros H. rewrite <- (firstn_skipn n l) in H.
  apply Forall_app in H. tauto.
Qed.

Lemma split_fragmentBefore n l :
  JsString.split (fragmentBefore n l) = [fragmentBefore n l].
Proof. apply split_plain, Forall_firstn, line_plain. Qed.

Lemma split_fragmentAfter n l :
  JsString.split (fragmentAfter n l) = [fragmentAfter n l].
Proof. apply split_plain, Forall_skipn, line_plain. Qed.

Lemma length_line l :
  List.length (jq (lineText l)) = List.length (bytesOf (lineText l)).
Proof. destruct l; reflexivity. Qed.

Lemma units_firstn n l :
  (n <= List.length (bytesOf (lineText l)))%nat ->
  map Byte.to_N (firstn n (lineOf (lineText l))) = fragmentBefore n l.
Proof.
  intros Hn. rewrite <- firstn_map, lineOf_units, firstn_app.
  rewrite length_line.
  replace (n - List.length (bytesOf (lineText l)))%nat with 0%nat by lia.
  cbn [firstn]. apply app_nil_r.
Qed.

Lemma units_skipn n l :
  (n <= List.length (bytesOf (lineText l)))%nat ->
  map Byte.to_N (skipn n (lineOf (lineText l)))
  = (fragmentAfter n l ++ [10%N])%list.
Proof.
  intros Hn. rewrite <- skipn_map, lineOf_units, skipn_app.
  rewrite length_line.
  replace (n - List.length (bytesOf (lineText l)))%nat with 0%nat by lia.
  reflexivity.
Qed.

Lemma cutInside_concat before n l after :
  List.concat (cutInside before n l after)
  = chunkOfLines (before ++ l :: after).
Proof.
  unfold cutInside, chunkOfLines. cbn [List.concat].
  rewrite app_nil_r, map_app, concat_app. cbn [map List.concat].
  rewrite <- app_assoc. f_equal. rewrite app_assoc, firstn_skipn.
  reflexivity.
Qed.

(** The lines of a stream cut inside a line. *)
Lemma linesOf_cutInside before n l after :
  (n <= List.length (bytesOf (lineText l)))%nat ->
  linesOf (cutInside before n l after) TextDecoder.create
  = (textsOf before
       ++ fragmentBefore n l :: fragmentAfter n l :: textsOf after ++ [[]])%list.
Proof.
  intros Hn. unfold cutInside.
  assert (Hfirst : Forall isAscii
                     (chunkOfLines before ++ firstn n (lineOf (lineText l)))).
  { apply Forall_app. split;
      [apply chunkOfLines_ascii | apply Forall_firstn, lineOf_ascii]. }
  assert (Hsecond : Forall isAscii
                      (skipn n (lineOf (lineText l)) ++ chunkOfLines after)).
  { apply Forall_app. split;
      [apply Forall_skipn, lineOf_ascii | apply chunkOfLines_ascii]. }
  pose proof (decode_ascii _ TextDecoder.create eq_refl Hfirst) as Ht1.
  pose proof (decode_ascii_needed _ TextDecoder.create eq_refl Hfirst) as Hd1.
  cbn [linesOf].
  destruct (TextDecoder.decode TextDecoder.create
              (chunkOfLines before ++ firstn n (lineOf (lineText l))))
    as [t1 d1].
  cbn [fst snd] in Ht1, Hd1.
  pose proof (decode_ascii _ d1 Hd1 Hsecond) as Ht2.
  destruct (TextDecoder.decode d1
              (skipn n (lineOf (lineText l)) ++ chunkOfLines after))
    as [t2 d2].
  cbn [fst] in Ht2. subst t1 t2.
  rewrite !map_app, !units_chunkOfLines, (units_firstn n l Hn),
    (units_skipn n l Hn).
  rewrite split_texts, split_fragmentBefore.
  rewrite <- (app_assoc (fragmentAfter n l)). cbn [app].
  rewrite split_newline, split_fragmentAfter.
  rewrite <- (app_nil_r (List.concat _)), split_texts.
  cbn [JsString.split app]. rewrite !app_nil_r, <- app_assoc. reflexivity.
Qed.

Lemma linesOf_whole ls :
  linesOf [chunkOfLines ls] TextDecoder.create = (textsOf ls ++ [[]])%list.
Proof.
  rewrite linesOf_single,
    (decode_ascii _ TextDecoder.create eq_refl (chunkOfLines_ascii ls)),
    units_chunkOfLines.
  rewrite <- (app_nil_r (List.concat _)), split_texts. reflexivity.
Qed.

Lemma fragments_checked l : isRecord l = true -> fragmentsMalformed l = true.
Proof. destruct l; intros H; try discriminate H; vm_compute; reflexivity. Qed.

Lemma fragments_malformed n l :
  isRecord l = true -> inside n l ->
  malformed (fragmentBefore n l) = true
  /\ malformed (fragmentAfter n l) = true.
Proof.
  intros Hrecord Hn. pose proof (fragments_checked l Hrecord) as Hall.
  unfold fragmentsMalformed in Hall. rewrite forallb_forall in Hall.
  apply andb_prop, Hall, in_seq. unfold inside in Hn. lia.
Qed.

Lemma readStreamChunk_cutInside before n l after fails s :
  isRecord l = true -> inside n l ->
  readStreamChunk (cutInside before n l after) fails TextDecoder.create s
  = (forOf (textsOf before) handleLine ;;
     warnMalformed (fragmentBefore n l) ;;
     warnMalformed (fragmentAfter n l) ;;
     forOf (textsOf after) handleLine ;;
     finish fails) s.
Proof.
  intros Hrecord Hn.
  destruct (fragments_malformed n l Hrecord Hn) as [H1 H2].
  rewrite readStreamChunk_lines, linesOf_cutInside
    by (unfold inside in Hn; lia).
  rewrite (forOf_malformed _ _ _ _ _ _ H1 H2). unfold bind.
  destruct (forOf (textsOf before) handleLine s) as [[u|e] s1]; [|reflexivity].
  destruct (warnMalformed (fragmentBefore n l) s1) as [[u1|e1] s2];
    [|reflexivity].
  destruct (warnMalformed (fragmentAfter n l) s2) as [[u2|e2] s3];
    [|reflexivity].
  rewrite forOf_app. unfold bind.
  destruct (forOf (textsOf after) handleLine s3) as [[u3|e3] s4];
    [|reflexivity].
  cbn [forOf]. unfold bind.
  rewrite (handleLine_blank [] s4) by reflexivity. reflexivity.
Qed.

Lemma reconstruct_cutInside before n l after acc :
  isRecord l = true -> inside n l ->
  reconstruct (cutInside before n l after) TextDecoder.create acc
  = reconstruct [chunkOfLines (before ++ after)] TextDecoder.create acc.
Proof.
  intros Hrecord Hn.
  destruct (fragments_malformed n l Hrecord Hn) as [H1 H2].
  rewrite !reconstruct_lines, linesOf_whole, linesOf_cutInside
    by (unfold inside in Hn; lia).
  unfold textsOf. rewrite map_app, !fold_left_app. cbn [fold_left].
  rewrite (absorb_malformed _ _ H1), (absorb_malformed _ _ H2).
  rewrite fold_left_app. reflexivity.
Qed.

Lemma notices_cutInside before n l after :
  isRecord l = true -> inside n l ->
  flat_map creditNotice (linesOf (cutInside before n l after) TextDecoder.create)
  = flat_map creditNotice
      (linesOf [chunkOfLines (before ++ after)] TextDecoder.create).
Proof.
  intros Hrecord Hn.
  destruct (fragments_malformed n l Hrecord Hn) as [H1 H2].
  rewrite linesOf_whole, linesOf_cutInside by (unfold inside in Hn; lia).
  unfold textsOf. rewrite map_app, !flat_map_app. cbn [flat_map].
  rewrite (creditNotice_malformed _ H1), (creditNotice_malformed _ H2).
  rewrite flat_map_app. cbn [flat_map app]. rewrite <- app_assoc.
  reflexivity.
Qed.

(** * The claims *)

(** C4. With the base delay of 1000 ms and three attempts, a first failed
    attempt is followed by a wait of [RETRY_DELAY * 2^(1-1) = 1000] ms, a
    second one by a wait of [RETRY_DELAY * 2^(2-1) = 2000] ms, and a third
    one by the failure report: three requests are sent and no more. *)
Theorem C4_backoff_schedule (network : nat -> fetchResult) (w : World) :
  (forall i, i < 3 -> failsAt network (List.length (requests w) + i)) ->
  exists w',
    handleStreamingResponseWithRetry network 1 w = (Normal false, w')
    /\ sleeps w'
       = (sleeps w ++ [RETRY_DELAY * 2 ^ (1 - 1); RETRY_DELAY * 2 ^ (2 - 1)])%list%Z
    /\ sleeps w' = (sleeps w ++ [1000; 2000])%list%Z
    /\ List.length (requests w') = List.length (requests w) + 3
    /\ statusLog w'
       = (statusLog w
          ++ [js "Request failed, retrying in 1s... (1/3)";
              js "Request failed, retrying in 2s... (2/3)";
              js "Request failed after maximum retries"])%list.
Proof.
  intros Hfail. eexists. split; [apply retry_exhausted; exact Hfail|].
  cbn [sleeps statusLog requests exhausted backedOff sent setRequests
         setSleeps setStatusLog].
  rewrite <- !app_assoc, !length_app. cbn [List.length app].
  repeat split; reflexivity.
Qed.

Lemma C4_backoff_schedule_witness :
  exists w',
    handleStreamingResponseWithRetry (fun _ => failureResponse) 1
      (freshPage "hi") = (Normal false, w')
    /\ sleeps w' = ([] ++ [RETRY_DELAY * 2 ^ (1 - 1); RETRY_DELAY * 2 ^ (2 - 1)])%list%Z
    /\ sleeps w' = ([] ++ [1000; 2000])%list%Z
    /\ List.length (requests w') = 0 + 3
    /\ statusLog w'
       = ([] ++ [js "Request failed, retrying in 1s... (1/3)";
                 js "Request failed, retrying in 2s... (2/3)";
                 js "Request failed after maximum retries"])%list.
Proof.
  apply (C4_backoff_schedule (fun _ => failureResponse) (freshPage "hi")).
  intros i _. exists {| ok := false; location := None; body := None |}.
  split; [reflexivity | split; reflexivity].
Defined.

(** C2. A response that is not ok and carries a [Location] makes the
    attempt, whatever its number, succeed at once: the navigation target is
    set, no wait and no status notice occur, one request has been sent, and
    neither the coordinator nor the wrapper removes anything from the
    history or the store. *)
Theorem C2_auth_redirect (network : nat -> fetchResult)
        (attemptNumber : positive) (w : World) (r : response)
        (target : jsstring) :
  network (List.length (requests w)) = Responded r ->
  redirectSignal r target ->
  (exists w',
      handleStreamingResponseWithRetry network attemptNumber w
      = (Normal true, w')
      /\ href w' = Some target
      /\ sleeps w' = sleeps w
      /\ statusLog w' = statusLog w
      /\ List.length (requests w') = S (List.length (requests w))
      /\ conversationHistory w' = conversationHistory w
      /\ localStorage w' = localStorage w)
  /\ (exists w'',
         sendWrapper network w = (Normal tt, w'')
         /\ href w'' = Some target
         /\ sleeps w'' = sleeps w
         /\ List.length (requests w'') = S (List.length (requests w))
         /\ conversationHistory w'' = conversationHistory w
         /\ localStorage w'' = localStorage w).
Proof.
  intros Hnet Hsig. split.
  - eexists. split.
    + rewrite retry_unfold, (attempt_redirect network w r target Hnet Hsig). reflexivity.
    + cbn. rewrite length_app. cbn. repeat split; lia.
  - eexists. split.
    + rewrite sendWrapper_unfold, retry_unfold.
      rewrite (attempt_redirect network (begun w) r target);
        [reflexivity | exact Hnet | exact Hsig].
    + cbn. rewrite length_app. cbn. repeat split; lia.
Qed.

Lemma C2_auth_redirect_witness :
  (exists w',
      handleStreamingResponseWithRetry (fun _ => redirectResponse "/login") 2
        (userTurn (freshPage "hi")) = (Normal true, w')
      /\ href w' = Some (js "/login")
      /\ sleeps w' = sleeps (userTurn (freshPage "hi"))
      /\ statusLog w' = statusLog (userTurn (freshPage "hi"))
      /\ List.length (requests w')
         = S (List.length (requests (userTurn (freshPage "hi"))))
      /\ conversationHistory w' = conversationHistory (userTurn (freshPage "hi"))
      /\ localStorage w' = localStorage (userTurn (freshPage "hi")))
  /\ (exists w'',
         sendWrapper (fun _ => redirectResponse "/login")
           (userTurn (freshPage "hi")) = (Normal tt, w'')
         /\ href w'' = Some (js "/login")
         /\ sleeps w'' = sleeps (userTurn (freshPage "hi"))
         /\ List.length (requests w'')
            = S (List.length (requests (userTurn (freshPage "hi"))))
         /\ conversationHistory w''
            = conversationHistory (userTurn (freshPage "hi"))
         /\ localStorage w'' = localStorage (userTurn (freshPage "hi"))).
Proof.
  apply (C2_auth_redirect (fun _ => redirectResponse "/login") 2
           (userTurn (freshPage "hi"))
           {| ok := false; location := Some (js "/login"); body := None |}
           (js "/login")).
  - reflexivity.
  - split; [reflexivity | split; [reflexivity | discriminate]].
Defined.

(** C10. On an ok response the first read goes through [reader!]: when the
    body is absent the attempt ends in a thrown null dereference, not in a
    returned [false], so the coordinator neither waits nor retries and the
    wrapper rolls nothing back; and that exception arises on an ok response
    only when the body is absent. *)
Theorem C10_absent_body (network : nat -> fetchResult)
        (attemptNumber : positive) (w : World) (r : response) :
  network (List.length (requests w)) = Responded r ->
  ok r = true ->
  (body r = None ->
   handleStreamingResponse network w = (Throw NullDereference, sent w)
   /\ handleStreamingResponseWithRetry network attemptNumber w
      = (Throw NullDereference, sent w)
   /\ sendWrapper network w
      = (Throw NullDereference, finished (sent (begun w))))
  /\ (fst (handleStreamingResponse network w) = Throw NullDereference ->
      body r = None).
Proof.
  intros Hnet Hok. split.
  - intros Hbody.
    pose proof (attempt_no_body network w r Hnet Hok Hbody) as Hrun.
    split; [exact Hrun|]. split.
    + rewrite retry_unfold, Hrun. reflexivity.
    + rewrite sendWrapper_unfold, retry_unfold.
      rewrite (attempt_no_body network (begun w) r);
        [reflexivity | exact Hnet | exact Hok | exact Hbody].
  - intros Hthrown. destruct (body r) as [stream|] eqn:Hbody; [|reflexivity].
    exfalso. destruct (readFails stream) eqn:Hfails.
    + destruct (attempt_read_rejected network w r stream Hnet Hok Hbody Hfails)
        as (w1 & _ & Hrun).
      rewrite Hrun in Hthrown. discriminate.
    + destruct (attempt_completed network w r stream Hnet Hok Hbody Hfails)
        as (w1 & _ & Hrun).
      rewrite Hrun in Hthrown. discriminate.
Qed.

Lemma C10_absent_body_witness :
  (body {| ok := true; location := None; body := None |} = None ->
   handleStreamingResponse (fun _ => bodilessResponse) (freshPage "hi")
   = (Throw NullDereference, sent (freshPage "hi"))
   /\ handleStreamingResponseWithRetry (fun _ => bodilessResponse) 1
        (freshPage "hi")
      = (Throw NullDereference, sent (freshPage "hi"))
   /\ sendWrapper (fun _ => bodilessResponse) (freshPage "hi")
      = (Throw NullDereference, finished (sent (begun (freshPage "hi")))))
  /\ (fst (handleStreamingResponse (fun _ => bodilessResponse) (freshPage "hi"))
      = Throw NullDereference ->
      body {| ok := true; location := None; body := None |} = None).
Proof.
  apply (C10_absent_body (fun _ => bodilessResponse) 1 (freshPage "hi")
           {| ok := true; location := None; body := None |});
    reflexivity.
Defined.

(** A rejected [fetch] escapes the coordinator at once, whatever the
    attempt number: no notice, no wait, no further attempt. *)
Lemma retry_rejected (network : nat -> fetchResult)
      (attemptNumber : positive) (w : World) :
  network (List.length (requests w)) = Rejected ->
  handleStreamingResponseWithRetry network attemptNumber w
  = (Throw NetworkError, sent w).
Proof.
  intros Hnet. rewrite retry_unfold, (attempt_rejected network w Hnet).
  reflexivity.
Qed.

(** C6, at the failing input.  When the network rejects the first
    [fetch], the submit handler ends with the exception: one request has
    been sent, there was no wait and no status notice, and the user message
    is still the last entry of the history and of the store. *)
Theorem C6_network_failure_escapes :
  let run := sendMessage (fun _ => Rejected) (freshPage "hi") in
  fst run = Throw NetworkError
  /\ List.length (requests (snd run)) = 1
  /\ sleeps (snd run) = []
  /\ statusLog (snd run) = []
  /\ conversationHistory (snd run)
     = [{| role := js "user"; content := js "hi"; model := None |}]
  /\ localStorage (snd run) = Some (jq "[{'role':'user','content':'hi'}]").
Proof. vm_compute. repeat split; reflexivity. Qed.

(** Every attempt sends exactly one request, the one built from the state
    in which it starts. *)
Lemma attempt_requests (network : nat -> fetchResult) (w : World) :
  requests (snd (handleStreamingResponse network w))
  = (requests w ++ [requestOf w])%list.
Proof.
  destruct (network (List.length (requests w))) as [|r] eqn:Hnet.
  - rewrite (attempt_rejected network w Hnet). reflexivity.
  - destruct (ok r) eqn:Hok.
    + destruct (body r) as [stream|] eqn:Hbody.
      * destruct (readFails stream) eqn:Hfails.
        -- destruct (attempt_read_rejected network w r stream Hnet Hok Hbody Hfails)
             as (w1 & Hcore & Hrun).
           rewrite Hrun. cbn [snd]. rewrite (core_requests _ _ Hcore). reflexivity.
        -- destruct (attempt_completed network w r stream Hnet Hok Hbody Hfails)
             as (w1 & Hcore & Hrun).
           rewrite Hrun. cbn [snd].
           rewrite completedWith_requests, (core_requests _ _ Hcore). reflexivity.
      * rewrite (attempt_no_body network w r Hnet Hok Hbody). reflexivity.
    + destruct (location r) as [[|c target]|] eqn:Hloc.
      * rewrite (attempt_failed network w r Hnet); [reflexivity|].
        split; [exact Hok | rewrite Hloc; reflexivity].
      * rewrite (attempt_redirect network w r (c :: target) Hnet); [reflexivity|].
        split; [exact Hok | split; [exact Hloc | discriminate]].
      * rewrite (attempt_failed network w r Hnet); [reflexivity|].
        split; [exact Hok | rewrite Hloc; reflexivity].
Qed.

Lemma sliceLast_length {A} (n : nat) (l : list A) :
  List.length (sliceLast n l) = Nat.min n (List.length l).
Proof. unfold sliceLast. rewrite length_skipn. lia. Qed.

Lemma sliceLast_suffix {A} (n : nat) (l : list A) :
  l = (firstn (List.length l - n) l ++ sliceLast n l)%list.
Proof. unfold sliceLast. symmetry. apply firstn_skipn. Qed.

Lemma sliceLast_short {A} (n : nat) (l : list A) :
  List.length l <= n -> sliceLast n l = l.
Proof.
  intros Hle. unfold sliceLast.
  replace (List.length l - n) with 0 by lia. reflexivity.
Qed.

(** C5. The request of an attempt carries the window
    [conversationHistory.slice(-20)]: at most 20 messages; when the history
    holds 20 or more, exactly its last 20, in their order (the history is
    some older messages followed by the window); a shorter history is sent
    whole. *)
Theorem C5_history_window (network : nat -> fetchResult) (w : World) :
  let history := conversationHistory w in
  let window := sliceLast 20 history in
  requests (snd (handleStreamingResponse network w))
  = (requests w ++ [requestOf w])%list
  /\ req_body (requestOf w)
     = Json.stringify
         (Json.Obj [(js "model", Json.Str (js "cheapest"));
                    (js "messages", Json.Arr (map messageJson window))])
  /\ List.length window <= 20
  /\ (20 <= List.length history ->
      List.length window = 20
      /\ exists older, history = (older ++ window)%list)
  /\ (List.length history <= 20 -> window = history).
Proof.
  cbv zeta. split; [apply attempt_requests|]. split; [reflexivity|].
  split; [rewrite sliceLast_length; lia|]. split.
  - intros Hlen. split; [rewrite sliceLast_length; lia|].
    eexists. apply sliceLast_suffix.
  - apply sliceLast_short.
Qed.

(** C8, refuted as stated: in the second exchange of a conversation whose
    first answer named a model, the body sent carries that model inside the
    assistant message, so it is not the body of role-and-content pairs. *)
Lemma C8_counterexample :
  map req_body (requests (snd (sendMessage (fun _ => okResponse modelStream)
                                           secondTurn)))
  = [jq "{'model':'cheapest','messages':[{'role':'user','content':'hi'}]}";
     jq ("{'model':'cheapest','messages':[{'role':'user','content':'hi'},"
         ++ "{'role':'assistant','content':'Hello','model':'m1'},"
         ++ "{'role':'user','content':'again'}]}")]
  /\ JsString.eqb
       (req_body (requestOf (userTurn secondTurn)))
       (Json.stringify
          (specRequestBody
             (sliceLast 20 (conversationHistory (userTurn secondTurn)))))
     = false.
Proof. vm_compute. split; reflexivity. Qed.

(** C8, as the code has it.  The body of every request is the object with
    [model: "cheapest"] and, as [messages], the entries of the history
    window as they are stored: an entry without a model, such as every
    message that [sendMessage] appends, gives role and content only; an
    entry with a model, such as the assistant message appended after a
    completed stream, gives role, content and model. *)
Theorem C8_request_body (network : nat -> fetchResult) (w : World) :
  let window := sliceLast 20 (conversationHistory w) in
  requests (snd (handleStreamingResponse network w))
  = (requests w ++ [requestOf w])%list
  /\ req_body (requestOf w)
     = Json.stringify
         (Json.Obj [(js "model", Json.Str (js "cheapest"));
                    (js "messages", Json.Arr (map messageJson window))])
  /\ (forall m, In m window ->
        match model m with
        | None => messageJson m = roleAndContent m
        | Some v =>
            messageJson m
            = Json.Obj [(js "role", Json.Str (role m));
                        (js "content", Json.Str (content m));
                        (js "model", v)]
        end)
  /\ (forall w0, model (userMessage w0) = None)
  /\ (forall pending, model (assistantOf pending) = Some (streamModel pending)).
Proof.
  cbv zeta. split; [apply attempt_requests|]. split; [reflexivity|].
  split; [|split; reflexivity].
  intros m _. unfold messageJson, roleAndContent.
  destruct (model m); reflexivity.
Qed.

(** ** Whole exchanges *)

Section Exchange.

Variable network : nat -> fetchResult.

(** The state in which attempt [k + 1] of an exchange starts, after [k]
    failed attempts. *)
Lemma exchange_attempt w k :
  JsString.trim (inputValue w) <> [] ->
  k < 3 ->
  (forall i, i < k -> failsAt network (List.length (requests w) + i)) ->
  exists n wk,
    sendMessage network w
    = match handleStreamingResponseWithRetry network n wk with
      | (Normal true, w1) => (Normal tt, finished w1)
      | (Normal false, w1) => (Normal tt, finished (rolledBack w1))
      | (Throw e, w1) => (Throw e, finished w1)
      end
    /\ conversationHistory wk = (conversationHistory w ++ [userMessage w])%list
    /\ localStorage wk = localStorage (userTurn w)
    /\ List.length (requests wk) = List.length (requests w) + k.
Proof.
  intros Hne Hk Hfail.
  exists (fst (afterFailures k 1 (begun (userTurn w)))),
         (snd (afterFailures k 1 (begun (userTurn w)))).
  destruct (afterFailures_frame k 1 (begun (userTurn w))) as (Hh & Hs & Hr & _).
  cbv zeta in Hh, Hs, Hr. split; [|split; [|split]].
  - rewrite (sendMessage_unfold network w Hne), sendWrapper_unfold.
    rewrite (retry_after_failures network k 1 (begun (userTurn w))).
    + reflexivity.
    + change (Pos.to_nat 1) with 1. lia.
    + intros i Hi. cbn [requests begun setTypingIndicator setInput].
      rewrite userTurn_requests. apply Hfail. exact Hi.
  - rewrite Hh. cbn [conversationHistory begun setTypingIndicator setInput].
    apply userTurn_history.
  - rewrite Hs. reflexivity.
  - rewrite Hr. cbn [requests begun setTypingIndicator setInput].
    rewrite userTurn_requests. reflexivity.
Qed.

(** An exchange whose attempt [k + 1] reads a stream to its end. *)
Lemma exchange_completed w k r stream :
  JsString.trim (inputValue w) <> [] ->
  k < 3 ->
  (forall i, i < k -> failsAt network (List.length (requests w) + i)) ->
  network (List.length (requests w) + k) = Responded r ->
  ok r = true -> body r = Some stream -> readFails stream = false ->
  exists w1,
    sendMessage network w
    = (Normal tt, finished (completedWith (chunks stream) w1))
    /\ conversationHistory w1 = (conversationHistory w ++ [userMessage w])%list
    /\ localStorage w1 = localStorage (userTurn w).
Proof.
  intros Hne Hk Hfail Hnet Hok Hbody Hfails.
  destruct (exchange_attempt w k Hne Hk Hfail) as (n & wk & Hrun & Hh & Hs & Hr).
  rewrite <- Hr in Hnet.
  destruct (attempt_completed network wk r stream Hnet Hok Hbody Hfails)
    as (w1 & Hcore & Hattempt).
  exists w1. rewrite Hrun, retry_unfold, Hattempt. split; [reflexivity|].
  rewrite (core_history _ _ Hcore), (core_localStorage _ _ Hcore).
  split; assumption.
Qed.

End Exchange.

(** C9. When the stream of the first attempt ends with an empty
    reconstructed text, the coordinator reports success, the submit handler
    ends normally, and the history and the stored item are exactly those
    left by the user turn: the history is the former one followed by the
    user message, and no assistant message is appended or saved. *)
Theorem C9_empty_completion (network : nat -> fetchResult) (w : World)
        (r : response) (stream : bodyStream) :
  JsString.trim (inputValue w) <> [] ->
  network (List.length (requests w)) = Responded r ->
  ok r = true -> body r = Some stream -> readFails stream = false ->
  streamText (chunks stream) = [] ->
  fst (handleStreamingResponseWithRetry network 1 (begun (userTurn w)))
  = Normal true
  /\ exists w',
       sendMessage network w = (Normal tt, w')
       /\ conversationHistory w' = conversationHistory (userTurn w)
       /\ conversationHistory w'
          = (conversationHistory w ++ [userMessage w])%list
       /\ localStorage w' = localStorage (userTurn w).
Proof.
  intros Hne Hnet Hok Hbody Hfails Hempty. split.
  - assert (Hnet' : network (List.length (requests (begun (userTurn w))))
                    = Responded r).
    { cbn [requests begun setTypingIndicator setInput].
      rewrite userTurn_requests. exact Hnet. }
    destruct (attempt_completed network (begun (userTurn w)) r stream
                Hnet' Hok Hbody Hfails) as (w1 & _ & Hattempt).
    rewrite retry_unfold, Hattempt. reflexivity.
  - rewrite <- (Nat.add_0_r (List.length (requests w))) in Hnet.
    destruct (exchange_completed network w 0 r stream Hne) as (w1 & Hrun & Hh & Hs);
      try assumption; [lia | intros i Hi; lia |].
    eexists. split; [exact Hrun|].
    unfold completedWith. rewrite Hempty.
    cbn [JsString.isEmpty conversationHistory localStorage finished setInput
           setTypingIndicator].
    rewrite userTurn_history. repeat split; assumption.
Qed.

Lemma C9_empty_completion_witness :
  fst (handleStreamingResponseWithRetry
         (fun _ => okResponse [lineOf "{'Credits':3}"]) 1
         (begun (userTurn (freshPage "hi"))))
  = Normal true
  /\ exists w',
       sendMessage (fun _ => okResponse [lineOf "{'Credits':3}"])
                   (freshPage "hi") = (Normal tt, w')
       /\ conversationHistory w' = conversationHistory (userTurn (freshPage "hi"))
       /\ conversationHistory w'
          = (conversationHistory (freshPage "hi")
             ++ [userMessage (freshPage "hi")])%list
       /\ localStorage w' = localStorage (userTurn (freshPage "hi")).
Proof.
  apply (C9_empty_completion
           (fun _ => okResponse [lineOf "{'Credits':3}"]) (freshPage "hi")
           {| ok := true; location := None;
              body := Some {| chunks := [lineOf "{'Credits':3}"];
                              readFails := false |} |}
           {| chunks := [lineOf "{'Credits':3}"]; readFails := false |});
    try reflexivity.
  vm_compute. discriminate.
Defined.

(** C1, refuted as stated: an exchange whose stream ends without text
    succeeds, yet the history is the former one followed by the user
    message alone; no assistant message is appended. *)
Lemma C1_counterexample :
  let run := sendMessage (fun _ => okResponse [lineOf "{'Credits':3}"])
                         (freshPage "hi") in
  fst (handleStreamingResponseWithRetry
         (fun _ => okResponse [lineOf "{'Credits':3}"]) 1
         (begun (userTurn (freshPage "hi")))) = Normal true
  /\ fst run = Normal tt
  /\ conversationHistory (snd run)
     = [{| role := js "user"; content := js "hi"; model := None |}]
  /\ List.length (conversationHistory (snd run))
     = List.length (conversationHistory (freshPage "hi")) + 1.
Proof. vm_compute. repeat split; reflexivity. Qed.

(** C1, as the code has it.  An exchange starts by appending the user
    message.  When three attempts fail, the submit handler removes that
    message again and the history is the one before the send, after three
    requests.  When an attempt, after fewer than three failed ones, reads
    its stream to the end, the history is the former one, the user message
    and, exactly when the reconstructed text is not empty, one assistant
    message holding that text and the last model seen.  When an attempt is
    answered by a redirect signal, the history is the former one and the
    user message. *)
Theorem C1_exchange_outcome (network : nat -> fetchResult) (w : World) :
  JsString.trim (inputValue w) <> [] ->
  ((forall i, i < 3 -> failsAt network (List.length (requests w) + i)) ->
   exists w',
     sendMessage network w = (Normal tt, w')
     /\ conversationHistory w' = conversationHistory w
     /\ List.length (requests w') = List.length (requests w) + 3)
  /\ (forall k r stream,
        k < 3 ->
        (forall i, i < k -> failsAt network (List.length (requests w) + i)) ->
        network (List.length (requests w) + k) = Responded r ->
        ok r = true -> body r = Some stream -> readFails stream = false ->
        exists w',
          sendMessage network w = (Normal tt, w')
          /\ conversationHistory w'
             = (conversationHistory w
                ++ userMessage w
                   :: if JsString.isEmpty (streamText (chunks stream)) then []
                      else [assistantOf (chunks stream)])%list)
  /\ (forall k r target,
        k < 3 ->
        (forall i, i < k -> failsAt network (List.length (requests w) + i)) ->
        network (List.length (requests w) + k) = Responded r ->
        redirectSignal r target ->
        exists w',
          sendMessage network w = (Normal tt, w')
          /\ conversationHistory w'
             = (conversationHistory w ++ [userMessage w])%list).
Proof.
  intros Hne. split; [|split].
  - intros Hfail.
    rewrite (sendMessage_unfold network w Hne), sendWrapper_unfold.
    rewrite retry_exhausted.
    2:{ intros i Hi. cbn [requests begun setTypingIndicator setInput].
        rewrite userTurn_requests. apply Hfail. exact Hi. }
    eexists. split; [reflexivity|].
    rewrite finished_conversationHistory, finished_requests.
    split.
    + apply rolledBack_userTurn with (m := userMessage w); [|reflexivity].
      autorewrite with page. apply userTurn_history.
    + rewrite rolledBack_requests. autorewrite with page.
      rewrite !length_app, userTurn_requests. cbn [List.length]. lia.
  - intros k r stream Hk Hfail Hnet Hok Hbody Hfails.
    destruct (exchange_completed network w k r stream Hne Hk Hfail Hnet Hok
                Hbody Hfails) as (w1 & Hrun & Hh & _).
    eexists. split; [exact Hrun|].
    cbn [conversationHistory finished setInput setTypingIndicator].
    rewrite completedWith_history, Hh, <- app_assoc. reflexivity.
  - intros k r target Hk Hfail Hnet Hsig.
    destruct (exchange_attempt network w k Hne Hk Hfail)
      as (n & wk & Hrun & Hh & _ & Hr).
    rewrite <- Hr in Hnet.
    eexists. split.
    + rewrite Hrun, retry_unfold,
        (attempt_redirect network wk r target Hnet Hsig). reflexivity.
    + cbn [conversationHistory finished setInput setTypingIndicator setHref
             setMessagesContainer sent setRequests].
      exact Hh.
Qed.

Lemma C1_exchange_outcome_witness :
  exists w',
    sendMessage (fun _ => failureResponse) (freshPage "hi") = (Normal tt, w')
    /\ conversationHistory w' = conversationHistory (freshPage "hi")
    /\ List.length (requests w')
       = List.length (requests (freshPage "hi")) + 3.
Proof.
  refine (proj1 (C1_exchange_outcome (fun _ => failureResponse)
                   (freshPage "hi") _) _).
  - vm_compute. discriminate.
  - intros i _. exists {| ok := false; location := None; body := None |}.
    split; [reflexivity | split; reflexivity].
Defined.

(** C7, refuted as stated: a record cut in the middle by a chunk boundary,
    between two ASCII bytes or inside the two-byte character of its text,
    is lost: both fragments are handled as lines, both give a warning, and
    the reconstructed text is empty instead of the text of the stream taken
    as one chunk. *)
Lemma C7_counterexample :
  let whole := [lineOf "{'message':{'content':'Hel'}}"] in
  let cut := [bytesOf "{'message':{'con"; lineOf "tent':'Hel'}}"] in
  let accented :=
    [(bytesOf "{'message':{'content':'caf" ++ [xc3; xa9] ++ lineOf "'}}")%list] in
  let accentedCut :=
    [(bytesOf "{'message':{'content':'caf" ++ [xc3])%list; xa9 :: lineOf "'}}"] in
  List.concat cut = List.concat whole
  /\ streamText whole = js "Hel"
  /\ streamText cut = []
  /\ List.length (consoleWarnings
                    (snd (handleStreamingResponse
                            (fun _ => okResponse whole) (freshPage "")))) = 0
  /\ List.length (consoleWarnings
                    (snd (handleStreamingResponse
                            (fun _ => okResponse cut) (freshPage "")))) = 2
  /\ List.concat accentedCut = List.concat accented
  /\ streamText accented = (js "caf" ++ [233%N])%list
  /\ streamText accentedCut = []
  /\ List.length (consoleWarnings
                    (snd (handleStreamingResponse
                            (fun _ => okResponse accentedCut) (freshPage ""))))
     = 2.
Proof. vm_compute. repeat split; reflexivity. Qed.

(** C7, as the code has it.  The streaming decoder absorbs a chunk
    boundary wherever it falls, also inside a multi-byte character: the
    texts of two consecutive chunks concatenate to the text of both taken
    as one.  Lines, however, are split chunk by chunk.  When every chunk
    ends where a line ends, the stream is read exactly as the same bytes in
    one chunk: same page, same reconstructed text and model, same warnings,
    and the attempt ends in the same state.  A boundary elsewhere makes two
    lines of one: the last line of the chunk before it and the first line
    of the chunk after it are handled apart, where the two chunks taken as
    one have the single line made of both.  When neither fragment is blank
    or valid JSON, each is reported as malformed and the line that they
    make is not handled: the text is reconstructed from the other lines
    alone.  This is the case of every boundary strictly inside one of the
    three records of the example stream, whatever lines come before and
    after it: the two fragments are reported, and the text, the model and
    the credits notices are those of the stream without the record. *)
Theorem C7_chunk_boundaries :
  (forall d c1 c2,
      fst (TextDecoder.decode d (c1 ++ c2))
      = (fst (TextDecoder.decode d c1)
           ++ fst (TextDecoder.decode (snd (TextDecoder.decode d c1)) c2))%list)
  /\ (forall pending fails s,
         Forall alignedChunk pending ->
         readStreamChunk pending fails TextDecoder.create s
         = readStreamChunk [List.concat pending] fails TextDecoder.create s)
  /\ (forall pending,
         Forall alignedChunk pending ->
         streamText pending = streamText [List.concat pending]
         /\ streamModel pending = streamModel [List.concat pending])
  /\ (forall network network' w pending fails,
         Forall alignedChunk pending ->
         network (List.length (requests w))
         = Responded {| ok := true; location := None;
                        body := Some {| chunks := pending;
                                        readFails := fails |} |} ->
         network' (List.length (requests w))
         = Responded {| ok := true; location := None;
                        body := Some {| chunks := [List.concat pending];
                                        readFails := fails |} |} ->
         handleStreamingResponse network w = handleStreamingResponse network' w)
  /\ (forall d c1 c2 rest,
         let t1 := fst (TextDecoder.decode d c1) in
         let d1 := snd (TextDecoder.decode d c1) in
         let t2 := fst (TextDecoder.decode d1 c2) in
         let d2 := snd (TextDecoder.decode d1 c2) in
         linesOf (c1 :: c2 :: rest) d
         = (earlierLines t1
              ++ lastLine t1 :: firstLine t2 :: laterLines t2
              ++ linesOf rest d2)%list
         /\ linesOf ((c1 ++ c2) :: rest) d
            = (earlierLines t1
                 ++ (lastLine t1 ++ firstLine t2) :: laterLines t2
                 ++ linesOf rest d2)%list
         /\ (malformed (lastLine t1) = true ->
             malformed (firstLine t2) = true ->
             (forall fails s,
                 readStreamChunk (c1 :: c2 :: rest) fails d s
                 = (forOf (earlierLines t1) handleLine ;;
                    warnMalformed (lastLine t1) ;;
                    warnMalformed (firstLine t2) ;;
                    forOf (laterLines t2 ++ linesOf rest d2) handleLine ;;
                    finish fails) s)
             /\ forall acc,
                 reconstruct (c1 :: c2 :: rest) d acc
                 = fold_left (fun a line => absorb line a)
                             (earlierLines t1 ++ laterLines t2
                                ++ linesOf rest d2) acc))
  /\ (forall before n l after,
         isRecord l = true -> inside n l ->
         List.concat (cutInside before n l after)
         = chunkOfLines (before ++ l :: after)
         /\ malformed (fragmentBefore n l) = true
         /\ malformed (fragmentAfter n l) = true
         /\ (forall fails s,
                readStreamChunk (cutInside before n l after) fails
                                TextDecoder.create s
                = (forOf (textsOf before) handleLine ;;
                   warnMalformed (fragmentBefore n l) ;;
                   warnMalformed (fragmentAfter n l) ;;
                   forOf (textsOf after) handleLine ;;
                   finish fails) s)
         /\ streamText (cutInside before n l after)
            = streamText [chunkOfLines (before ++ after)]
         /\ streamModel (cutInside before n l after)
            = streamModel [chunkOfLines (before ++ after)]
         /\ flat_map creditNotice
              (linesOf (cutInside before n l after) TextDecoder.create)
            = flat_map creditNotice
                (linesOf [chunkOfLines (before ++ after)] TextDecoder.create)).
Proof.
  split; [|split; [|split; [|split; [|split]]]].
  - intros d c1 c2. rewrite decode_app. reflexivity.
  - intros pending fails s Hall.
    apply readStreamChunk_aligned; [apply create_valid | exact Hall].
  - intros pending Hall.
    pose proof (streamText_read pending (freshPage "")) as Hcut.
    pose proof (streamText_read [List.concat pending] (freshPage "")) as Hwhole.
    rewrite (readStreamChunk_aligned pending false TextDecoder.create
               (freshPage "", initialLocals) create_valid Hall) in Hcut.
    rewrite <- Hwhole in Hcut. split; congruence.
  - intros network network' w pending fails Hall Hnet Hnet'.
    rewrite (attempt_stream network w _ _ Hnet eq_refl eq_refl).
    rewrite (attempt_stream network' w _ _ Hnet' eq_refl eq_refl).
    cbn [chunks readFails].
    rewrite (readStreamChunk_aligned pending fails TextDecoder.create
               (sent w, initialLocals) create_valid Hall).
    reflexivity.
  - intros d c1 c2 rest. cbv zeta.
    split; [exact (proj1 (linesOf_boundary d c1 c2 rest))|].
    split; [exact (proj2 (linesOf_boundary d c1 c2 rest))|].
    intros H1 H2. split.
    + intros fails s.
      exact (readStreamChunk_boundary d c1 c2 rest fails s H1 H2).
    + intros acc. exact (reconstruct_boundary d c1 c2 rest acc H1 H2).
  - intros before n l after Hrecord Hn.
    split; [apply cutInside_concat|].
    split; [exact (proj1 (fragments_malformed n l Hrecord Hn))|].
    split; [exact (proj2 (fragments_malformed n l Hrecord Hn))|].
    split; [intros fails s; apply readStreamChunk_cutInside; assumption|].
    unfold streamText, streamModel.
    rewrite (reconstruct_cutInside before n l after _ Hrecord Hn).
    split; [reflexivity|]. split; [reflexivity|].
    apply notices_cutInside; assumption.
Qed.

Lemma C7_chunk_boundaries_witness :
  let aligned := [lineOf "{'message':{'content':'Hel'}}"; [];
                  (lineOf "not json" ++ lineOf "{'model':'m'}")%list] in
  (Forall alignedChunk aligned
   /\ streamText aligned = streamText [List.concat aligned])
  /\ isRecord ContentHel = true
  /\ inside 16 ContentHel
  /\ streamText (cutInside [NotJson] 16 ContentHel [ContentLo; CreditsRecord])
     = streamText [chunkOfLines [NotJson; ContentLo; CreditsRecord]]
  /\ flat_map creditNotice
       (linesOf (cutInside [ContentHel; ContentLo] 5 CreditsRecord [])
                TextDecoder.create)
     = flat_map creditNotice
         (linesOf [chunkOfLines [ContentHel; ContentLo]] TextDecoder.create).
Proof.
  cbv zeta.
  assert (Haligned :
            Forall alignedChunk
                   [lineOf "{'message':{'content':'Hel'}}"; [];
                    (lineOf "not json" ++ lineOf "{'model':'m'}")%list]).
  { apply Forall_cons; [right; eexists; reflexivity|].
    apply Forall_cons; [left; reflexivity|].
    apply Forall_cons; [|apply Forall_nil].
    right. unfold lineOf. rewrite app_assoc. eexists. reflexivity. }
  assert (Hhel : inside 16 ContentHel) by (unfold inside; vm_compute; lia).
  assert (Hcredits : inside 5 CreditsRecord)
    by (unfold inside; vm_compute; lia).
  destruct C7_chunk_boundaries as (_ & _ & Htext & _ & _ & Hcut).
  destruct (Hcut [NotJson] 16 ContentHel [ContentLo; CreditsRecord]
                 eq_refl Hhel) as (_ & _ & _ & _ & Hlost & _ & _).
  destruct (Hcut [ContentHel; ContentLo] 5 CreditsRecord [] eq_refl Hcredits)
    as (_ & _ & _ & _ & _ & _ & Hnotice).
  split; [split; [exact Haligned | exact (proj1 (Htext _ Haligned))]|].
  split; [reflexivity|]. split; [exact Hhel|].
  split; [exact Hlost | exact Hnotice].
Defined.

(** C3, refuted as stated: the three records, each on a line of its own,
    give "Hello" and the credits notice when they arrive in one chunk, but
    not however they arrive.  With a chunk boundary inside the first record
    the same bytes give the text "lo" and two warnings; with a chunk
    boundary inside the third record they give "Hello" and no credits
    notice. *)
Lemma C3_counterexample :
  let whole :=
    [(lineOf "{'message':{'content':'Hel'}}"
        ++ lineOf "{'message':{'content':'lo'}}"
        ++ lineOf "{'Credits':3}")%list] in
  let cutFirst :=
    [bytesOf "{'message':{'con";
     (lineOf "tent':'Hel'}}"
        ++ lineOf "{'message':{'content':'lo'}}"
        ++ lineOf "{'Credits':3}")%list] in
  let cutThird :=
    [(lineOf "{'message':{'content':'Hel'}}"
        ++ lineOf "{'message':{'content':'lo'}}"
        ++ bytesOf "{'Cred")%list;
     lineOf "its':3}"] in
  let attempt pending :=
    snd (handleStreamingResponse (fun _ => okResponse pending) (freshPage "")) in
  whole = [chunkOfLines [ContentHel; ContentLo; CreditsRecord]]
  /\ streamText whole = js "Hello"
  /\ statusLog (attempt whole) = [js "Credits used: 3"]
  /\ consoleWarnings (attempt whole) = []
  /\ List.concat cutFirst = List.concat whole
  /\ streamText cutFirst = js "lo"
  /\ map content (conversationHistory (attempt cutFirst)) = [js "lo"]
  /\ statusLog (attempt cutFirst) = [js "Credits used: 3"]
  /\ map fst (consoleWarnings (attempt cutFirst))
     = [[js "Error parsing streaming response:"; jq "{'message':{'con"];
        [js "Error parsing streaming response:"; jq "tent':'Hel'}}"]]
  /\ List.concat cutThird = List.concat whole
  /\ streamText cutThird = js "Hello"
  /\ map content (conversationHistory (attempt cutThird)) = [js "Hello"]
  /\ statusLog (attempt cutThird) = []
  /\ map fst (consoleWarnings (attempt cutThird))
     = [[js "Error parsing streaming response:"; jq "{'Cred"];
        [js "Error parsing streaming response:"; jq "its':3}"]].
Proof. vm_compute. repeat split; reflexivity. Qed.

(** C3, as the code has it.  Take the records [{"message":{"content":"Hel"}}],
    [{"message":{"content":"lo"}}] and [{"Credits":3}], each on a line of
    its own, with any number of lines [not json] put anywhere between,
    before or after them, and deliver the lines in chunks of whole lines,
    grouped in any way.  The reconstructed text is "Hello", it is what the
    attempt appends to the history as the assistant message, and the one
    status notice of the attempt is "Credits used: 3". *)
Theorem C3_streamed_records (network : nat -> fetchResult) (w : World)
        (r : response) (groups : list (list streamLine)) :
  network (List.length (requests w)) = Responded r ->
  ok r = true ->
  body r = Some {| chunks := map chunkOfLines groups; readFails := false |} ->
  filter isRecord (List.concat groups)
  = [ContentHel; ContentLo; CreditsRecord] ->
  streamText (map chunkOfLines groups) = js "Hello"
  /\ exists w',
       handleStreamingResponse network w = (Normal true, w')
       /\ conversationHistory w'
          = (conversationHistory w
             ++ [{| role := js "assistant"; content := js "Hello";
                    model := Some (Json.Str []) |}])%list
       /\ statusLog w' = (statusLog w ++ [js "Credits used: 3"])%list.
Proof.
  intros Hnet Hok Hbody Hrecords.
  assert (Hpair : (streamText (map chunkOfLines groups),
                   streamModel (map chunkOfLines groups))
                  = (js "Hello", Json.Str [])).
  { unfold streamText, streamModel.
    rewrite <- surjective_pairing, reconstruct_lines, fold_absorb_significant,
      significant_lines_of_groups, fold_absorb_records, Hrecords.
    reflexivity. }
  assert (Htext : streamText (map chunkOfLines groups) = js "Hello")
    by congruence.
  assert (Hmodel : streamModel (map chunkOfLines groups) = Json.Str [])
    by congruence.
  split; [exact Htext|].
  pose proof (attempt_completed_status network w r _ Hnet Hok Hbody eq_refl)
    as Hstatus.
  destruct (attempt_completed network w r _ Hnet Hok Hbody eq_refl)
    as (w1 & Hcore & Hrun).
  cbn [chunks] in *. rewrite Hrun in *. cbn [snd] in Hstatus.
  eexists. split; [reflexivity|]. split.
  - rewrite completedWith_history, (core_history _ _ Hcore).
    unfold assistantOf. rewrite Htext, Hmodel. reflexivity.
  - rewrite Hstatus, significant_lines_of_groups, notices_of_records, Hrecords.
    reflexivity.
Qed.

Lemma C3_streamed_records_witness :
  let groups := [[NotJson; ContentHel]; []; [ContentLo; NotJson; NotJson];
                 [CreditsRecord; NotJson]] in
  streamText (map chunkOfLines groups) = js "Hello"
  /\ exists w',
       handleStreamingResponse
         (fun _ => okResponse (map chunkOfLines groups)) (freshPage "")
       = (Normal true, w')
       /\ conversationHistory w'
          = (conversationHistory (freshPage "")
             ++ [{| role := js "assistant"; content := js "Hello";
                    model := Some (Json.Str []) |}])%list
       /\ statusLog w'
          = (statusLog (freshPage "") ++ [js "Credits used: 3"])%list.
Proof.
  cbv zeta.
  apply (C3_streamed_records
           (fun _ => okResponse
                       (map chunkOfLines
                            [[NotJson; ContentHel]; [];
                             [ContentLo; NotJson; NotJson];
                             [CreditsRecord; NotJson]]))
           (freshPage "")
           {| ok := true; location := None;
              body := Some {| chunks :=
                                map chunkOfLines
                                    [[NotJson; ContentHel]; [];
                                     [ContentLo; NotJson; NotJson];
                                     [CreditsRecord; NotJson]];
                              readFails := false |} |}
           [[NotJson; ContentHel]; []; [ContentLo; NotJson; NotJson];
            [CreditsRecord; NotJson]]); reflexivity.
Defined.

(** * Further properties of the page script *)

(** ** Every way an attempt can end *)

Lemma attempt_cases (network : nat -> fetchResult) (w : World) :
  attemptResult w (fst (handleStreamingResponse network w))
                  (snd (handleStreamingResponse network w)).
Proof.
  destruct (network (List.length (requests w))) as [|r] eqn:Hnet.
  - rewrite (attempt_rejected network w Hnet). constructor.
  - destruct (ok r) eqn:Hok.
    + destruct (body r) as [stream|] eqn:Hbody.
      * destruct (readFails stream) eqn:Hfails.
        -- destruct (attempt_read_rejected network w r stream Hnet Hok Hbody Hfails)
             as (w1 & Hcore & Hrun).
           rewrite Hrun. constructor. exact Hcore.
        -- destruct (attempt_completed network w r stream Hnet Hok Hbody Hfails)
             as (w1 & Hcore & Hrun).
           rewrite Hrun. constructor. exact Hcore.
      * rewrite (attempt_no_body network w r Hnet Hok Hbody). constructor.
    + destruct (location r) as [[|c target]|] eqn:Hloc.
      * rewrite (attempt_failed network w r Hnet); [constructor|].
        split; [exact Hok | rewrite Hloc; reflexivity].
      * rewrite (attempt_redirect network w r (c :: target) Hnet).
        -- constructor. discriminate.
        -- split; [exact Hok | split; [exact Hloc | discriminate]].
      * rewrite (attempt_failed network w r Hnet); [constructor|].
        split; [exact Hok | rewrite Hloc; reflexivity].
Qed.

Lemma attemptResult_requests w res w' :
  attemptResult w res w' -> requests w' = (requests w ++ [requestOf w])%list.
Proof.
  intros [ | | target _ | | w1 Hcore | pending w1 Hcore]; try reflexivity.
  - rewrite (core_requests _ _ Hcore). reflexivity.
  - rewrite completedWith_requests, (core_requests _ _ Hcore). reflexivity.
Qed.

Lemma attemptResult_sleeps w res w' :
  attemptResult w res w' -> sleeps w' = sleeps w.
Proof.
  intros [ | | target _ | | w1 Hcore | pending w1 Hcore]; try reflexivity.
  - rewrite (core_sleeps _ _ Hcore). reflexivity.
  - rewrite completedWith_sleeps, (core_sleeps _ _ Hcore). reflexivity.
Qed.

Lemma attemptResult_false w w' :
  attemptResult w (Normal false) w' -> w' = sent w.
Proof.
  intros H. inversion H. reflexivity.
Qed.

Lemma requestOf_sent w : requestOf (sent w) = requestOf w.
Proof. reflexivity. Qed.

Lemma requestOf_backedOff n w : requestOf (backedOff n w) = requestOf w.
Proof. reflexivity. Qed.

Lemma delaysFrom_first k :
  k <= 2 -> delaysFrom 1 k = firstn k [1000; 2000]%Z.
Proof.
  intros Hk. destruct k as [|[|[|k]]]; try reflexivity. lia.
Qed.

Section Trace.

Variable network : nat -> fetchResult.

(** From attempt [attemptNumber] on, with [j] attempts remaining after it:
    one request per attempt, all equal, and the waits of the schedule. *)
Lemma retry_trace j attemptNumber w :
  Pos.to_nat attemptNumber + j = 3 ->
  exists k,
    k <= j
    /\ requests (snd (handleStreamingResponseWithRetry network attemptNumber w))
       = (requests w ++ repeat (requestOf w) (S k))%list
    /\ sleeps (snd (handleStreamingResponseWithRetry network attemptNumber w))
       = (sleeps w ++ delaysFrom attemptNumber k)%list.
Proof.
  revert attemptNumber w; induction j as [|j IH]; intros n w Hn;
    rewrite retry_unfold;
    pose proof (attempt_cases network w) as Hcase;
    destruct (handleStreamingResponse network w) as [[[|]|e] w1];
    cbn [fst snd] in Hcase.
  1,3,4,6:
    exists 0; split; [lia|]; cbn [snd repeat delaysFrom];
    rewrite (attemptResult_requests _ _ _ Hcase), (attemptResult_sleeps _ _ _ Hcase),
      app_nil_r; split; reflexivity.
  - (* the last attempt fails *)
    assert (Hlt : Pos.ltb n MAX_RETRY_ATTEMPTS = false).
    { apply Pos.ltb_ge, Pos2Nat.inj_le.
      change (Pos.to_nat MAX_RETRY_ATTEMPTS) with 3. lia. }
    rewrite Hlt. exists 0. split; [lia|]. cbn [snd repeat delaysFrom].
    rewrite exhausted_requests, exhausted_sleeps,
      (attemptResult_requests _ _ _ Hcase), (attemptResult_sleeps _ _ _ Hcase), app_nil_r.
    split; reflexivity.
  - (* a failed attempt with attempts remaining *)
    assert (Hlt : Pos.ltb n MAX_RETRY_ATTEMPTS = true).
    { apply Pos.ltb_lt, Pos2Nat.inj_lt.
      change (Pos.to_nat MAX_RETRY_ATTEMPTS) with 3. lia. }
    rewrite Hlt. apply attemptResult_false in Hcase. subst w1.
    destruct (IH (n + 1)%positive (backedOff n (sent w))) as (k & Hk & Hreq & Hsl).
    { rewrite Pos2Nat.inj_add. change (Pos.to_nat 1) with 1. lia. }
    exists (S k). split; [lia|].
    rewrite Hreq, Hsl, backedOff_requests, backedOff_sleeps, sent_requests,
      sent_sleeps, requestOf_backedOff, requestOf_sent, <- !app_assoc.
    split; reflexivity.
Qed.

End Trace.

(** X1. Whatever the network does (responses, rejections, missing bodies),
    one run of the coordinator sends at least one and at most three
    requests, all of them equal to the request built from the state it
    started in, and the waits between them are 1000 ms and then 2000 ms. *)
Theorem exchange_requests_and_waits (network : nat -> fetchResult) (w : World) :
  exists k,
    k <= 2
    /\ requests (snd (handleStreamingResponseWithRetry network 1 w))
       = (requests w ++ repeat (requestOf w) (S k))%list
    /\ sleeps (snd (handleStreamingResponseWithRetry network 1 w))
       = (sleeps w ++ firstn k [1000; 2000]%Z)%list.
Proof.
  destruct (retry_trace network 2 1 w eq_refl) as (k & Hk & Hreq & Hsl).
  exists k. rewrite <- (delaysFrom_first k Hk). repeat split; assumption.
Qed.

(** ** The conversation across an exchange *)

Lemma core_conversation w w' : core w = core w' -> conversation w = conversation w'.
Proof. unfold core, conversation; congruence. Qed.

Lemma attemptResult_exchange w res w' :
  attemptResult w res w' -> exchangeResult w res w'.
Proof.
  intros [ | | target _ | | w1 Hcore | pending w1 Hcore];
    try (apply ExchangeKept; reflexivity).
  - apply ExchangeKept. rewrite (core_conversation _ _ Hcore). reflexivity.
  - destruct (JsString.isEmpty (streamText pending)) eqn:Hempty.
    + apply ExchangeKept. unfold completedWith. rewrite Hempty.
      rewrite (core_conversation _ _ Hcore). reflexivity.
    + apply ExchangeAnswered; [|exact Hempty].
      rewrite (core_conversation _ _ Hcore). reflexivity.
Qed.

Lemma exchangeResult_from w0 w res w' :
  conversation w = conversation w0 ->
  exchangeResult w res w' -> exchangeResult w0 res w'.
Proof.
  intros Hw [res' w'' Hkept | pending w1 Hkept Hne].
  - apply ExchangeKept. congruence.
  - apply ExchangeAnswered; [congruence | exact Hne].
Qed.

Lemma exchangeResult_false w w' :
  exchangeResult w (Normal false) w' -> conversation w' = conversation w.
Proof. intros H. inversion H; assumption. Qed.

Lemma exchangeResult_thrown w e w' :
  exchangeResult w (Throw e) w' -> conversation w' = conversation w.
Proof. intros H. inversion H; assumption. Qed.

Section Outcome.

Variable network : nat -> fetchResult.

(** Failed and thrown attempts leave the conversation alone; at most one
    attempt, the last one made, appends to it. *)
Lemma retry_outcome j attemptNumber w :
  Pos.to_nat attemptNumber + j = 3 ->
  exchangeResult w
    (fst (handleStreamingResponseWithRetry network attemptNumber w))
    (snd (handleStreamingResponseWithRetry network attemptNumber w)).
Proof.
  revert attemptNumber w; induction j as [|j IH]; intros n w Hn;
    rewrite retry_unfold;
    pose proof (attempt_cases network w) as Hcase;
    destruct (handleStreamingResponse network w) as [[[|]|e] w1];
    cbn [fst snd] in Hcase.
  1,3,4,6: apply attemptResult_exchange; exact Hcase.
  - assert (Hlt : Pos.ltb n MAX_RETRY_ATTEMPTS = false).
    { apply Pos.ltb_ge, Pos2Nat.inj_le.
      change (Pos.to_nat MAX_RETRY_ATTEMPTS) with 3. lia. }
    rewrite Hlt. apply attemptResult_false in Hcase. subst w1.
    apply ExchangeKept. reflexivity.
  - assert (Hlt : Pos.ltb n MAX_RETRY_ATTEMPTS = true).
    { apply Pos.ltb_lt, Pos2Nat.inj_lt.
      change (Pos.to_nat MAX_RETRY_ATTEMPTS) with 3. lia. }
    rewrite Hlt. apply attemptResult_false in Hcase. subst w1.
    apply exchangeResult_from with (w := backedOff n (sent w)); [reflexivity|].
    apply IH. rewrite Pos2Nat.inj_add. change (Pos.to_nat 1) with 1. lia.
Qed.

End Outcome.

Lemma saved_conversationHistory_mirrored w :
  storageFull w = false -> mirrored (saved w).
Proof.
  intros Hfull. unfold mirrored, saved. rewrite Hfull. reflexivity.
Qed.

Lemma saved_storageFull w : storageFull (saved w) = storageFull w.
Proof.
  unfold saved. destruct (storageFull w) eqn:Hfull;
    cbn [storageFull setConsoleWarnings setLocalStorage]; exact Hfull.
Qed.

Lemma saved_full w : storageFull w = true -> localStorage (saved w) = localStorage w.
Proof. intros Hfull. unfold saved. rewrite Hfull. reflexivity. Qed.

Lemma conversation_history w w' :
  conversation w = conversation w' ->
  conversationHistory w = conversationHistory w'.
Proof. unfold conversation; congruence. Qed.

Lemma conversation_localStorage w w' :
  conversation w = conversation w' -> localStorage w = localStorage w'.
Proof. unfold conversation; congruence. Qed.

Lemma conversation_storageFull w w' :
  conversation w = conversation w' -> storageFull w = storageFull w'.
Proof. unfold conversation; congruence. Qed.

Lemma mirrored_conversation w w' :
  conversation w = conversation w' -> mirrored w' -> mirrored w.
Proof.
  unfold mirrored. intros Hc Hm.
  rewrite (conversation_localStorage _ _ Hc), (conversation_history _ _ Hc).
  exact Hm.
Qed.

Lemma userTurn_storageFull w : storageFull (userTurn w) = storageFull w.
Proof. unfold userTurn. rewrite saved_storageFull. reflexivity. Qed.

(** X2. Whatever the network does, a send never touches the messages
    already in the conversation: afterwards the history is the former one
    followed by nothing (the send failed and was rolled back), by the user
    message, or by the user message and one assistant message with a
    non-empty text; and when the send ends in an exception the user message
    stays as the last entry. *)
Theorem send_extends_history (network : nat -> fetchResult) (w : World) :
  JsString.trim (inputValue w) <> [] ->
  let run := sendMessage network w in
  (conversationHistory (snd run) = conversationHistory w
   \/ conversationHistory (snd run)
      = (conversationHistory w ++ [userMessage w])%list
   \/ exists pending,
        JsString.isEmpty (streamText pending) = false
        /\ conversationHistory (snd run)
           = (conversationHistory w ++ [userMessage w; assistantOf pending])%list)
  /\ (forall e, fst run = Throw e ->
        conversationHistory (snd run)
        = (conversationHistory w ++ [userMessage w])%list).
Proof.
  intros Hne. cbv zeta.
  rewrite (sendMessage_unfold network w Hne), sendWrapper_unfold.
  pose proof (retry_outcome network 2 1 (begun (userTurn w)) eq_refl) as Hout.
  assert (Hturn : conversationHistory (begun (userTurn w))
                  = (conversationHistory w ++ [userMessage w])%list).
  { rewrite begun_conversationHistory. apply userTurn_history. }
  destruct (handleStreamingResponseWithRetry network 1 (begun (userTurn w)))
    as [[[|]|e] w1]; cbn [fst snd] in *.
  - split; [|discriminate].
    rewrite finished_conversationHistory.
    inversion Hout as [res w' Hkept | pending w2 Hkept Hempty]; subst.
    + right. left. rewrite (conversation_history _ _ Hkept). exact Hturn.
    + right. right. exists pending. split; [exact Hempty|].
      rewrite completedWith_history, Hempty,
        (conversation_history _ _ Hkept), Hturn, <- app_assoc.
      reflexivity.
  - split; [|discriminate]. left.
    rewrite finished_conversationHistory.
    apply exchangeResult_false in Hout.
    apply rolledBack_userTurn with (m := userMessage w); [|reflexivity].
    rewrite (conversation_history _ _ Hout). exact Hturn.
  - apply exchangeResult_thrown in Hout.
    assert (Hh : conversationHistory (finished w1)
                 = (conversationHistory w ++ [userMessage w])%list).
    { rewrite finished_conversationHistory, (conversation_history _ _ Hout).
      exact Hturn. }
    split; [right; left; exact Hh | intros e' _; exact Hh].
Qed.

Lemma send_extends_history_witness :
  let w := freshPage " hi " in
  let run := sendMessage (fun _ => okResponse modelStream) w in
  (conversationHistory (snd run) = conversationHistory w
   \/ conversationHistory (snd run)
      = (conversationHistory w ++ [userMessage w])%list
   \/ exists pending,
        JsString.isEmpty (streamText pending) = false
        /\ conversationHistory (snd run)
           = (conversationHistory w ++ [userMessage w; assistantOf pending])%list)
  /\ (forall e, fst run = Throw e ->
        conversationHistory (snd run)
        = (conversationHistory w ++ [userMessage w])%list).
Proof.
  apply (send_extends_history (fun _ => okResponse modelStream)
                              (freshPage " hi ")).
  vm_compute. discriminate.
Defined.

(** X3. After a send, whatever its outcome, the stored item is the JSON
    text of the history as it then is, provided that the storage accepts
    writes; when it refuses them, the stored item is left as it was. *)
Theorem send_keeps_store_in_step (network : nat -> fetchResult) (w : World) :
  JsString.trim (inputValue w) <> [] ->
  (storageFull w = false -> mirrored (snd (sendMessage network w)))
  /\ (storageFull w = true ->
      localStorage (snd (sendMessage network w)) = localStorage w).
Proof.
  intros Hne.
  rewrite (sendMessage_unfold network w Hne), sendWrapper_unfold.
  pose proof (retry_outcome network 2 1 (begun (userTurn w)) eq_refl) as Hout.
  assert (Hbegun : conversation (begun (userTurn w)) = conversation (userTurn w))
    by reflexivity.
  assert (Hfull : storageFull (begun (userTurn w)) = storageFull w).
  { rewrite (conversation_storageFull _ _ Hbegun). apply userTurn_storageFull. }
  assert (Hmirror : storageFull w = false -> mirrored (begun (userTurn w))).
  { intros Hw. apply (mirrored_conversation _ _ Hbegun).
    unfold userTurn. apply saved_conversationHistory_mirrored. exact Hw. }
  assert (Hstore : storageFull w = true ->
                   localStorage (begun (userTurn w)) = localStorage w).
  { intros Hw. rewrite (conversation_localStorage _ _ Hbegun).
    unfold userTurn. rewrite saved_full; [reflexivity | exact Hw]. }
  assert (Hfinished : forall x, conversation (finished x) = conversation x)
    by reflexivity.
  destruct (handleStreamingResponseWithRetry network 1 (begun (userTurn w)))
    as [[[|]|e] w1]; cbn [fst snd] in *.
  - inversion Hout as [res w' Hkept | pending w2 Hkept Hempty]; subst.
    + split; intros Hw.
      * apply (mirrored_conversation _ _ (Hfinished w1)).
        apply (mirrored_conversation _ _ Hkept). apply Hmirror. exact Hw.
      * rewrite (conversation_localStorage _ _ (Hfinished w1)),
          (conversation_localStorage _ _ Hkept). apply Hstore. exact Hw.
    + unfold completedWith. rewrite Hempty. split; intros Hw.
      * apply (mirrored_conversation _ _ (Hfinished _)).
        apply saved_conversationHistory_mirrored.
        change (storageFull w2 = false).
        rewrite (conversation_storageFull _ _ Hkept), Hfull. exact Hw.
      * rewrite (conversation_localStorage _ _ (Hfinished _)), saved_full.
        -- change (localStorage w2 = localStorage w).
           rewrite (conversation_localStorage _ _ Hkept). apply Hstore. exact Hw.
        -- change (storageFull w2 = true).
           rewrite (conversation_storageFull _ _ Hkept), Hfull. exact Hw.
  - apply exchangeResult_false in Hout. unfold rolledBack.
    destruct (lastIsUser (conversationHistory w1)); split; intros Hw.
    + apply (mirrored_conversation _ _ (Hfinished _)).
      apply saved_conversationHistory_mirrored.
      change (storageFull w1 = false).
      rewrite (conversation_storageFull _ _ Hout), Hfull. exact Hw.
    + rewrite (conversation_localStorage _ _ (Hfinished _)), saved_full.
      * change (localStorage w1 = localStorage w).
        rewrite (conversation_localStorage _ _ Hout). apply Hstore. exact Hw.
      * change (storageFull w1 = true).
        rewrite (conversation_storageFull _ _ Hout), Hfull. exact Hw.
    + apply (mirrored_conversation _ _ (Hfinished w1)).
      apply (mirrored_conversation _ _ Hout). apply Hmirror. exact Hw.
    + rewrite (conversation_localStorage _ _ (Hfinished w1)),
        (conversation_localStorage _ _ Hout). apply Hstore. exact Hw.
  - apply exchangeResult_thrown in Hout. split; intros Hw.
    + apply (mirrored_conversation _ _ (Hfinished w1)).
      apply (mirrored_conversation _ _ Hout). apply Hmirror. exact Hw.
    + rewrite (conversation_localStorage _ _ (Hfinished w1)),
        (conversation_localStorage _ _ Hout). apply Hstore. exact Hw.
Qed.

Lemma send_keeps_store_in_step_witness :
  mirrored (snd (sendMessage (fun _ => failureResponse) (freshPage "hi"))).
Proof.
  refine (proj1 (send_keeps_store_in_step (fun _ => failureResponse)
                   (freshPage "hi") _) _).
  - vm_compute. discriminate.
  - reflexivity.
Defined.

(** ** Requests of a send *)

Lemma sendWrapper_requests (network : nat -> fetchResult) (w : World) :
  exists k,
    k <= 2
    /\ requests (snd (sendWrapper network w))
       = (requests w ++ repeat (requestOf w) (S k))%list
    /\ sleeps (snd (sendWrapper network w))
       = (sleeps w ++ firstn k [1000; 2000]%Z)%list.
Proof.
  destruct (exchange_requests_and_waits network (begun w)) as (k & Hk & Hreq & Hsl).
  exists k. split; [exact Hk|].
  rewrite sendWrapper_unfold.
  destruct (handleStreamingResponseWithRetry network 1 (begun w))
    as [[[|]|e] w1]; cbn [fst snd] in *;
    rewrite ?finished_requests, ?finished_sleeps, ?rolledBack_requests.
  1,3: split; [exact Hreq | exact Hsl].
  split; [exact Hreq|].
  unfold rolledBack. destruct (lastIsUser (conversationHistory w1));
    [rewrite saved_sleeps|]; exact Hsl.
Qed.

Lemma trimStart_blank s :
  forallb JsString.isWhiteSpace s = true -> JsString.trimStart s = [].
Proof.
  induction s as [|c s IH]; cbn [forallb JsString.trimStart]; [reflexivity|].
  intros H. apply andb_prop in H. destruct H as [Hc Hs].
  rewrite Hc. apply IH. exact Hs.
Qed.

Lemma trimStart_first s c rest :
  JsString.trimStart s = c :: rest -> JsString.isWhiteSpace c = false.
Proof.
  induction s as [|x s IH]; cbn [JsString.trimStart]; [discriminate|].
  destruct (JsString.isWhiteSpace x) eqn:Hx; [exact IH|].
  intros H. injection H as -> _. exact Hx.
Qed.

Lemma trimStart_suffix s :
  exists blanks,
    s = (blanks ++ JsString.trimStart s)%list
    /\ forallb JsString.isWhiteSpace blanks = true.
Proof.
  induction s as [|x s (blanks & Hs & Hb)]; cbn [JsString.trimStart].
  - exists []. split; reflexivity.
  - destruct (JsString.isWhiteSpace x) eqn:Hx.
    + exists (x :: blanks). cbn [app forallb]. rewrite Hx, Hb, <- Hs.
      split; reflexivity.
    + exists []. split; reflexivity.
Qed.

Lemma forallb_reversed {A} (f : A -> bool) (l : list A) :
  forallb f (rev l) = forallb f l.
Proof.
  induction l as [|x l IH]; [reflexivity|].
  cbn [rev forallb]. rewrite forallb_app, IH. cbn [forallb].
  rewrite andb_true_r. apply andb_comm.
Qed.

(** [trim] yields the empty string exactly on a string of white space. *)
Lemma trim_blank s :
  JsString.trim s = [] <-> forallb JsString.isWhiteSpace s = true.
Proof.
  unfold JsString.trim. split.
  - intros Hnil.
    destruct (trimStart_suffix s) as (b1 & Hs & Hb1).
    destruct (trimStart_suffix (rev (JsString.trimStart s))) as (b2 & Hr & Hb2).
    assert (Hinner : JsString.trimStart (rev (JsString.trimStart s)) = []).
    { apply (f_equal (@rev N)) in Hnil. rewrite rev_involutive in Hnil.
      exact Hnil. }
    rewrite Hinner, app_nil_r in Hr.
    apply (f_equal (@rev N)) in Hr. rewrite rev_involutive in Hr.
    rewrite Hs, Hr, forallb_app, Hb1, forallb_reversed, Hb2. reflexivity.
  - intros Hblank. rewrite (trimStart_blank s Hblank). reflexivity.
Qed.

(** X4. A submit with an empty input, or one made of white space only,
    does nothing at all: the page is left as it was and no request is sent.
    With any other input at least one request is sent. *)
Theorem blank_input_sends_nothing (network : nat -> fetchResult) (w : World) :
  (forallb JsString.isWhiteSpace (inputValue w) = true ->
   sendMessage network w = (Normal tt, w))
  /\ (forallb JsString.isWhiteSpace (inputValue w) = false ->
      List.length (requests w)
      < List.length (requests (snd (sendMessage network w)))).
Proof.
  split; intros Hinput.
  - apply sendMessage_blank, trim_blank. exact Hinput.
  - assert (Hne : JsString.trim (inputValue w) <> []).
    { intros Hnil. apply trim_blank in Hnil. congruence. }
    rewrite (sendMessage_unfold network w Hne).
    destruct (sendWrapper_requests network (userTurn w)) as (k & _ & Hreq & _).
    rewrite Hreq, length_app, userTurn_requests. cbn [repeat List.length]. lia.
Qed.

Lemma blank_input_sends_nothing_witness :
  sendMessage (fun _ => Rejected) (freshPage "  ")
  = (Normal tt, freshPage "  ")
  /\ List.length (requests (freshPage " hi "))
     < List.length (requests (snd (sendMessage (fun _ => Rejected)
                                               (freshPage " hi ")))).
Proof.
  split.
  - apply (proj1 (blank_input_sends_nothing (fun _ => Rejected)
                    (freshPage "  "))).
    reflexivity.
  - apply (proj2 (blank_input_sends_nothing (fun _ => Rejected)
                    (freshPage " hi "))).
    reflexivity.
Defined.

(** ** A body whose reader rejects *)

Lemma userTurn_statusLog w : statusLog (userTurn w) = statusLog w.
Proof. unfold userTurn. rewrite saved_statusLog. reflexivity. Qed.

Lemma attempt_read_rejected_status (network : nat -> fetchResult) w r stream :
  network (List.length (requests w)) = Responded r ->
  ok r = true -> body r = Some stream -> readFails stream = true ->
  statusLog (snd (handleStreamingResponse network w))
  = (statusLog w
       ++ flat_map creditNotice
            (significant (linesOf (chunks stream) TextDecoder.create)))%list.
Proof.
  intros Hnet Hok Hbody Hfails.
  rewrite (attempt_stream network w r stream Hnet Hok Hbody).
  pose proof (readStreamChunk_status (chunks stream) (readFails stream)
                TextDecoder.create (sent w, initialLocals)) as Hstatus.
  destruct (readStreamChunk_frame (chunks stream) (readFails stream)
              TextDecoder.create (sent w, initialLocals))
    as ([w1 l1] & Hrun & _).
  rewrite Hrun in *. rewrite Hfails. exact Hstatus.
Qed.



(** ** Clearing the conversation *)

(** X6. Clearing empties the history, removes the stored item (also when
    the storage refuses writes), leaves the welcome message as the only
    entry on screen and shows a notice; no request is sent.  A message sent
    next goes out alone: every request of that send carries the new user
    message as its only message, with role and content, and nothing of the
    conversation held before the clearing. *)
Theorem clear_then_send (network : nat -> fetchResult) (w : World)
        (text : jsstring) :
  JsString.trim text <> [] ->
  exists cleared,
    clearConversation w = (Normal tt, cleared)
    /\ conversationHistory cleared = []
    /\ localStorage cleared = None
    /\ requests cleared = requests w
    /\ messagesContainer cleared
       = [{| className := js "message system"; textContent := welcomeText;
             modelIndicator := None |}]
    /\ statusLog cleared = (statusLog w ++ [js "Conversation cleared"])%list
    /\ exists k request,
         k <= 2
         /\ requests (snd (sendMessage network (typed text cleared)))
            = (requests w ++ repeat request (S k))%list
         /\ req_body request
            = Json.stringify
                (specRequestBody
                   [{| role := js "user"; content := JsString.trim text;
                       model := None |}]).
Proof.
  intros Hne. eexists. split; [reflexivity|].
  cbn [conversationHistory localStorage requests messagesContainer statusLog
         setHistory setLocalStorage setMessagesContainer setStatusLog app].
  repeat (split; [reflexivity|]).
  match goal with
  | |- context [sendMessage network ?x] => set (w1 := x)
  end.
  assert (Hinput : JsString.trim (inputValue w1) <> []) by exact Hne.
  destruct (sendWrapper_requests network (userTurn w1)) as (k & Hk & Hreq & _).
  exists k, (requestOf (userTurn w1)). split; [exact Hk|]. split.
  - rewrite (sendMessage_unfold network w1 Hinput), Hreq, userTurn_requests.
    reflexivity.
  - unfold requestOf at 1. cbn [req_body]. rewrite userTurn_history.
    reflexivity.
Qed.

Lemma clear_then_send_witness :
  exists cleared,
    clearConversation secondTurn = (Normal tt, cleared)
    /\ conversationHistory cleared = []
    /\ localStorage cleared = None
    /\ requests cleared = requests secondTurn
    /\ messagesContainer cleared
       = [{| className := js "message system"; textContent := welcomeText;
             modelIndicator := None |}]
    /\ statusLog cleared
       = (statusLog secondTurn ++ [js "Conversation cleared"])%list
    /\ exists k request,
         k <= 2
         /\ requests (snd (sendMessage (fun _ => failureResponse)
                                       (typed (js " anew ") cleared)))
            = (requests secondTurn ++ repeat request (S k))%list
         /\ req_body request
            = Json.stringify
                (specRequestBody
                   [{| role := js "user";
                       content := JsString.trim (js " anew ");
                       model := None |}]).
Proof.
  apply (clear_then_send (fun _ => failureResponse) secondTurn (js " anew ")).
  vm_compute. discriminate.
Defined.

(** ** The return from authentication *)

Lemma checkForAuthToken_last (history : list message) :
  match history with
  | [] => false
  | _ :: _ =>
      match nth_error history (List.length history - 1) with
      | Some lastMessage => JsString.eqb (role lastMessage) (js "user")
      | None => false
      end
  end = lastIsUser history.
Proof. destruct history; reflexivity. Qed.

Lemma checkForAuthToken_run (token : option jsstring) (w : World) :
  truthyString token = true ->
  forall A (k : bool -> M World A),
    bind (checkForAuthToken token) k w
    = if lastIsUser (conversationHistory w)
      then k true
             (setStatusLog
                (statusLog w
                   ++ [js "Authenticated successfully!";
                       js "Retrying last message after authentication..."])%list
                (setAccessToken token w))
      else k false
             (setStatusLog
                (statusLog w ++ [js "Authenticated successfully!"])%list
                (setAccessToken token w)).
Proof.
  intros Htoken A k. unfold checkForAuthToken. rewrite Htoken.
  rewrite <- (checkForAuthToken_last (conversationHistory w)).
  unfold updateStatus, bind, modify, gets, ret.
  destruct w as [history token0 store full path href0 input disabled typing
                 container status warnings sleeps0 requests0].
  cbn [conversationHistory statusLog setStatusLog setAccessToken
       accessToken localStorage storageFull pathname href inputValue
       inputDisabled typingIndicator messagesContainer consoleWarnings
       sleeps requests].
  destruct history as [|m history]; [reflexivity|].
  destruct (nth_error (m :: history) (List.length (m :: history) - 1))
    as [lastMessage|]; [|reflexivity].
  destruct (JsString.eqb (role lastMessage) (js "user")); [|reflexivity].
  unfold setStatusLog, setAccessToken.
  cbn [conversationHistory statusLog accessToken localStorage storageFull
       pathname href inputValue inputDisabled typingIndicator
       messagesContainer consoleWarnings sleeps requests].
  rewrite <- app_assoc. reflexivity.
Qed.

(** X7. On the return from authentication with a token in the URL, a
    conversation that ends with a user message is sent again, once, by
    [sendWrapper]: every request of that send carries the token as its
    [Authorization] header and the same body as a request made before the
    token was held, and the history is not touched before the send. *)
Theorem auth_return_resends (network : nat -> fetchResult) (w : World)
        (token : jsstring) :
  token <> [] ->
  lastIsUser (conversationHistory w) = true ->
  authReturn network (Some token) w
  = sendWrapper network (authenticated token w)
  /\ conversationHistory (authenticated token w) = conversationHistory w
  /\ exists k,
       k <= 2
       /\ requests (snd (authReturn network (Some token) w))
          = (requests w ++ repeat (requestOf (authenticated token w)) (S k))%list
       /\ In (js "Authorization", token)
             (req_headers (requestOf (authenticated token w)))
       /\ req_body (requestOf (authenticated token w)) = req_body (requestOf w).
Proof.
  intros Htoken Hlast.
  assert (Hrun : authReturn network (Some token) w
                 = sendWrapper network (authenticated token w)).
  { unfold authReturn. rewrite (checkForAuthToken_run (Some token) w).
    - rewrite Hlast. reflexivity.
    - destruct token; [congruence|reflexivity]. }
  split; [exact Hrun|]. split; [reflexivity|].
  destruct (sendWrapper_requests network (authenticated token w))
    as (k & Hk & Hreq & _).
  exists k. split; [exact Hk|]. split; [rewrite Hrun; exact Hreq|].
  split; [|reflexivity].
  unfold requestOf. cbn [req_headers accessToken authenticated setStatusLog
                           setAccessToken].
  destruct token as [|c token]; [congruence|].
  cbn [truthyString]. apply in_or_app. right. left. reflexivity.
Qed.

Lemma auth_return_resends_witness :
  let w := snd (sendMessage (fun _ => redirectResponse "/login")
                            (freshPage "hi")) in
  authReturn (fun _ => okResponse modelStream) (Some (js "secret")) w
  = sendWrapper (fun _ => okResponse modelStream)
                (authenticated (js "secret") w)
  /\ conversationHistory (authenticated (js "secret") w)
     = conversationHistory w
  /\ exists k,
       k <= 2
       /\ requests (snd (authReturn (fun _ => okResponse modelStream)
                                    (Some (js "secret")) w))
          = (requests w
             ++ repeat (requestOf (authenticated (js "secret") w)) (S k))%list
       /\ In (js "Authorization", js "secret")
             (req_headers (requestOf (authenticated (js "secret") w)))
       /\ req_body (requestOf (authenticated (js "secret") w))
          = req_body (requestOf w).
Proof.
  cbv zeta.
  apply (auth_return_resends (fun _ => okResponse modelStream)
           (snd (sendMessage (fun _ => redirectResponse "/login")
                             (freshPage "hi")))
           (js "secret")).
  - discriminate.
  - reflexivity.
Defined.

(** X8. Without a token in the URL, with an empty one, or when the
    conversation is empty or ends with a message that is not the user's,
    the return from authentication sends no request and leaves the history
    and the store alone; a non-empty token is kept for later requests. *)
Theorem auth_return_without_resend (network : nat -> fetchResult) (w : World)
        (token : option jsstring) :
  truthyString token = false \/ lastIsUser (conversationHistory w) = false ->
  exists w',
    authReturn network token w = (Normal tt, w')
    /\ requests w' = requests w
    /\ conversationHistory w' = conversationHistory w
    /\ localStorage w' = localStorage w
    /\ accessToken w' = if truthyString token then token else accessToken w.
Proof.
  intros Hcase. unfold authReturn.
  destruct (truthyString token) eqn:Htoken.
  - destruct Hcase as [Hcase|Hlast]; [discriminate|].
    rewrite (checkForAuthToken_run token w Htoken). rewrite Hlast.
    eexists. split; [reflexivity|]. repeat split.
  - unfold checkForAuthToken. rewrite Htoken.
    exists w. repeat split.
Qed.

Lemma auth_return_without_resend_witness :
  exists w',
    authReturn (fun _ => Rejected) (Some (js "secret")) secondTurn
    = (Normal tt, w')
    /\ requests w' = requests secondTurn
    /\ conversationHistory w' = conversationHistory secondTurn
    /\ localStorage w' = localStorage secondTurn
    /\ accessToken w'
       = if truthyString (Some (js "secret")) then Some (js "secret")
         else accessToken secondTurn.
Proof.
  apply (auth_return_without_resend (fun _ => Rejected) secondTurn
           (Some (js "secret"))).
  right. reflexivity.
Defined.

(** ** What the page shows of the answer *)

Lemma setTextContent_last (shown : list element) (e : element)
      (text : jsstring) :
  setTextContent (shown ++ [e]) (List.length shown) text
  = (shown ++ [{| className := className e; textContent := text;
                  modelIndicator := modelIndicator e |}])%list.
Proof.
  induction shown as [|x shown IH]; simpl; [reflexivity|].
  rewrite IH. reflexivity.
Qed.

Ltac same_element :=
  repeat match goal with
         | H : Some _ = Some _ |- _ => injection H as H
         | H : Some _ = None |- _ => discriminate H
         | H : None = Some _ |- _ => discriminate H
         end;
  subst.

Lemma handleLine_displays (shown : list element) (line : jsstring)
      (s : World * locals) :
  displays shown s -> displays shown (snd (handleLine line s)).
Proof.
  destruct s as [w l]. unfold displays, handleLine. run_monad.
  unfold modify, gets, ret. cbn [fst snd]. intros Hshown.
  destruct (messageElement l) as [e|] eqn:He.
  - destruct Hshown as (-> & indicator & Hc).
    repeat (cbn; try break_match); try congruence;
      cbn in *; try rewrite Hc; same_element;
      try rewrite setTextContent_last; eauto.
  - repeat (cbn; try break_match); try congruence;
      cbn in *; try rewrite Hshown; same_element; eauto.
Qed.

Lemma forOf_displays (shown : list element) (lines : list jsstring)
      (s : World * locals) :
  displays shown s -> displays shown (snd (forOf lines handleLine s)).
Proof.
  revert s; induction lines as [|line lines IH]; intros s Hs; simpl.
  - exact Hs.
  - destruct (handleLine_frame line s) as (s1 & Hline & _).
    pose proof (handleLine_displays shown line s Hs) as H1.
    unfold bind. rewrite Hline in *. cbn [snd] in H1. apply IH. exact H1.
Qed.

Lemma readStreamChunk_displays (shown : list element)
      (pending : list (list byte)) (fails : bool) (d : TextDecoder.t)
      (s : World * locals) :
  displays shown s ->
  displays shown (snd (readStreamChunk pending fails d s)).
Proof.
  revert d s; induction pending as [|value rest IH]; intros d s Hs; simpl.
  - destruct fails; exact Hs.
  - destruct (TextDecoder.decode d value) as [decoded d'].
    destruct (forOf_handleLine_frame (JsString.split decoded) s)
      as (s1 & Hlines & _).
    pose proof (forOf_displays shown (JsString.split decoded) s Hs) as H1.
    unfold bind. rewrite Hlines in *. cbn [snd] in H1. apply IH. exact H1.
Qed.

Lemma saved_messagesContainer w :
  messagesContainer (saved w) = messagesContainer w.
Proof. unfold saved. destruct (storageFull w); reflexivity. Qed.

Lemma rolledBack_messagesContainer w :
  messagesContainer (rolledBack w) = messagesContainer w.
Proof.
  unfold rolledBack. destruct (lastIsUser (conversationHistory w));
    [rewrite saved_messagesContainer|]; reflexivity.
Qed.

Lemma userTurn_messagesContainer w :
  messagesContainer (userTurn w)
  = (messagesContainer w ++ [userElement w])%list.
Proof. unfold userTurn. rewrite saved_messagesContainer. reflexivity. Qed.

Section Shown.

Variable network : nat -> fetchResult.

Lemma attempt_shown (w : World) :
  shownBy w (fst (handleStreamingResponse network w))
            (snd (handleStreamingResponse network w)).
Proof.
  destruct (network (List.length (requests w))) as [|r] eqn:Hnet.
  - rewrite (attempt_rejected network w Hnet). apply ShownNothing. reflexivity.
  - destruct (ok r) eqn:Hok.
    + destruct (body r) as [stream|] eqn:Hbody.
      * rewrite (attempt_stream network w r stream Hnet Hok Hbody).
        pose proof (readStreamChunk_reconstruct (chunks stream)
                      (readFails stream) TextDecoder.create
                      (sent w, initialLocals)) as Hrec.
        pose proof (readStreamChunk_displays (messagesContainer w)
                      (chunks stream) (readFails stream) TextDecoder.create
                      (sent w, initialLocals) eq_refl) as Hshown.
        destruct (readStreamChunk_frame (chunks stream) (readFails stream)
                    TextDecoder.create (sent w, initialLocals))
          as ([w1 l1] & Hrun & Hcore).
        rewrite Hrun in *. cbn [fst snd] in *.
        unfold textAndModel in Hrec.
        cbn [assistantMessage handledModel initialLocals] in Hrec.
        assert (Htext : assistantMessage l1 = streamText (chunks stream))
          by exact (f_equal fst Hrec).
        assert (Hmodel : handledModel l1 = streamModel (chunks stream))
          by exact (f_equal snd Hrec).
        assert (Hhistory : conversationHistory w1 = conversationHistory w)
          by exact (core_history _ _ Hcore).
        unfold displays in Hshown. cbn [fst snd] in Hshown.
        rewrite saveConversationToStorage_saved. cbn [snd].
        destruct (messageElement l1) as [e|].
        -- destruct Hshown as (_ & indicator & Hc). rewrite Htext in Hc.
           apply (ShownAnswer _ _ _ (chunks stream) indicator).
           ++ destruct (readFails stream); [discriminate|].
              destruct (JsString.isEmpty (assistantMessage l1)); discriminate.
           ++ destruct (readFails stream); [exact Hc|].
              destruct (JsString.isEmpty (assistantMessage l1));
                cbn [fst snd]; [exact Hc|].
              rewrite saved_messagesContainer. exact Hc.
           ++ destruct (readFails stream); [discriminate|]. intros _.
              rewrite <- Htext.
              destruct (JsString.isEmpty (assistantMessage l1)) eqn:Hempty;
                cbn [fst snd].
              ** rewrite app_nil_r. exact Hhistory.
              ** rewrite saved_history. unfold appendAssistant, assistantOf.
                 cbn [conversationHistory setHistory].
                 rewrite Hhistory, Htext, Hmodel. reflexivity.
        -- apply ShownNothing.
           destruct (readFails stream); [exact Hshown|].
           destruct (JsString.isEmpty (assistantMessage l1));
             cbn [fst snd]; [exact Hshown|].
           rewrite saved_messagesContainer. exact Hshown.
      * rewrite (attempt_no_body network w r Hnet Hok Hbody).
        apply ShownNothing. reflexivity.
    + destruct (location r) as [[|c target]|] eqn:Hloc.
      * rewrite (attempt_failed network w r Hnet);
          [apply ShownNothing; reflexivity|].
        split; [exact Hok | rewrite Hloc; reflexivity].
      * rewrite (attempt_redirect network w r (c :: target) Hnet).
        -- apply ShownRedirect; reflexivity.
        -- split; [exact Hok | split; [exact Hloc | discriminate]].
      * rewrite (attempt_failed network w r Hnet);
          [apply ShownNothing; reflexivity|].
        split; [exact Hok | rewrite Hloc; reflexivity].
Qed.

Lemma shownBy_from (w0 w : World) (res : completion bool) (w' : World) :
  messagesContainer w = messagesContainer w0 ->
  conversationHistory w = conversationHistory w0 ->
  shownBy w res w' -> shownBy w0 res w'.
Proof.
  intros Hc Hh [Hsame | Hres Hred | pending indicator Hres Hans Hhist].
  - apply ShownNothing. congruence.
  - apply ShownRedirect; congruence.
  - apply (ShownAnswer _ _ _ pending indicator); [exact Hres | congruence |].
    intros H. rewrite <- Hh. exact (Hhist H).
Qed.

Lemma retry_shown j attemptNumber w :
  Pos.to_nat attemptNumber + j = 3 ->
  shownBy w
    (fst (handleStreamingResponseWithRetry network attemptNumber w))
    (snd (handleStreamingResponseWithRetry network attemptNumber w)).
Proof.
  revert attemptNumber w; induction j as [|j IH]; intros n w Hn;
    rewrite retry_unfold;
    pose proof (attempt_shown w) as Hshown;
    pose proof (attempt_cases network w) as Hcase;
    destruct (handleStreamingResponse network w) as [[[|]|e] w1];
    cbn [fst snd] in Hshown, Hcase.
  1,3,4,6: exact Hshown.
  - assert (Hlt : Pos.ltb n MAX_RETRY_ATTEMPTS = false).
    { apply Pos.ltb_ge, Pos2Nat.inj_le.
      change (Pos.to_nat MAX_RETRY_ATTEMPTS) with 3. lia. }
    rewrite Hlt. apply attemptResult_false in Hcase. subst w1.
    apply ShownNothing. reflexivity.
  - assert (Hlt : Pos.ltb n MAX_RETRY_ATTEMPTS = true).
    { apply Pos.ltb_lt, Pos2Nat.inj_lt.
      change (Pos.to_nat MAX_RETRY_ATTEMPTS) with 3. lia. }
    rewrite Hlt. apply attemptResult_false in Hcase. subst w1.
    apply shownBy_from with (w := backedOff n (sent w));
      [reflexivity | reflexivity |].
    apply IH. rewrite Pos2Nat.inj_add. change (Pos.to_nat 1) with 1. lia.
Qed.

End Shown.

(** X9. After a send, whatever the network did, the page shows the user's
    text followed by at most one further element: the notice of a redirect,
    or the answer, whose text is the text reconstructed from a stream; and
    when the send ends well with an answer on the page, the history holds
    that same text as the content of its new assistant message, or no new
    assistant message when the text is empty. *)
Theorem send_shows_what_it_stores (network : nat -> fetchResult) (w : World) :
  JsString.trim (inputValue w) <> [] ->
  let run := sendMessage network w in
  let shown := (messagesContainer w ++ [userElement w])%list in
  messagesContainer (snd run) = shown
  \/ messagesContainer (snd run) = (shown ++ [redirectNotice])%list
  \/ exists pending indicator,
       messagesContainer (snd run)
       = (shown ++ [answerElement (streamText pending) indicator])%list
       /\ (fst run = Normal tt ->
           conversationHistory (snd run)
           = (conversationHistory w ++ [userMessage w]
              ++ if JsString.isEmpty (streamText pending) then []
                 else [assistantOf pending])%list).
Proof.
  intros Hne. cbv zeta.
  rewrite (sendMessage_unfold network w Hne), sendWrapper_unfold.
  pose proof (retry_shown network 2 1 (begun (userTurn w)) eq_refl) as Hout.
  assert (Hc : messagesContainer (begun (userTurn w))
               = (messagesContainer w ++ [userElement w])%list)
    by exact (userTurn_messagesContainer w).
  assert (Hh : conversationHistory (begun (userTurn w))
               = (conversationHistory w ++ [userMessage w])%list).
  { rewrite begun_conversationHistory. apply userTurn_history. }
  assert (Hfc : forall x, messagesContainer (finished x) = messagesContainer x)
    by reflexivity.
  destruct (handleStreamingResponseWithRetry network 1 (begun (userTurn w)))
    as [[[|]|e] w1]; cbn [fst snd] in *;
    rewrite Hfc, ?rolledBack_messagesContainer;
    destruct Hout as [Hsame | Hres Hred | pending indicator Hres Hans Hhist];
    try (left; rewrite Hsame; exact Hc);
    try (right; left; rewrite Hred, Hc; reflexivity);
    try congruence.
  - right. right. exists pending, indicator. split.
    + rewrite Hans, Hc. reflexivity.
    + intros _. rewrite finished_conversationHistory, (Hhist eq_refl), Hh,
        <- app_assoc. reflexivity.
  - right. right. exists pending, indicator. split.
    + rewrite Hans, Hc. reflexivity.
    + discriminate.
Qed.

Lemma send_shows_what_it_stores_witness :
  let w := freshPage "hi" in
  let run := sendMessage (fun _ => okResponse modelStream) w in
  let shown := (messagesContainer w ++ [userElement w])%list in
  messagesContainer (snd run) = shown
  \/ messagesContainer (snd run) = (shown ++ [redirectNotice])%list
  \/ exists pending indicator,
       messagesContainer (snd run)
       = (shown ++ [answerElement (streamText pending) indicator])%list
       /\ (fst run = Normal tt ->
           conversationHistory (snd run)
           = (conversationHistory w ++ [userMessage w]
              ++ if JsString.isEmpty (streamText pending) then []
                 else [assistantOf pending])%list).
Proof.
  apply (send_shows_what_it_stores (fun _ => okResponse modelStream)
                                   (freshPage "hi")).
  vm_compute. discriminate.
Defined.

(** ** The input after a send *)

Lemma core_inputValue w w' : core w = core w' -> inputValue w = inputValue w'.
Proof. unfold core; congruence. Qed.

Lemma saved_inputValue w : inputValue (saved w) = inputValue w.
Proof. unfold saved. destruct (storageFull w); reflexivity. Qed.

Lemma completedWith_inputValue pending w :
  inputValue (completedWith pending w) = inputValue w.
Proof.
  unfold completedWith. destruct (JsString.isEmpty (streamText pending));
    [|rewrite saved_inputValue]; reflexivity.
Qed.

Lemma rolledBack_inputValue w : inputValue (rolledBack w) = inputValue w.
Proof.
  unfold rolledBack. destruct (lastIsUser (conversationHistory w));
    [rewrite saved_inputValue|]; reflexivity.
Qed.

Lemma attemptResult_inputValue w res w' :
  attemptResult w res w' -> inputValue w' = inputValue w.
Proof.
  intros [ | | target _ | | w1 Hcore | pending w1 Hcore]; try reflexivity.
  - rewrite (core_inputValue _ _ Hcore). reflexivity.
  - rewrite completedWith_inputValue, (core_inputValue _ _ Hcore). reflexivity.
Qed.

Lemma retry_inputValue (network : nat -> fetchResult) j attemptNumber w :
  Pos.to_nat attemptNumber + j = 3 ->
  inputValue (snd (handleStreamingResponseWithRetry network attemptNumber w))
  = inputValue w.
Proof.
  revert attemptNumber w; induction j as [|j IH]; intros n w Hn;
    rewrite retry_unfold;
    pose proof (attempt_cases network w) as Hcase;
    destruct (handleStreamingResponse network w) as [[[|]|e] w1];
    cbn [fst snd] in Hcase.
  1,3,4,6: exact (attemptResult_inputValue _ _ _ Hcase).
  - assert (Hlt : Pos.ltb n MAX_RETRY_ATTEMPTS = false).
    { apply Pos.ltb_ge, Pos2Nat.inj_le.
      change (Pos.to_nat MAX_RETRY_ATTEMPTS) with 3. lia. }
    rewrite Hlt. exact (attemptResult_inputValue _ _ _ Hcase).
  - assert (Hlt : Pos.ltb n MAX_RETRY_ATTEMPTS = true).
    { apply Pos.ltb_lt, Pos2Nat.inj_lt.
      change (Pos.to_nat MAX_RETRY_ATTEMPTS) with 3. lia. }
    rewrite Hlt. apply attemptResult_false in Hcase. subst w1.
    rewrite IH; [reflexivity|].
    rewrite Pos2Nat.inj_add. change (Pos.to_nat 1) with 1. lia.
Qed.

(** X10. However a send ends, by a return or by an exception that
    escapes, the page is left ready for the next message: the input is
    enabled and empty and the typing indicator is hidden. *)
Theorem send_releases_input (network : nat -> fetchResult) (w : World) :
  JsString.trim (inputValue w) <> [] ->
  inputDisabled (snd (sendMessage network w)) = false
  /\ typingIndicator (snd (sendMessage network w)) = false
  /\ inputValue (snd (sendMessage network w)) = [].
Proof.
  intros Hne.
  rewrite (sendMessage_unfold network w Hne), sendWrapper_unfold.
  pose proof (retry_inputValue network 2 1 (begun (userTurn w)) eq_refl)
    as Hinput.
  destruct (handleStreamingResponseWithRetry network 1 (begun (userTurn w)))
    as [[[|]|e] w1]; cbn [fst snd] in *;
    (split; [reflexivity | split; [reflexivity|]]);
    unfold finished; cbn [inputValue setInput];
    rewrite ?rolledBack_inputValue; exact Hinput.
Qed.

Lemma send_releases_input_witness :
  inputDisabled (snd (sendMessage (fun _ => Rejected) (freshPage "hi")))
  = false
  /\ typingIndicator (snd (sendMessage (fun _ => Rejected) (freshPage "hi")))
     = false
  /\ inputValue (snd (sendMessage (fun _ => Rejected) (freshPage "hi"))) = [].
Proof.
  apply (send_releases_input (fun _ => Rejected) (freshPage "hi")).
  vm_compute. discriminate.
Defined.

(** ** Restoring the conversation *)

Lemma asMessage_messageJson (m : message) : asMessage (messageJson m) = Some m.
Proof. destruct m as [r c [v|]]; reflexivity. Qed.

Lemma asHistory_stored (history : list message) :
  asHistory (map messageJson history) = Some history.
Proof.
  induction history as [|m history IH]; [reflexivity|].
  cbn [map asHistory]. rewrite asMessage_messageJson, IH. reflexivity.
Qed.

Lemma plainMessage_model (m : message) :
  plainMessage m = true ->
  match model m with Some (Json.Str _) | None => True | _ => False end.
Proof.
  unfold plainMessage. intros H. apply andb_prop in H. destruct H as [_ H].
  destruct (model m) as [[| | |s| |]|]; try discriminate; exact I.
Qed.

Lemma stringify_array_truthy (items : list Json.value) :
  truthyString (Some (Json.stringify (Json.Arr items))) = true.
Proof. reflexivity. Qed.

(** On an entry of the declared type the callback of [forEach] does what
    [addMessage] does with its role, content and model. *)
Lemma showEntry_messageJson (m : message) (w : World) :
  showEntry (messageJson m) w
  = (addMessage (role m) (content m) false (model m) ;; ret tt) w.
Proof.
  destruct m as [r c [v|]]; cbn [role content model];
    unfold showEntry, addMessageOf, addMessage, property, templateText,
      ToString, messageJson, bind, gets, modify, ret, throw;
    cbn [app Json.get Json.toString].
  - change (Json.lookup (js "role") _) with (Some (Json.Str r)).
    change (Json.lookup (js "content") _) with (Some (Json.Str c)).
    change (Json.lookup (js "model") _) with (Some v).
    cbv beta iota.
    destruct (JsString.eqb r (js "assistant") && Json.truthy v);
      [|reflexivity].
    destruct (Json.toString v); reflexivity.
  - change (Json.lookup (js "role") _) with (Some (Json.Str r)).
    change (Json.lookup (js "content") _) with (Some (Json.Str c)).
    change (Json.lookup (js "model") _) with (@None Json.value).
    reflexivity.
Qed.

Lemma addMessage_plain (m : message) (w : World) :
  plainMessage m = true ->
  addMessage (role m) (content m) false (model m) w
  = (Normal None,
     setMessagesContainer (messagesContainer w ++ [elementOf m]) w).
Proof.
  intros Hm. pose proof (plainMessage_model m Hm) as Hmodel.
  unfold addMessage, elementOf, bind, gets, modify, ret.
  destruct (model m) as [[| | |s| |]|]; try contradiction.
  - cbn [Json.truthy Json.toString].
    destruct (JsString.eqb (role m) (js "assistant")
              && negb (JsString.isEmpty s)); reflexivity.
  - reflexivity.
Qed.

Lemma restore_plain (history : list message) :
  forall s : restoring,
    forallb plainMessage history = true ->
    forOf (map messageJson history) (fun msg => onPage (showEntry msg)) s
    = (Normal tt,
       (setMessagesContainer
          (messagesContainer (fst s) ++ map elementOf history) (fst s),
        snd s)).
Proof.
  induction history as [|m history IH]; intros [w held] H.
  - cbn [forOf map fst snd]. rewrite app_nil_r. destruct w; reflexivity.
  - cbn [forallb] in H. apply andb_prop in H. destruct H as [Hm Hrest].
    cbn [forOf map fst snd]. unfold bind at 1, onPage at 1. cbn [fst snd].
    rewrite showEntry_messageJson. unfold bind at 1.
    rewrite (addMessage_plain m w Hm). unfold ret at 1.
    rewrite (IH _ Hrest). cbn [fst snd messagesContainer setMessagesContainer].
    rewrite <- app_assoc. reflexivity.
Qed.

Lemma load_stored (w : World) (history : list message) :
  forallb plainMessage history = true ->
  localStorage w = Some (Json.stringify (Json.Arr (map messageJson history))) ->
  loadConversationFromStorage (w, None)
  = (Normal tt,
     (setMessagesContainer
        (match history with
         | [] => [welcomeElement]
         | _ :: _ => map elementOf history
         end)
        (setHistory history w),
      None)).
Proof.
  intros Hplain Hstore.
  unfold loadConversationFromStorage, tryCatch, bind at 1, gets.
  cbn [fst snd]. rewrite Hstore, stringify_array_truthy.
  unfold bind at 1, JSON_parse. rewrite (parse_stored_history history Hplain).
  unfold ret at 1, bind at 1, assignHistory, modify at 1.
  cbn [historyOf fst snd]. rewrite asHistory_stored.
  unfold bind at 1, onPage at 1, modify at 1. cbn [fst snd].
  unfold bind at 1, lengthIsZero, ret at 1. rewrite length_map.
  destruct history as [|m history].
  - reflexivity.
  - cbn [List.length Nat.eqb forEach].
    rewrite (restore_plain (m :: history) _ Hplain). reflexivity.
Qed.

(** X11. A conversation that the page saved is restored as it was: when
    the stored item is the JSON text of a history whose entries are made of
    code units and whose models are strings, loading reads that very
    history back and rebuilds one element per entry (or the welcome message
    for an empty history); saving it again writes the same text. *)
Theorem load_restores_saved (w : World) (history : list message) :
  forallb plainMessage history = true ->
  localStorage w = Some (Json.stringify (Json.Arr (map messageJson history))) ->
  exists w',
    loadConversationFromStorage (w, None) = (Normal tt, (w', None))
    /\ conversationHistory w' = history
    /\ messagesContainer w'
       = match history with
         | [] => [welcomeElement]
         | _ :: _ => map elementOf history
         end
    /\ requests w' = requests w
    /\ localStorage (snd (saveConversationToStorage w')) = localStorage w.
Proof.
  intros Hplain Hstore. eexists.
  split; [exact (load_stored w history Hplain Hstore)|].
  split; [reflexivity|]. split; [reflexivity|]. split; [reflexivity|].
  rewrite saveConversationToStorage_saved. cbn [snd]. unfold saved.
  cbn [storageFull setMessagesContainer setHistory conversationHistory].
  destruct (storageFull w); cbn [localStorage setLocalStorage
    setConsoleWarnings setMessagesContainer setHistory]; congruence.
Qed.

Lemma load_restores_saved_witness :
  let w := snd (sendMessage (fun _ => okResponse modelStream) (freshPage "hi")) in
  exists w',
    loadConversationFromStorage (w, None) = (Normal tt, (w', None))
    /\ conversationHistory w' = conversationHistory w
    /\ messagesContainer w'
       = match conversationHistory w with
         | [] => [welcomeElement]
         | _ :: _ => map elementOf (conversationHistory w)
         end
    /\ requests w' = requests w
    /\ localStorage (snd (saveConversationToStorage w')) = localStorage w.
Proof.
  cbv zeta.
  apply (load_restores_saved
           (snd (sendMessage (fun _ => okResponse modelStream) (freshPage "hi")))
           (conversationHistory
              (snd (sendMessage (fun _ => okResponse modelStream)
                                (freshPage "hi"))))).
  - vm_compute. reflexivity.
  - vm_compute. reflexivity.
Defined.

(** ** From the redirect to the resumed conversation *)

Lemma forallb_trimStart (f : N -> bool) (s : jsstring) :
  forallb f s = true -> forallb f (JsString.trimStart s) = true.
Proof.
  destruct (trimStart_suffix s) as (blanks & Hs & _).
  intros H. rewrite Hs, forallb_app in H. apply andb_prop in H. apply H.
Qed.

Lemma codeUnits_trim (s : jsstring) :
  codeUnits s = true -> codeUnits (JsString.trim s) = true.
Proof.
  unfold codeUnits, JsString.trim. intros H.
  rewrite forallb_reversed. apply forallb_trimStart.
  rewrite forallb_reversed. apply forallb_trimStart. exact H.
Qed.

Lemma userTurn_plain (w : World) :
  codeUnits (inputValue w) = true ->
  forallb plainMessage (conversationHistory w) = true ->
  forallb plainMessage (conversationHistory w ++ [userMessage w]) = true.
Proof.
  intros Hinput Hplain. rewrite forallb_app, Hplain. cbn [forallb andb].
  unfold plainMessage, userMessage. cbn [role content model].
  rewrite (codeUnits_trim _ Hinput). reflexivity.
Qed.

Lemma userTurn_localStorage (w : World) :
  storageFull w = false ->
  localStorage (userTurn w)
  = Some (Json.stringify
            (Json.Arr (map messageJson
                           (conversationHistory w ++ [userMessage w])))).
Proof.
  intros Hfull. unfold userTurn, saved.
  cbn [storageFull setHistory setMessagesContainer]. rewrite Hfull.
  reflexivity.
Qed.

Lemma redirected_send (network : nat -> fetchResult) (w : World)
      (r : response) (target : jsstring) :
  JsString.trim (inputValue w) <> [] ->
  network (List.length (requests w)) = Responded r ->
  redirectSignal r target ->
  fst (sendMessage network w) = Normal tt
  /\ href (snd (sendMessage network w)) = Some target
  /\ localStorage (snd (sendMessage network w)) = localStorage (userTurn w).
Proof.
  intros Hne Hnet Hsig.
  rewrite (sendMessage_unfold network w Hne), sendWrapper_unfold, retry_unfold.
  rewrite (attempt_redirect network (begun (userTurn w)) r target);
    [ | rewrite begun_requests, userTurn_requests; exact Hnet | exact Hsig].
  repeat split.
Qed.



(** ** Loading never fails *)

Lemma addMessageOf_core (role content model : option Json.value) (w : World) :
  core (snd (addMessageOf role content model w)) = core w.
Proof.
  unfold addMessageOf, templateText, ToString, bind, modify, ret, throw.
  repeat (cbv beta iota; try break_match); reflexivity.
Qed.

Lemma showEntry_core (msg : Json.value) (w : World) :
  core (snd (showEntry msg w)) = core w.
Proof.
  unfold showEntry, property, bind, ret, throw.
  destruct msg; try reflexivity; apply addMessageOf_core.
Qed.

(** Showing the entries changes neither what the variable holds nor
    anything of the page but its messages. *)
Lemma showEntries_frame (items : list Json.value) (s : restoring) :
  core (fst (snd (forOf items (fun msg => onPage (showEntry msg)) s)))
  = core (fst s)
  /\ snd (snd (forOf items (fun msg => onPage (showEntry msg)) s)) = snd s.
Proof.
  revert s; induction items as [|msg items IH]; intros [w held];
    [split; reflexivity|].
  cbn [forOf]. unfold bind, onPage. cbn [fst snd].
  pose proof (showEntry_core msg w) as Hmsg.
  destruct (showEntry msg w) as [[u|e] w1]; cbn [snd] in Hmsg;
    cbv beta iota.
  - destruct (IH (w1, held)) as [Hcore Hheld]. cbn [fst snd] in Hcore, Hheld.
    split; [exact (eq_trans Hcore Hmsg) | exact Hheld].
  - split; [exact Hmsg | reflexivity].
Qed.

(** The catch block. *)
Lemma load_handler (error : exn) (s : restoring) :
  (onPage (consoleWarn
             [js "Failed to load conversation from localStorage:"] error) ;;
   assignHistory (Json.Arr []) ;;
   onPage addSystemWelcomeMessage) s
  = (Normal tt,
     (snd (addSystemWelcomeMessage
             (setHistory []
                (snd (consoleWarn
                        [js "Failed to load conversation from localStorage:"]
                        error (fst s))))),
      None)).
Proof. destruct s as [w held]. reflexivity. Qed.

Lemma core_own_history (w w' : World) (history : list message) :
  core w' = core (setHistory history w) ->
  core w' = core (setHistory (conversationHistory w') w).
Proof.
  intros H. unfold core in *.
  cbn [conversationHistory localStorage storageFull requests sleeps href
       accessToken pathname inputValue inputDisabled setHistory] in *.
  congruence.
Qed.

Lemma core_kept (w w' : World) :
  core w' = core w ->
  core w' = core (setHistory (conversationHistory w') w).
Proof.
  intros H. apply (core_own_history w w' (conversationHistory w)).
  rewrite H. destruct w; reflexivity.
Qed.

(** What follows the assignment changes neither what the variable holds
    nor anything of the page but its messages, however it ends. *)
Lemma shown_frame (v : Json.value) (s : restoring) :
  core (fst (snd ((empty <- lengthIsZero v ;;
                   if empty then onPage addSystemWelcomeMessage
                   else forEach v (fun msg => onPage (showEntry msg))) s)))
  = core (fst s)
  /\ snd (snd ((empty <- lengthIsZero v ;;
                if empty then onPage addSystemWelcomeMessage
                else forEach v (fun msg => onPage (showEntry msg))) s))
     = snd s.
Proof.
  destruct s as [w held].
  destruct v as [|b|n|text|items|fields];
    unfold bind, lengthIsZero, forEach, ret, throw; cbn [fst snd];
    try (split; reflexivity).
  - destruct (JsString.isEmpty text); split; reflexivity.
  - destruct (List.length items =? 0)%nat; [split; reflexivity|].
    apply (showEntries_frame items (w, held)).
  - destruct (Json.lookup (js "length") fields) as [[| |n| | |]|];
      try (split; reflexivity).
    destruct (Number.isZero n); split; reflexivity.
Qed.

(** X13. Loading the stored conversation never ends in an exception,
    whatever the store holds: it sends nothing and leaves the store, the
    token and the input alone.  When nothing is stored the history stays
    as it was; otherwise either the catch block has run and the history is
    empty, or the stored text was read and the history variable holds the
    value read, whether or not it is a history of the declared type. *)
Theorem load_never_throws (w : World) :
  exists w' held,
    loadConversationFromStorage (w, None) = (Normal tt, (w', held))
    /\ core w' = core (setHistory (conversationHistory w') w)
    /\ (truthyString (localStorage w) = false ->
        held = None /\ conversationHistory w' = conversationHistory w)
    /\ (forall stored,
          localStorage w = Some stored ->
          truthyString (Some stored) = true ->
          held = None /\ conversationHistory w' = []
          \/ exists v,
               Json.parse stored = Some v
               /\ match historyOf v with
                  | Some history =>
                      held = None /\ conversationHistory w' = history
                  | None => held = Some v
                  end).
Proof.
  unfold loadConversationFromStorage, tryCatch, bind at 1, gets.
  cbn [fst snd].
  destruct (localStorage w) as [stored|] eqn:Hstore.
  2:{ exists (snd (addSystemWelcomeMessage w)), None.
      split; [reflexivity|]. split; [reflexivity|].
      split; [intros _; split; reflexivity | discriminate]. }
  destruct (truthyString (Some stored)) eqn:Htruthy.
  2:{ exists (snd (addSystemWelcomeMessage w)), None.
      split; [reflexivity|]. split; [reflexivity|].
      split; [intros _; split; reflexivity|].
      intros stored' H. injection H as <-. congruence. }
  unfold bind at 1, JSON_parse.
  destruct (Json.parse stored) as [v|] eqn:Hparse.
  2:{ unfold throw at 1. rewrite load_handler. eexists. eexists.
      split; [reflexivity|]. split; [reflexivity|].
      split; [discriminate|]. intros stored' _ _. left. split; reflexivity. }
  unfold ret at 1, bind at 1, assignHistory at 1, modify at 1. cbn [fst snd].
  unfold bind at 1, onPage at 1, modify at 1.
  set (assigned := match historyOf v with
                   | Some history => (setHistory history w, @None Json.value)
                   | None => (w, Some v)
                   end).
  cbv beta iota zeta.
  destruct (shown_frame v (setMessagesContainer [] (fst assigned), snd assigned))
    as [Hcore Hheld].
  destruct ((empty <- lengthIsZero v ;;
             if empty then onPage addSystemWelcomeMessage
             else forEach v (fun msg => onPage (showEntry msg)))
              (setMessagesContainer [] (fst assigned), snd assigned))
    as [[u|e] [w2 held2]]; cbn [fst snd] in Hcore, Hheld.
  - exists w2, held2. destruct u. split; [reflexivity|].
    subst assigned.
    destruct (historyOf v) as [history|] eqn:Hv; cbn [fst snd] in Hcore, Hheld.
    + split; [exact (core_own_history w w2 history Hcore)|].
      split; [discriminate|]. intros stored' H _. injection H as <-.
      right. exists v. split; [exact Hparse|]. rewrite Hv.
      split; [exact Hheld | exact (core_history _ _ Hcore)].
    + split; [exact (core_kept w w2 Hcore)|].
      split; [discriminate|]. intros stored' H _. injection H as <-.
      right. exists v. split; [exact Hparse|]. rewrite Hv. exact Hheld.
  - rewrite load_handler. eexists. eexists.
    split; [reflexivity|]. cbn [fst snd]. split.
    + apply (core_own_history w _ []).
      unfold core in *. subst assigned.
      destruct (historyOf v); cbn [fst snd] in Hcore;
        cbn [conversationHistory localStorage storageFull requests sleeps
             href accessToken pathname inputValue inputDisabled setHistory
             setMessagesContainer setConsoleWarnings consoleWarn
             addSystemWelcomeMessage modify snd] in *;
        congruence.
    + split; [discriminate|]. intros stored' _ _. left. split; reflexivity.
Qed.

Lemma load_never_throws_witness :
  exists w' held,
    loadConversationFromStorage
      (setLocalStorage (Some (js "[1]")) blankPage, None)
    = (Normal tt, (w', held))
    /\ core w'
       = core (setHistory (conversationHistory w')
                          (setLocalStorage (Some (js "[1]")) blankPage))
    /\ (truthyString
          (localStorage (setLocalStorage (Some (js "[1]")) blankPage)) = false ->
        held = None
        /\ conversationHistory w'
           = conversationHistory
               (setLocalStorage (Some (js "[1]")) blankPage))
    /\ (forall stored,
          localStorage (setLocalStorage (Some (js "[1]")) blankPage)
          = Some stored ->
          truthyString (Some stored) = true ->
          held = None /\ conversationHistory w' = []
          \/ exists v,
               Json.parse stored = Some v
               /\ match historyOf v with
                  | Some history =>
                      held = None /\ conversationHistory w' = history
                  | None => held = Some v
                  end).
Proof.
  exact (load_never_throws (setLocalStorage (Some (js "[1]")) blankPage)).
Defined.

(** Stored texts that are not histories of the declared type, as the code
    treats them: [null] and [5] end in the catch block, with an empty
    history and the welcome message; an entry that is a number is shown
    with the class of an undefined role and an empty text, and an object
    of length zero gives the welcome message, the variable holding the
    value read in both cases. *)
Lemma load_of_other_values :
  let shown stored := messagesContainer (fst (snd (loadOf stored))) in
  let held stored := snd (snd (loadOf stored)) in
  let warned stored := map snd (consoleWarnings (fst (snd (loadOf stored)))) in
  let each (stored : string) (variable : option Json.value)
           (page : list element) (warnings : list exn) :=
    fst (loadOf stored) = Normal tt /\ held stored = variable
    /\ shown stored = page /\ warned stored = warnings in
  each "null"%string None [welcomeElement] [NullDereference]
  /\ each "5"%string None [welcomeElement] [NotCallable]
  /\ each "[1]"%string (Json.parse (jq "[1]"))
          [{| className := js "message undefined"; textContent := [];
              modelIndicator := None |}] []
  /\ each "{'length':0}"%string (Json.parse (jq "{'length':0}"))
          [welcomeElement] []
  /\ each "[{'content':'x','role':'user'}]"%string
          (Json.parse (jq "[{'content':'x','role':'user'}]"))
          [{| className := js "message user"; textContent := js "x";
              modelIndicator := None |}] [].
Proof. vm_compute. repeat split; reflexivity. Qed.

(** ** Clearing and loading again *)

(** X14. Clearing lasts: a page loaded after the conversation was cleared
    starts with an empty history, shows the welcome message and sends
    nothing, also when a token has just arrived in the URL. *)
Theorem clear_persists (network : nat -> fetchResult) (w reloaded : World)
        (token : option jsstring) :
  localStorage reloaded = localStorage (snd (clearConversation w)) ->
  conversationHistory reloaded = [] ->
  exists restored w',
    loadConversationFromStorage (reloaded, None)
    = (Normal tt, (restored, None))
    /\ authReturn network token restored = (Normal tt, w')
    /\ conversationHistory w' = []
    /\ requests w' = requests reloaded
    /\ messagesContainer w'
       = (messagesContainer reloaded ++ [welcomeElement])%list.
Proof.
  intros Hstore Hempty.
  change (localStorage (snd (clearConversation w))) with (@None jsstring)
    in Hstore.
  exists (snd (addSystemWelcomeMessage reloaded)).
  assert (Hload : loadConversationFromStorage (reloaded, None)
                  = (Normal tt, (snd (addSystemWelcomeMessage reloaded), None))).
  { unfold loadConversationFromStorage, tryCatch, bind, gets.
    cbn [fst snd]. rewrite Hstore. reflexivity. }
  unfold authReturn.
  destruct (truthyString token) eqn:Htoken.
  - rewrite (checkForAuthToken_run token _ Htoken).
    cbn [conversationHistory setMessagesContainer addSystemWelcomeMessage
         modify snd].
    rewrite Hempty. cbn [lastIsUser Nat.ltb Nat.leb List.length andb].
    eexists. split; [exact Hload|]. split; [reflexivity|].
    cbn. rewrite Hempty. repeat split.
  - unfold checkForAuthToken, bind, ret. rewrite Htoken.
    eexists. split; [exact Hload|]. split; [reflexivity|].
    cbn. rewrite Hempty. repeat split.
Qed.

Lemma clear_persists_witness :
  exists restored w',
    loadConversationFromStorage
      (setLocalStorage (localStorage (snd (clearConversation secondTurn)))
                       blankPage, None)
    = (Normal tt, (restored, None))
    /\ authReturn (fun _ => Rejected) (Some (js "secret")) restored
       = (Normal tt, w')
    /\ conversationHistory w' = []
    /\ requests w'
       = requests (setLocalStorage
                     (localStorage (snd (clearConversation secondTurn)))
                     blankPage)
    /\ messagesContainer w'
       = (messagesContainer
            (setLocalStorage (localStorage (snd (clearConversation secondTurn)))
                             blankPage)
          ++ [welcomeElement])%list.
Proof.
  apply (clear_persists (fun _ => Rejected) secondTurn
           (setLocalStorage (localStorage (snd (clearConversation secondTurn)))
                            blankPage)
           (Some (js "secret"))).
  - vm_compute. reflexivity.
  - vm_compute. reflexivity.
Defined.

(** ** When a send ends in an exception *)

Section Thrown.

Variable network : nat -> fetchResult.

Lemma attempt_classified (w : World) :
  match fst (handleStreamingResponse network w) with
  | Normal false => failsAt network (List.length (requests w))
  | Normal true => True
  | Throw e => throwsAt network (List.length (requests w)) e
  end.
Proof.
  unfold failsAt, throwsAt.
  destruct (network (List.length (requests w))) as [|r] eqn:Hnet.
  - rewrite (attempt_rejected network w Hnet). reflexivity.
  - destruct (ok r) eqn:Hok.
    + destruct (body r) as [stream|] eqn:Hbody.
      * destruct (readFails stream) eqn:Hfails.
        -- destruct (attempt_read_rejected network w r stream Hnet Hok Hbody Hfails)
             as (w1 & _ & Hrun).
           rewrite Hrun. cbn [fst]. repeat split.
        -- destruct (attempt_completed network w r stream Hnet Hok Hbody Hfails)
             as (w1 & _ & Hrun).
           rewrite Hrun. exact I.
      * rewrite (attempt_no_body network w r Hnet Hok Hbody). cbn [fst].
        repeat split.
    + destruct (location r) as [[|c target]|] eqn:Hloc.
      * rewrite (attempt_failed network w r Hnet).
        -- exists r. repeat split; [exact Hok | rewrite Hloc; reflexivity].
        -- split; [exact Hok | rewrite Hloc; reflexivity].
      * rewrite (attempt_redirect network w r (c :: target) Hnet); [exact I|].
        split; [exact Hok | split; [exact Hloc | discriminate]].
      * rewrite (attempt_failed network w r Hnet).
        -- exists r. repeat split; [exact Hok | rewrite Hloc; reflexivity].
        -- split; [exact Hok | rewrite Hloc; reflexivity].
Qed.

Lemma attempt_throws (w : World) (e : exn) :
  throwsAt network (List.length (requests w)) e ->
  fst (handleStreamingResponse network w) = Throw e.
Proof.
  unfold throwsAt.
  destruct (network (List.length (requests w))) as [|r] eqn:Hnet.
  - intros ->. rewrite (attempt_rejected network w Hnet). reflexivity.
  - intros [Hok Hbody]. destruct (body r) as [stream|] eqn:Hb.
    + destruct Hbody as [Hfails ->].
      destruct (attempt_read_rejected network w r stream Hnet Hok Hb Hfails)
        as (w1 & _ & Hrun).
      rewrite Hrun. reflexivity.
    + subst e. rewrite (attempt_no_body network w r Hnet Hok Hb). reflexivity.
Qed.

Lemma retry_thrown j attemptNumber w e :
  Pos.to_nat attemptNumber + j = 3 ->
  fst (handleStreamingResponseWithRetry network attemptNumber w) = Throw e ->
  exists k,
    k <= j
    /\ (forall i, i < k -> failsAt network (List.length (requests w) + i))
    /\ throwsAt network (List.length (requests w) + k) e.
Proof.
  revert attemptNumber w; induction j as [|j IH]; intros n w Hn;
    rewrite retry_unfold;
    pose proof (attempt_classified w) as Hclass;
    pose proof (attempt_cases network w) as Hcase;
    destruct (handleStreamingResponse network w) as [[[|]|e'] w1];
    cbn [fst snd] in Hclass, Hcase.
  1,4: discriminate.
  2,4: intros H; injection H as <-; exists 0;
       (split; [lia|]); (split; [intros i Hi; lia|]);
       rewrite Nat.add_0_r; exact Hclass.
  - assert (Hlt : Pos.ltb n MAX_RETRY_ATTEMPTS = false).
    { apply Pos.ltb_ge, Pos2Nat.inj_le.
      change (Pos.to_nat MAX_RETRY_ATTEMPTS) with 3. lia. }
    rewrite Hlt. discriminate.
  - assert (Hlt : Pos.ltb n MAX_RETRY_ATTEMPTS = true).
    { apply Pos.ltb_lt, Pos2Nat.inj_lt.
      change (Pos.to_nat MAX_RETRY_ATTEMPTS) with 3. lia. }
    rewrite Hlt. apply attemptResult_false in Hcase. subst w1.
    intros Hthrow.
    destruct (IH (n + 1)%positive (backedOff n (sent w)))
      as (k & Hk & Hfail & Hthrows).
    { rewrite Pos2Nat.inj_add. change (Pos.to_nat 1) with 1. lia. }
    { exact Hthrow. }
    rewrite backedOff_requests, sent_requests, length_app in Hfail, Hthrows.
    cbn [List.length] in Hfail, Hthrows.
    exists (S k). split; [lia|]. split.
    + intros [|i] Hi.
      * rewrite Nat.add_0_r. exact Hclass.
      * replace (List.length (requests w) + S i)
          with (List.length (requests w) + 1 + i) by lia.
        apply Hfail. lia.
    + replace (List.length (requests w) + S k)
        with (List.length (requests w) + 1 + k) by lia.
      exact Hthrows.
Qed.

End Thrown.

(** X15. A send ends in an exception exactly when, after fewer than three
    failed attempts, an attempt is cut short: its [fetch] is rejected, its
    ok response has no body, or the read of its body is rejected.  Only
    then, and always then, does the exception escape the submit handler. *)
Theorem send_throws_exactly_when (network : nat -> fetchResult) (w : World)
        (e : exn) :
  JsString.trim (inputValue w) <> [] ->
  fst (sendMessage network w) = Throw e
  <-> exists k,
        k < 3
        /\ (forall i, i < k -> failsAt network (List.length (requests w) + i))
        /\ throwsAt network (List.length (requests w) + k) e.
Proof.
  intros Hne. split.
  - rewrite (sendMessage_unfold network w Hne), sendWrapper_unfold.
    pose proof (retry_thrown network 2 1 (begun (userTurn w)) e eq_refl)
      as Hthrown.
    rewrite begun_requests, userTurn_requests in Hthrown.
    destruct (handleStreamingResponseWithRetry network 1 (begun (userTurn w)))
      as [[[|]|e'] w1]; cbn [fst] in *; try discriminate.
    intros H. injection H as ->.
    destruct (Hthrown eq_refl) as (k & Hk & Hfail & Hthrows).
    exists k. split; [lia|]. split; assumption.
  - intros (k & Hk & Hfail & Hthrows).
    destruct (exchange_attempt network w k Hne Hk Hfail)
      as (n & wk & Hrun & _ & _ & Hr).
    rewrite Hrun, retry_unfold. rewrite <- Hr in Hthrows.
    pose proof (attempt_throws network wk e Hthrows) as Hattempt.
    destruct (handleStreamingResponse network wk) as [[[|]|e'] w1];
      cbn [fst] in Hattempt; try discriminate.
    injection Hattempt as ->. reflexivity.
Qed.

Lemma send_throws_exactly_when_witness :
  fst (sendMessage (fun i => match i with
                             | O => failureResponse
                             | S _ => Rejected
                             end) (freshPage "hi"))
  = Throw NetworkError
  <-> exists k,
        k < 3
        /\ (forall i, i < k ->
                      failsAt (fun i => match i with
                                        | O => failureResponse
                                        | S _ => Rejected
                                        end)
                              (List.length (requests (freshPage "hi")) + i))
        /\ throwsAt (fun i => match i with
                              | O => failureResponse
                              | S _ => Rejected
                              end)
                    (List.length (requests (freshPage "hi")) + k)
                    NetworkError.
Proof.
  apply (send_throws_exactly_when
           (fun i => match i with O => failureResponse | S _ => Rejected end)
           (freshPage "hi") NetworkError).
  vm_compute. discriminate.
Defined.

(** ** When a send is rolled back *)

Lemma retry_false (network : nat -> fetchResult) j attemptNumber w :
  Pos.to_nat attemptNumber + j = 3 ->
  fst (handleStreamingResponseWithRetry network attemptNumber w)
  = Normal false ->
  forall i, i <= j -> failsAt network (List.length (requests w) + i).
Proof.
  revert attemptNumber w; induction j as [|j IH]; intros n w Hn;
    rewrite retry_unfold;
    pose proof (attempt_classified network w) as Hclass;
    pose proof (attempt_cases network w) as Hcase;
    destruct (handleStreamingResponse network w) as [[[|]|e'] w1];
    cbn [fst snd] in Hclass, Hcase; try discriminate.
  - intros _ i Hi. replace i with 0 by lia. rewrite Nat.add_0_r. exact Hclass.
  - assert (Hlt : Pos.ltb n MAX_RETRY_ATTEMPTS = true).
    { apply Pos.ltb_lt, Pos2Nat.inj_lt.
      change (Pos.to_nat MAX_RETRY_ATTEMPTS) with 3. lia. }
    rewrite Hlt. apply attemptResult_false in Hcase. subst w1.
    intros Hfalse [|i] Hi.
    + rewrite Nat.add_0_r. exact Hclass.
    + pose proof (IH (n + 1)%positive (backedOff n (sent w))) as Hnext.
      rewrite backedOff_requests, sent_requests, length_app in Hnext.
      cbn [List.length] in Hnext.
      replace (List.length (requests w) + S i)
        with (List.length (requests w) + 1 + i) by lia.
      apply Hnext; [|exact Hfalse|lia].
      rewrite Pos2Nat.inj_add. change (Pos.to_nat 1) with 1. lia.
Qed.

Lemma app_cons_not_self {A} (l : list A) (x : A) (tail : list A) :
  (l ++ x :: tail)%list <> l.
Proof.
  intros H. apply (f_equal (@List.length A)) in H.
  rewrite length_app in H. cbn [List.length] in H. lia.
Qed.

(** X16. A send leaves the history as it was before exactly when three
    attempts in a row get a failure response; in every other case the
    user's message stays in it. *)
Theorem send_rolls_back_exactly_when (network : nat -> fetchResult)
        (w : World) :
  JsString.trim (inputValue w) <> [] ->
  conversationHistory (snd (sendMessage network w)) = conversationHistory w
  <-> forall i, i < 3 -> failsAt network (List.length (requests w) + i).
Proof.
  intros Hne. split.
  - rewrite (sendMessage_unfold network w Hne), sendWrapper_unfold.
    pose proof (retry_outcome network 2 1 (begun (userTurn w)) eq_refl) as Hout.
    pose proof (retry_false network 2 1 (begun (userTurn w)) eq_refl) as Hfalse.
    rewrite begun_requests, userTurn_requests in Hfalse.
    assert (Hturn : conversationHistory (begun (userTurn w))
                    = (conversationHistory w ++ [userMessage w])%list).
    { rewrite begun_conversationHistory. apply userTurn_history. }
    destruct (handleStreamingResponseWithRetry network 1 (begun (userTurn w)))
      as [[[|]|e] w1]; cbn [fst snd] in *.
    + rewrite finished_conversationHistory.
      inversion Hout as [res w' Hkept | pending w2 Hkept Hempty]; subst.
      * rewrite (conversation_history _ _ Hkept), Hturn. intros H.
        exfalso. exact (app_cons_not_self _ _ _ H).
      * rewrite completedWith_history, Hempty,
          (conversation_history _ _ Hkept), Hturn, <- app_assoc.
        intros H. exfalso. exact (app_cons_not_self _ _ _ H).
    + intros _ i Hi. apply (Hfalse eq_refl). lia.
    + apply exchangeResult_thrown in Hout.
      rewrite finished_conversationHistory, (conversation_history _ _ Hout),
        Hturn.
      intros H. exfalso. exact (app_cons_not_self _ _ _ H).
  - intros Hfail.
    rewrite (sendMessage_unfold network w Hne), sendWrapper_unfold.
    rewrite retry_exhausted.
    2:{ intros i Hi. rewrite begun_requests, userTurn_requests.
        apply Hfail. exact Hi. }
    cbn [snd]. rewrite finished_conversationHistory.
    apply rolledBack_userTurn with (m := userMessage w); [|reflexivity].
    autorewrite with page. apply userTurn_history.
Qed.

Lemma send_rolls_back_exactly_when_witness :
  conversationHistory (snd (sendMessage (fun _ => failureResponse)
                                        (freshPage "hi")))
  = conversationHistory (freshPage "hi")
  <-> forall i, i < 3 ->
                failsAt (fun _ => failureResponse)
                        (List.length (requests (freshPage "hi")) + i).
Proof.
  apply (send_rolls_back_exactly_when (fun _ => failureResponse)
                                      (freshPage "hi")).
  vm_compute. discriminate.
Defined.
